(** * Conversation-context management and prompt assembly of the chat backend

    A shallow embedding of the backend's core, then its properties.

    The code:
    - [Py]: Python strings (sequences of code points), prefixes and slices;
    - [Models], [Orm], [Repository]: [database/models.py] and
      [database/repository.py], as a state-and-exception monad over an
      explicit store with transactions (unit of work, flush, commit,
      rollback), a clock, a source of identifiers and a database that may
      fail at any round trip;
    - [CsvService]: [services/csv_service.py] over a small model of the
      data frames it manipulates (pandas 2, where text columns have dtype
      [object]);
    - [LlmService]: [services/llm_service.py], the streaming generator with
      its fallback path, over an arbitrary provider;
    - [Schemas], [Routes]: the request schemas and the routes of
      [api/routes].

    The properties: the modules named [...Spec] hold the notions the
    statements need, the modules named [...Props] the lemmas and theorems. *)

From Stdlib Require Import ZArith QArith Qround String Ascii Bool Lia.
From stdpp Require Import base option list sorting gmap.

Set Warnings "-register-all".

Local Open Scope Z_scope.

(** ** Python strings *)

Module Py.

(** A Python [str] is a sequence of Unicode code points. *)
Abbreviation str := (list N).

Fixpoint bytes_of (s : string) : list N :=
  match s with
  | EmptyString => []
  | String a r => N_of_ascii a :: bytes_of r
  end.

Definition is_cont (b : N) : bool := ((128 <=? b) && (b <? 192))%N.

(** [bytes.decode("utf-8")]: strict decoding, [None] stands for
    [UnicodeDecodeError]. *)
Fixpoint decode_utf8 (bs : list N) : option str :=
  match bs with
  | [] => Some []
  | b0 :: r0 =>
    if (b0 <? 128)%N then cons b0 <$> decode_utf8 r0
    else if (b0 <? 194)%N then None
    else if (b0 <? 224)%N then
      match r0 with
      | b1 :: r1 =>
        if is_cont b1
        then cons ((b0 - 192) * 64 + (b1 - 128))%N <$> decode_utf8 r1
        else None
      | _ => None
      end
    else if (b0 <? 240)%N then
      match r0 with
      | b1 :: b2 :: r2 =>
        let cp := ((b0 - 224) * 4096 + (b1 - 128) * 64 + (b2 - 128))%N in
        if is_cont b1 && is_cont b2 && (2048 <=? cp)%N
           && negb ((55296 <=? cp) && (cp <? 57344))%N
        then cons cp <$> decode_utf8 r2
        else None
      | _ => None
      end
    else if (b0 <? 245)%N then
      match r0 with
      | b1 :: b2 :: b3 :: r3 =>
        let cp := ((b0 - 240) * 262144 + (b1 - 128) * 4096
                   + (b2 - 128) * 64 + (b3 - 128))%N in
        if is_cont b1 && is_cont b2 && is_cont b3
           && (65536 <=? cp)%N && (cp <? 1114112)%N
        then cons cp <$> decode_utf8 r3
        else None
      | _ => None
      end
    else None
  end.

(** [bytes.decode("latin-1")]: every byte is its own code point. *)
Definition decode_latin1 (bs : list N) : str := bs.

(** A string literal of the source (the file is UTF-8). *)
Definition lit (s : string) : str := default [] (decode_utf8 (bytes_of s)).
Arguments lit s%_string : simpl never.

(** The empty string and the double quote. *)
Definition empty : str := [].
Definition dquote : str := [34%N].

(** [s.startswith(p)] *)
Fixpoint startswith (s p : str) : bool :=
  match p, s with
  | [], _ => true
  | c :: p', d :: s' => (c =? d)%N && startswith s' p'
  | _ :: _, [] => false
  end.

(** [s.endswith(p)] *)
Definition endswith (s p : str) : bool := startswith (reverse s) (reverse p).

(** [s[:n]] *)
Definition slice_to {A} (n : nat) (s : list A) : list A := take n s.

(** [s[-n:]] for [n > 0] *)
Definition slice_last {A} (n : nat) (s : list A) : list A :=
  drop (length s - n) s.

(** [s[:-1]] *)
Definition slice_but_last {A} (s : list A) : list A :=
  take (length s - 1) s.

Arguments slice_to {A} n s : simpl never.
Arguments slice_last {A} n s : simpl never.
Arguments slice_but_last {A} s : simpl never.

(** Truthiness of a string and of an optional string ([None] and the
    empty string are falsy). *)
Definition truthy (s : str) : bool :=
  match s with [] => false | _ :: _ => true end.

Definition truthy_opt (o : option str) : bool :=
  match o with None => false | Some s => truthy s end.

Definition str_eqb (a b : str) : bool := bool_decide (a = b).

(** [sep.join(parts)] *)
Fixpoint join (sep : str) (parts : list str) : str :=
  match parts with
  | [] => []
  | [p] => p
  | p :: rest => p ++ sep ++ join sep rest
  end.

(** [str(n)] for an integer. *)
Definition digit_char (d : N) : N := (48 + d)%N.

Fixpoint digits_fuel (fuel : nat) (n : N) (acc : str) : str :=
  match fuel with
  | O => acc
  | S f =>
    let acc' := digit_char (n mod 10) :: acc in
    if (n <? 10)%N then acc' else digits_fuel f (n / 10) acc'
  end.

Definition str_of_N (n : N) : str := digits_fuel (S (N.to_nat (N.log2 n))) n [].

Definition str_of_Z (z : Z) : str :=
  if z <? 0 then 45%N :: str_of_N (Z.to_N (- z)) else str_of_N (Z.to_N z).

(** [c.isspace()] *)
Definition isspace (c : N) : bool :=
  ((9 <=? c) && (c <=? 13) || (28 <=? c) && (c <=? 32) || (c =? 133)
   || (c =? 160) || (c =? 5760) || (8192 <=? c) && (c <=? 8202)
   || (c =? 8232) || (c =? 8233) || (c =? 8239) || (c =? 8287)
   || (c =? 12288))%N.

(** [s.lstrip()] and [s.strip()] *)
Fixpoint lstrip (s : str) : str :=
  match s with
  | [] => []
  | c :: r => if isspace c then lstrip r else s
  end.

Definition strip (s : str) : str := reverse (lstrip (reverse (lstrip s))).

(** [s.split(sep)] for a separator of one character. *)
Fixpoint split (sep : N) (s : str) : list str :=
  match s with
  | [] => [[]]
  | c :: s' =>
    match split sep s' with
    | cur :: rest => if (c =? sep)%N then [] :: cur :: rest else (c :: cur) :: rest
    | [] => [[c]]
    end
  end.

End Py.

Import Py.

(** JSON-like values, as stored in the JSON columns and returned in
    response bodies. *)
Inductive json :=
| JNull
| JBool (b : bool)
| JInt (z : Z)
| JFloat (q : Q)
| JStr (s : str)
| JList (l : list json)
| JDict (d : list (str * json)).

(** ** Exceptions *)

Inductive exn_class :=
| ValueError
| ParserError
| UnicodeDecodeError
| HTTPException (status_code : Z)
| OtherError.

(** An exception with its class and its text ([str(e)]). *)
Record exn := mkExn { exn_cls : exn_class; exn_str : str }.

Inductive outcome (A : Type) :=
| Ret (a : A)
| Raise (e : exn).
Arguments Ret {A} a.
Arguments Raise {A} e.

(** ** Values exchanged with the CSV service *)

Module CsvTypes.

(** One entry of [numeric_stats]. *)
Record NumericStats := mkStats {
  st_mean : Q;
  st_median : Q;
  st_min : Q;
  st_max : Q;
  st_std : Q;
  st_count : Z;
  st_missing : Z
}.

(** A scalar held in a cell of a data frame or in a row dictionary. Floats
    are held as the rationals they denote; [PNaN] is the float NaN. *)
Inductive value :=
| PNone
| PNaN
| PInt (z : Z)
| PFloat (q : Q)
| PBool (b : bool)
| PStr (s : str).

(** A record of [to_dict(orient="records")]: column name to cell value. *)
Abbreviation Row := (list (str * value)).

(** The [csv_data] dictionary built by [parse_csv]. *)
Record CsvData := mkCsvData {
  cd_filename : str;
  cd_columns : list str;
  cd_row_count : Z;
  cd_displayed_rows : Z;
  cd_truncated : bool;
  cd_numeric_columns : list str;
  cd_text_columns : list str;
  cd_datetime_columns : list str;
  cd_dtypes : list (str * str);
  cd_sample_rows : list Row;
  cd_numeric_stats : list (str * NumericStats);
  cd_missing_values : list (str * Z)
}.

(** The [summary] dictionary built by [parse_csv]. *)
Record Summary := mkSummary {
  sm_row_count : Z;
  sm_column_count : Z;
  sm_columns : list str;
  sm_numeric_columns : list str;
  sm_text_columns : list str;
  sm_missing_values : list (str * Z);
  sm_numeric_stats : list (str * NumericStats);
  sm_most_missing_column : option str;
  sm_most_missing_count : Z;
  sm_text_summary : str;
  sm_sample_rows : list Row
}.

(** The [full_csv_data] dictionary that [set_active_csv] stores in the JSON
    column [csv_data]. *)
Record FullCsvData := mkFullCsvData {
  fd_sample_rows : list Row;
  fd_numeric_stats : list (str * NumericStats);
  fd_missing_values : list (str * Z);
  fd_dtypes : list (str * str)
}.

End CsvTypes.

Import CsvTypes.

(** ** The tables of [database/models.py] *)

Module Models.

Record Conversation := mkConversation {
  c_id : str;
  c_created_at : Z;
  c_updated_at : Z;
  c_title : option str;
  c_has_active_image : bool;
  c_image_filename : option str;
  c_has_active_csv : bool;
  c_csv_filename : option str;
  c_csv_summary : option str
}.

Record Message := mkMessage {
  m_id : str;
  m_conversation_id : str;
  m_role : str;
  m_content : str;
  m_timestamp : Z;
  m_image_url : option str;
  m_csv_info : option json;
  m_chart_data : option json
}.

(** The surrogate autoincrement keys of the two context tables are left out:
    [conversation_id] is unique in both, and is the key used everywhere. *)
Record ImageContext := mkImageContext {
  i_conversation_id : str;
  i_image_base64 : str;
  i_filename : option str;
  i_content_type : option str;
  i_uploaded_at : Z
}.

Record CSVContext := mkCSVContext {
  x_conversation_id : str;
  x_filename : option str;
  x_row_count : option Z;
  x_column_count : option Z;
  x_columns : option (list str);
  x_numeric_columns : option (list str);
  x_text_columns : option (list str);
  x_csv_data : option FullCsvData;
  x_summary_text : option str;
  x_uploaded_at : Z
}.

(** The database: [conversations] by primary key, [messages] in insertion
    order, the two context tables by their unique [conversation_id]. *)
Record DB := mkDB {
  conversations : gmap str Conversation;
  messages : list Message;
  image_contexts : gmap str ImageContext;
  csv_contexts : gmap str CSVContext
}.

Definition empty_db : DB := mkDB ∅ [] ∅ ∅.

Definition set_conversations (f : gmap str Conversation → gmap str Conversation)
    (d : DB) : DB :=
  mkDB (f (conversations d)) (messages d) (image_contexts d) (csv_contexts d).

Definition set_messages (f : list Message → list Message) (d : DB) : DB :=
  mkDB (conversations d) (f (messages d)) (image_contexts d) (csv_contexts d).

Definition set_image_contexts (f : gmap str ImageContext → gmap str ImageContext)
    (d : DB) : DB :=
  mkDB (conversations d) (messages d) (f (image_contexts d)) (csv_contexts d).

Definition set_csv_contexts (f : gmap str CSVContext → gmap str CSVContext)
    (d : DB) : DB :=
  mkDB (conversations d) (messages d) (image_contexts d) (f (csv_contexts d)).

(** Objects handed to [db.add], and objects handed to [db.delete]. *)
Inductive row :=
| RConversation (c : Conversation)
| RMessage (m : Message)
| RImageContext (i : ImageContext)
| RCSVContext (x : CSVContext).

Inductive row_ref :=
| DConversation (conv_id : str)
| DImageContext (conv_id : str)
| DCSVContext (conv_id : str).

(** INSERT of one row; [None] when a primary key or a unique constraint is
    violated. *)
Definition insert_row (r : row) (d : DB) : option DB :=
  match r with
  | RConversation c =>
    match conversations d !! c_id c with
    | Some _ => None
    | None => Some (set_conversations <[c_id c := c]> d)
    end
  | RMessage m =>
    if existsb (λ m', str_eqb (m_id m') (m_id m)) (messages d) then None
    else Some (set_messages (λ ms, ms ++ [m]) d)
  | RImageContext i =>
    match image_contexts d !! i_conversation_id i with
    | Some _ => None
    | None => Some (set_image_contexts <[i_conversation_id i := i]> d)
    end
  | RCSVContext x =>
    match csv_contexts d !! x_conversation_id x with
    | Some _ => None
    | None => Some (set_csv_contexts <[x_conversation_id x := x]> d)
    end
  end.

(** DELETE of one object. Deleting a conversation cascades to its messages
    and to its two contexts ([cascade="all, delete-orphan"]). *)
Definition delete_row (r : row_ref) (d : DB) : DB :=
  match r with
  | DConversation cid =>
    mkDB (delete cid (conversations d))
         (filter (λ m, m_conversation_id m ≠ cid) (messages d))
         (delete cid (image_contexts d))
         (delete cid (csv_contexts d))
  | DImageContext cid => set_image_contexts (delete cid) d
  | DCSVContext cid => set_csv_contexts (delete cid) d
  end.

Fixpoint insert_rows (rs : list row) (d : DB) : option DB :=
  match rs with
  | [] => Some d
  | r :: rs' =>
    match insert_row r d with
    | Some d' => insert_rows rs' d'
    | None => None
    end
  end.

Definition delete_rows (rs : list row_ref) (d : DB) : DB :=
  fold_left (λ acc r, delete_row r acc) rs d.

End Models.

Import Models.

(** ** The ORM session: a state-and-exception monad

    The world holds the committed database, the view of the open transaction
    ([pending]: every statement already sent), the unit of work of the
    session (objects added or deleted and not yet flushed), and how far the
    three sources of the environment have been read. *)

Module Orm.

Record Env := mkEnv {
  clock : nat → Z;                 (* successive readings of [datetime.utcnow()] *)
  uuid_src : nat → str;            (* successive values of [str(uuid.uuid4())] *)
  db_fault : nat → option exn;     (* the exception of the n-th round trip, if any *)
  integrity_error : exn            (* raised on a violated key or unique constraint *)
}.

Record World := mkWorld {
  committed : DB;
  pending : DB;
  session_new : list row;
  session_deleted : list row_ref;
  clock_reads : nat;
  uuid_draws : nat;
  db_trips : nat
}.

Definition initial_world : World := mkWorld empty_db empty_db [] [] 0 0 0.

Definition M (A : Type) : Type := World → outcome A * World.

#[export] Instance M_ret : MRet M := λ A a w, (Ret a, w).

#[export] Instance M_bind : MBind M := λ A B f m w,
  match m w with
  | (Ret a, w') => f a w'
  | (Raise e, w') => (Raise e, w')
  end.

Definition raise {A} (e : exn) : M A := λ w, (Raise e, w).

(** [try: m  except Exception as e: h e] *)
Definition try_except {A} (m : M A) (h : exn → M A) : M A := λ w,
  match m w with
  | (Ret a, w') => (Ret a, w')
  | (Raise e, w') => h e w'
  end.

(** [try: m  finally: f] *)
Definition try_finally {A} (m : M A) (f : M unit) : M A := λ w,
  match m w with
  | (r, w') =>
    match f w' with
    | (Ret _, w'') => (r, w'')
    | (Raise e, w'') => (Raise e, w'')
    end
  end.

Definition gets {A} (f : World → A) : M A := λ w, (Ret (f w), w).
Definition modify (f : World → World) : M unit := λ w, (Ret tt, f w).

Definition with_pending (f : DB → DB) (w : World) : World :=
  mkWorld (committed w) (f (pending w)) (session_new w) (session_deleted w)
          (clock_reads w) (uuid_draws w) (db_trips w).

(** The transaction is abandoned: its view and the unit of work are reset. *)
Definition abandon (w : World) : World :=
  mkWorld (committed w) (committed w) [] []
          (clock_reads w) (uuid_draws w) (db_trips w).

(** The transaction is published. *)
Definition publish (w : World) : World :=
  mkWorld (pending w) (pending w) [] []
          (clock_reads w) (uuid_draws w) (db_trips w).

Section Primitives.
Context (env : Env).

Definition utcnow : M Z := λ w,
  (Ret (clock env (clock_reads w)),
   mkWorld (committed w) (pending w) (session_new w) (session_deleted w)
           (S (clock_reads w)) (uuid_draws w) (db_trips w)).

Definition uuid4 : M str := λ w,
  (Ret (uuid_src env (uuid_draws w)),
   mkWorld (committed w) (pending w) (session_new w) (session_deleted w)
           (clock_reads w) (S (uuid_draws w)) (db_trips w)).

(** One round trip to the database, which may fail. *)
Definition round_trip : M unit := λ w,
  let w' := mkWorld (committed w) (pending w) (session_new w) (session_deleted w)
                    (clock_reads w) (uuid_draws w) (S (db_trips w)) in
  match db_fault env (db_trips w) with
  | Some e => (Raise e, w')
  | None => (Ret tt, w')
  end.

(** [db.query(...)...first()] / [.all()]: a SELECT inside the transaction. *)
Definition query {A} (f : DB → A) : M A :=
  round_trip;; gets (λ w, f (pending w)).

(** [db.query(...).filter(...).delete()]: a DELETE statement, sent at once. *)
Definition bulk_delete (r : row_ref) : M unit :=
  round_trip;; modify (with_pending (delete_row r)).

(** [db.add(obj)] and [db.delete(obj)]: recorded in the unit of work. *)
Definition db_add (r : row) : M unit := modify (λ w,
  mkWorld (committed w) (pending w) (session_new w ++ [r]) (session_deleted w)
          (clock_reads w) (uuid_draws w) (db_trips w)).

Definition db_delete (r : row_ref) : M unit := modify (λ w,
  mkWorld (committed w) (pending w) (session_new w) (session_deleted w ++ [r])
          (clock_reads w) (uuid_draws w) (db_trips w)).

(** An attribute assignment on a loaded conversation; the UPDATE it causes
    is folded into the transaction's view. *)
Definition assign (conv_id : str) (f : Conversation → Conversation) : M unit :=
  modify (with_pending (set_conversations (alter f conv_id))).

(** [db.flush()]: the unit of work sends its INSERTs first, then its DELETEs.
    A failure rolls the transaction back. *)
Definition flush : M unit := λ w,
  match round_trip w with
  | (Raise e, w') => (Raise e, abandon w')
  | (Ret _, w') =>
    match insert_rows (session_new w') (pending w') with
    | None => (Raise (integrity_error env), abandon w')
    | Some d =>
      (Ret tt,
       mkWorld (committed w') (delete_rows (session_deleted w') d) [] []
               (clock_reads w') (uuid_draws w') (db_trips w'))
    end
  end.

(** The COMMIT statement itself. *)
Definition send_commit : M unit := λ w,
  match round_trip w with
  | (Raise e, w') => (Raise e, abandon w')
  | (Ret _, w') => (Ret tt, publish w')
  end.

(** [db.commit()] *)
Definition commit : M unit := flush;; send_commit.

(** [db.rollback()] *)
Definition rollback : M unit := modify abandon.

(** The session object; a request has at most one open at a time. *)
Inductive Session := SessionLocal.

(** [get_db_session()] *)
Definition get_db_session : M Session :=
  modify abandon;; mret SessionLocal.

(** [db.close()]: work that was not committed is lost. *)
Definition close (db : Session) : M unit := modify abandon.

(** The prologue and epilogue shared by the repository functions:
    [close_db = False; if db is None: db = get_db_session(); close_db = True;
     try: body finally: if close_db: db.close()]. *)
Definition with_db {A} (db : option Session) (body : Session → M A) : M A :=
  match db with
  | None => s ← get_db_session; try_finally (body s) (close s)
  | Some s => body s
  end.

End Primitives.

(** An environment in which the database never fails. *)
Definition healthy (e : Env) : Env :=
  mkEnv (clock e) (uuid_src e) (λ _, None) (integrity_error e).

End Orm.

Import Orm.

(** ** [database/repository.py] *)

Module Repository.

(** The dictionaries returned by the repository. Times are kept as numbers;
    their rendering by [isoformat()] is left out. *)
Record MessageDict := mkMessageDict {
  md_id : str;
  md_role : str;
  md_content : str;
  md_timestamp : Z;
  md_image_url : option str;
  md_csv_data : option json;
  md_chart_data : option json
}.

Definition message_dict (msg : Message) : MessageDict :=
  mkMessageDict (m_id msg) (m_role msg) (m_content msg) (m_timestamp msg)
                (m_image_url msg) (m_csv_info msg) (m_chart_data msg).

(** The [active_csv] entry of [get_conversation]. *)
Record CsvBrief := mkCsvBrief {
  cb_filename : option str;
  cb_row_count : option Z;
  cb_column_count : option Z;
  cb_columns : list str;
  cb_numeric_columns : list str;
  cb_text_columns : list str;
  cb_data : option FullCsvData
}.

Record ContextDict := mkContextDict {
  k_active_image : option str;
  k_image_filename : option str;
  k_active_csv : option CsvBrief;
  k_csv_filename : option str;
  k_csv_summary : option str
}.

Record ConversationDict := mkConversationDict {
  v_id : str;
  v_created_at : Z;
  v_updated_at : Z;
  v_messages : list MessageDict;
  v_context : ContextDict
}.

(** The dictionary of [get_active_csv]. *)
Record ActiveCsv := mkActiveCsv {
  a_filename : option str;
  a_row_count : option Z;
  a_column_count : option Z;
  a_columns : list str;
  a_numeric_columns : list str;
  a_text_columns : list str;
  a_sample_rows : list Row;
  a_numeric_stats : list (str * NumericStats);
  a_missing_values : list (str * Z);
  a_dtypes : list (str * str)
}.

(** The dictionary of [get_conversation_context]. *)
Record ContextInfo := mkContextInfo {
  ci_has_image : bool;
  ci_image_filename : option str;
  ci_has_csv : bool;
  ci_csv_filename : option str;
  ci_csv_summary : option str
}.

(** One entry of [get_message_history_for_llm]. *)
Record HistoryItem := mkHistoryItem { h_role : str; h_content : str }.

Definition set_updated_at (t : Z) (c : Conversation) : Conversation :=
  mkConversation (c_id c) (c_created_at c) t (c_title c)
    (c_has_active_image c) (c_image_filename c)
    (c_has_active_csv c) (c_csv_filename c) (c_csv_summary c).

Definition set_title (t : option str) (c : Conversation) : Conversation :=
  mkConversation (c_id c) (c_created_at c) (c_updated_at c) t
    (c_has_active_image c) (c_image_filename c)
    (c_has_active_csv c) (c_csv_filename c) (c_csv_summary c).

Definition set_image_flags (b : bool) (fn : option str) (c : Conversation)
    : Conversation :=
  mkConversation (c_id c) (c_created_at c) (c_updated_at c) (c_title c)
    b fn (c_has_active_csv c) (c_csv_filename c) (c_csv_summary c).

Definition set_csv_flags (b : bool) (fn sm : option str) (c : Conversation)
    : Conversation :=
  mkConversation (c_id c) (c_created_at c) (c_updated_at c) (c_title c)
    (c_has_active_image c) (c_image_filename c) b fn sm.

Definition messages_of (conv_id : str) (d : DB) : list Message :=
  filter (λ m, m_conversation_id m = conv_id) (messages d).

(** [ORDER BY timestamp] and [ORDER BY timestamp DESC]. *)
Definition not_after (a b : Message) : Prop := m_timestamp a ≤ m_timestamp b.

#[export] Instance not_after_dec a b : Decision (not_after a b).
Proof. unfold not_after. apply _. Defined.

Definition order_by_timestamp (ms : list Message) : list Message :=
  merge_sort not_after ms.

Definition order_by_timestamp_desc (ms : list Message) : list Message :=
  merge_sort (flip not_after) ms.

Section WithEnv.
Context (env : Env).

Definition create_conversation (db : option Session) : M ConversationDict :=
  with_db db (λ _,
    conv_id ← uuid4 env;
    created ← utcnow env;
    updated ← utcnow env;
    let conversation :=
      mkConversation conv_id created updated None false None false None None in
    db_add (RConversation conversation);;
    commit env;;
    round_trip env;;  (* db.refresh(conversation) *)
    mret (mkConversationDict (c_id conversation) (c_created_at conversation)
            (c_updated_at conversation) []
            (mkContextDict None None None None None))).

Definition get_conversation (conv_id : str) (db : option Session)
    : M (option ConversationDict) :=
  with_db db (λ _,
    conversation ← query env (λ d, conversations d !! conv_id);
    match conversation with
    | None => mret None
    | Some c =>
      msgs ← query env (messages_of conv_id);
      image_context ← query env (λ d, image_contexts d !! conv_id);
      csv_context ← query env (λ d, csv_contexts d !! conv_id);
      let active_image := i_image_base64 <$> image_context in
      let active_csv :=
        (λ x, mkCsvBrief (x_filename x) (x_row_count x) (x_column_count x)
                (default [] (x_columns x)) (default [] (x_numeric_columns x))
                (default [] (x_text_columns x)) (x_csv_data x)) <$> csv_context in
      mret (Some (mkConversationDict (c_id c) (c_created_at c) (c_updated_at c)
              (message_dict <$> msgs)
              (mkContextDict active_image (c_image_filename c) active_csv
                 (c_csv_filename c) (c_csv_summary c))))
    end).

Definition delete_conversation (conv_id : str) (db : option Session) : M bool :=
  with_db db (λ _,
    conversation ← query env (λ d, conversations d !! conv_id);
    match conversation with
    | Some _ => db_delete (DConversation conv_id);; commit env;; mret true
    | None => mret false
    end).

Definition not_found_text (conv_id : str) : str :=
  lit "Conversation " ++ conv_id ++ lit " not found".

Definition add_message (conv_id role content : str)
    (image_url : option str) (csv_data chart_data : option json)
    (db : option Session) : M MessageDict :=
  with_db db (λ _,
    conversation ← query env (λ d, conversations d !! conv_id);
    match conversation with
    | None => raise (mkExn ValueError (not_found_text conv_id))
    | Some c =>
      new_id ← uuid4 env;
      ts ← utcnow env;
      let message :=
        mkMessage new_id conv_id role content ts image_url csv_data chart_data in
      db_add (RMessage message);;
      updated ← utcnow env;
      assign conv_id (set_updated_at updated);;
      (* Update title from first user message *)
      (if negb (truthy_opt (c_title c)) && str_eqb role (lit "user")
          && negb (startswith content (lit "["))
       then assign conv_id (set_title (Some (slice_to 100 content)))
       else mret tt);;
      commit env;;
      round_trip env;;  (* db.refresh(message) *)
      mret (message_dict message)
    end).

Definition get_messages (conv_id : str) (db : option Session)
    : M (list MessageDict) :=
  with_db db (λ _,
    msgs ← query env (λ d, order_by_timestamp (messages_of conv_id d));
    mret (message_dict <$> msgs)).

Definition get_message_history_for_llm (conv_id : str) (limit : nat)
    (db : option Session) : M (list HistoryItem) :=
  with_db db (λ _,
    msgs ← query env (λ d,
              take limit (order_by_timestamp_desc (messages_of conv_id d)));
    (* Reverse to get chronological order *)
    let msgs := reverse msgs in
    mret ((λ msg, mkHistoryItem (m_role msg) (m_content msg)) <$> msgs)).

Definition set_active_image (conv_id image_base64 filename : str)
    (db : option Session) : M unit :=
  with_db db (λ _,
    conversation ← query env (λ d, conversations d !! conv_id);
    match conversation with
    | None => mret tt
    | Some _ =>
      (* Remove existing image context (no flush follows this delete) *)
      existing ← query env (λ d, image_contexts d !! conv_id);
      (if existing is Some _ then db_delete (DImageContext conv_id) else mret tt);;
      (* Add new image context *)
      uploaded ← utcnow env;
      db_add (RImageContext
                (mkImageContext conv_id image_base64 (Some filename) None uploaded));;
      (* Update conversation flags *)
      assign conv_id (set_image_flags true (Some filename));;
      updated ← utcnow env;
      assign conv_id (set_updated_at updated);;
      commit env
    end).

Definition get_active_image (conv_id : str) (db : option Session)
    : M (option str) :=
  with_db db (λ _,
    image_context ← query env (λ d, image_contexts d !! conv_id);
    mret (i_image_base64 <$> image_context)).

Definition clear_image_context (conv_id : str) (db : option Session) : M unit :=
  with_db db (λ _,
    (* Delete image context *)
    bulk_delete env (DImageContext conv_id);;
    (* Update conversation flags *)
    conversation ← query env (λ d, conversations d !! conv_id);
    (if conversation is Some _ then
       assign conv_id (set_image_flags false None);;
       updated ← utcnow env;
       assign conv_id (set_updated_at updated)
     else mret tt);;
    commit env).

Definition set_active_csv (conv_id : str) (csv_data : CsvData)
    (filename summary : str) (db : option Session) : M unit :=
  with_db db (λ _,
    try_except
      (conversation ← query env (λ d, conversations d !! conv_id);
       match conversation with
       | None => mret tt
       | Some _ =>
         (* Remove existing CSV context *)
         existing ← query env (λ d, csv_contexts d !! conv_id);
         (if existing is Some _
          then db_delete (DCSVContext conv_id);; flush env
          else mret tt);;
         (* Prepare full CSV data for storage *)
         let full_csv_data :=
           mkFullCsvData (cd_sample_rows csv_data) (cd_numeric_stats csv_data)
                         (cd_missing_values csv_data) (cd_dtypes csv_data) in
         (* Add new CSV context *)
         uploaded ← utcnow env;
         db_add (RCSVContext
                   (mkCSVContext conv_id (Some filename)
                      (Some (cd_row_count csv_data))
                      (Some (Z.of_nat (length (cd_columns csv_data))))
                      (Some (cd_columns csv_data))
                      (Some (cd_numeric_columns csv_data))
                      (Some (cd_text_columns csv_data))
                      (Some full_csv_data) (Some summary) uploaded));;
         (* Update conversation flags *)
         assign conv_id (set_csv_flags true (Some filename) (Some summary));;
         updated ← utcnow env;
         assign conv_id (set_updated_at updated);;
         commit env
       end)
      (λ e, rollback;; raise e)).

Definition get_active_csv (conv_id : str) (db : option Session)
    : M (option ActiveCsv) :=
  with_db db (λ _,
    csv_context ← query env (λ d, csv_contexts d !! conv_id);
    match csv_context with
    | None => mret None
    | Some x =>
      let csv_data := default (mkFullCsvData [] [] [] []) (x_csv_data x) in
      mret (Some (mkActiveCsv (x_filename x) (x_row_count x) (x_column_count x)
              (default [] (x_columns x)) (default [] (x_numeric_columns x))
              (default [] (x_text_columns x))
              (fd_sample_rows csv_data) (fd_numeric_stats csv_data)
              (fd_missing_values csv_data) (fd_dtypes csv_data)))
    end).

Definition get_csv_summary (conv_id : str) (db : option Session)
    : M (option str) :=
  with_db db (λ _,
    conversation ← query env (λ d, conversations d !! conv_id);
    mret (conversation ≫= c_csv_summary)).

Definition clear_csv_context (conv_id : str) (db : option Session) : M unit :=
  with_db db (λ _,
    (* Delete CSV context *)
    bulk_delete env (DCSVContext conv_id);;
    (* Update conversation flags *)
    conversation ← query env (λ d, conversations d !! conv_id);
    (if conversation is Some _ then
       assign conv_id (set_csv_flags false None None);;
       updated ← utcnow env;
       assign conv_id (set_updated_at updated)
     else mret tt);;
    commit env).

Definition clear_all_context (conv_id : str) (db : option Session) : M unit :=
  with_db db (λ s,
    clear_image_context conv_id (Some s);;
    clear_csv_context conv_id (Some s)).

Definition get_conversation_context (conv_id : str) (db : option Session)
    : M (option ContextInfo) :=
  with_db db (λ _,
    conversation ← query env (λ d, conversations d !! conv_id);
    mret ((λ c, mkContextInfo (c_has_active_image c) (c_image_filename c)
                  (c_has_active_csv c) (c_csv_filename c) (c_csv_summary c))
          <$> conversation)).

End WithEnv.

Arguments create_conversation : simpl never.
Arguments get_conversation : simpl never.
Arguments delete_conversation : simpl never.
Arguments add_message : simpl never.
Arguments get_messages : simpl never.
Arguments get_message_history_for_llm : simpl never.
Arguments set_active_image : simpl never.
Arguments get_active_image : simpl never.
Arguments clear_image_context : simpl never.
Arguments set_active_csv : simpl never.
Arguments get_active_csv : simpl never.
Arguments get_csv_summary : simpl never.
Arguments clear_csv_context : simpl never.
Arguments clear_all_context : simpl never.
Arguments get_conversation_context : simpl never.

(** *** The listing and the two small accessors *)

(** One entry of [get_all_conversations]. *)
Record ConversationListItem := mkConversationListItem {
  li_id : str;
  li_created_at : Z;
  li_updated_at : Z;
  li_message_count : Z;
  li_preview : str;
  li_has_image : bool;
  li_has_csv : bool
}.

(** [ORDER BY updated_at DESC] *)
Definition updated_not_before (a b : Conversation) : Prop :=
  c_updated_at b ≤ c_updated_at a.

#[export] Instance updated_not_before_dec a b : Decision (updated_not_before a b).
Proof. unfold updated_not_before. apply _. Defined.

Definition order_by_updated_at_desc (cs : list Conversation) : list Conversation :=
  merge_sort updated_not_before cs.

(** The rows of the [conversations] table. *)
Definition all_conversations (d : DB) : list Conversation :=
  snd <$> map_to_list (conversations d).

(** The preview loop:
    [preview = "New conversation"
     for msg in conv.messages:
         if msg.role == "user" and not msg.content.startswith("["):
             preview = msg.content[:50] + ("..." if len(msg.content) > 50 else "")
             break]. *)
Fixpoint preview_of (msgs : list Message) : str :=
  match msgs with
  | [] => lit "New conversation"
  | msg :: rest =>
    if str_eqb (m_role msg) (lit "user") && negb (startswith (m_content msg) (lit "["))
    then slice_to 50 (m_content msg)
           ++ (if (50 <? length (m_content msg))%nat then lit "..." else empty)
    else preview_of rest
  end.

(** A comprehension or loop whose body talks to the database. *)
Fixpoint for_each {A B} (f : A → M B) (xs : list A) : M (list B) :=
  match xs with
  | [] => mret []
  | x :: rest => y ← f x; ys ← for_each f rest; mret (y :: ys)
  end.

Section Listing.
Context (env : Env).

Definition get_all_conversations (db : option Session)
    : M (list ConversationListItem) :=
  with_db db (λ _,
    convs ← query env (λ d, order_by_updated_at_desc (all_conversations d));
    for_each (λ conv,
      (* conv.messages is loaded at its first use *)
      msgs ← query env (messages_of (c_id conv));
      (* Get preview from first user message *)
      let preview := preview_of msgs in
      mret (mkConversationListItem (c_id conv) (c_created_at conv)
              (c_updated_at conv) (Z.of_nat (length msgs)) preview
              (c_has_active_image conv) (c_has_active_csv conv)))
      convs).

Definition update_conversation_timestamp (conv_id : str) (db : option Session)
    : M unit :=
  with_db db (λ _,
    conversation ← query env (λ d, conversations d !! conv_id);
    if conversation is Some _ then
      updated ← utcnow env;
      assign conv_id (set_updated_at updated);;
      commit env
    else mret tt).

Definition get_image_filename (conv_id : str) (db : option Session)
    : M (option str) :=
  with_db db (λ _,
    conversation ← query env (λ d, conversations d !! conv_id);
    mret (conversation ≫= c_image_filename)).

End Listing.

Arguments get_all_conversations : simpl never.
Arguments update_conversation_timestamp : simpl never.
Arguments get_image_filename : simpl never.

End Repository.

(** ** [services/csv_service.py] *)

Module CsvService.

(** *** Data frames

    The part of pandas that [parse_csv] relies on: a frame is a list of
    typed columns and a list of rows of cells; a missing cell is [PNaN]. *)

Inductive dtype := Int64 | Float64 | BoolT | ObjectT | CategoryT | DatetimeT.

Abbreviation cell := value.

Record DataFrame := mkDataFrame {
  df_columns : list (str * dtype);
  df_rows : list (list cell)
}.

(** [len(df)] *)
Definition len (df : DataFrame) : nat := length (df_rows df).

(** [df.head(n)] *)
Definition head (n : nat) (df : DataFrame) : DataFrame :=
  mkDataFrame (df_columns df) (take n (df_rows df)).

(** [df.columns.tolist()] *)
Definition columns (df : DataFrame) : list str := fst <$> df_columns df.

(** [str(dtype)] *)
Definition dtype_name (t : dtype) : str :=
  match t with
  | Int64 => lit "int64"
  | Float64 => lit "float64"
  | BoolT => lit "bool"
  | ObjectT => lit "object"
  | CategoryT => lit "category"
  | DatetimeT => lit "datetime64[ns]"
  end.

Definition is_number (t : dtype) : bool :=
  match t with Int64 | Float64 => true | _ => false end.

Definition is_object_or_category (t : dtype) : bool :=
  match t with ObjectT | CategoryT => true | _ => false end.

Definition is_datetime (t : dtype) : bool :=
  match t with DatetimeT => true | _ => false end.

(** [df.select_dtypes(include=...).columns.tolist()] *)
Definition select_dtypes (include : dtype → bool) (df : DataFrame) : list str :=
  fst <$> filter (λ c, include (snd c) = true) (df_columns df).

Fixpoint index_of (name : str) (cols : list (str * dtype)) : option nat :=
  match cols with
  | [] => None
  | (n, _) :: rest =>
    if str_eqb n name then Some O else S <$> index_of name rest
  end.

(** [df[col]]: the cells of one column, top to bottom. *)
Definition column (df : DataFrame) (col : str) : list cell :=
  match index_of col (df_columns df) with
  | Some i => (λ r, nth i r PNaN) <$> df_rows df
  | None => []
  end.

(** [pd.isna(value)] *)
Definition isna (c : cell) : bool :=
  match c with PNone | PNaN => true | _ => false end.

(** [series.dropna()], read as numbers. *)
Definition numeric_value (c : cell) : option Q :=
  match c with
  | PInt z => Some (inject_Z z)
  | PFloat q => Some q
  | PBool b => Some (if b then 1%Q else 0%Q)
  | _ => None
  end.

Definition dropna (s : list cell) : list Q := omap numeric_value s.

(** [int(series.isnull().sum())] *)
Definition count_missing (s : list cell) : Z :=
  Z.of_nat (length (filter (λ c, isna c = true) s)).

(** *** Statistics

    Floats are modelled by exact rationals; a value rounded to two decimals
    is kept in lowest terms. *)

(** Nearest integer, ties to even. *)
Definition round_half_even (x : Q) : Z :=
  let n := Qnum x in
  let d := Zpos (Qden x) in
  let f := n / d in
  let r := n mod d in
  match 2 * r ?= d with
  | Lt => f
  | Gt => f + 1
  | Eq => if Z.even f then f else f + 1
  end.

(** [round(x, 2)] *)
Definition round2 (x : Q) : Q := Qred (round_half_even (x * 100) # 100).

(** [round(sqrt(v), 2)]: the hundredth nearest to the square root. *)
Definition round2_sqrt (v : Q) : Q :=
  let m := Z.sqrt (Qfloor (v * 40000)) in
  Qred (((m + 1) / 2) # 100).

Definition qsum (xs : list Q) : Q := foldr Qplus 0%Q xs.

Definition qmean (xs : list Q) : Q := (qsum xs / inject_Z (Z.of_nat (length xs)))%Q.

Fixpoint qinsert (x : Q) (l : list Q) : list Q :=
  match l with
  | [] => [x]
  | y :: l' => if Qle_bool x y then x :: l else y :: qinsert x l'
  end.

Definition qsort (xs : list Q) : list Q := foldr qinsert [] xs.

Definition qmedian (xs : list Q) : Q :=
  let s := qsort xs in
  let n := length s in
  if Nat.even n
  then ((nth (n / 2 - 1) s 0 + nth (n / 2) s 0) / 2)%Q
  else nth (n / 2) s 0%Q.

Definition qmin (xs : list Q) : Q := nth 0 (qsort xs) 0%Q.
Definition qmax (xs : list Q) : Q := nth 0 (reverse (qsort xs)) 0%Q.

(** Sample variance ([ddof = 1]). *)
Definition qvar (xs : list Q) : Q :=
  let mu := qmean xs in
  (qsum ((λ x, (x - mu) * (x - mu)) <$> xs)
   / inject_Z (Z.of_nat (length xs) - 1))%Q.

Definition column_stats (s : list cell) : option NumericStats :=
  let col_data := dropna s in
  if (0 <? length col_data)%nat then
    Some (mkStats
            (round2 (qmean col_data))
            (round2 (qmedian col_data))
            (round2 (qmin col_data))
            (round2 (qmax col_data))
            (if (1 <? length col_data)%nat then round2_sqrt (qvar col_data) else 0%Q)
            (Z.of_nat (length col_data))
            (count_missing s))
  else None.

(** The loop over [numeric_columns]. *)
Definition numeric_stats_of (df : DataFrame) (numeric_columns : list str)
    : list (str * NumericStats) :=
  omap (λ col, pair col <$> column_stats (column df col)) numeric_columns.

(** [{k: int(v) for k, v in df.isnull().sum().to_dict().items()}] *)
Definition missing_values_of (df : DataFrame) : list (str * Z) :=
  (λ col, (col, count_missing (column df col))) <$> columns df.

(** The search for the most missing column: a later column wins only with
    a strictly larger count. *)
Definition most_missing (missing_values : list (str * Z)) : option str * Z :=
  fold_left (λ (acc : option str * Z) (kv : str * Z),
               if snd acc <? snd kv then (Some (fst kv), snd kv) else acc)
            missing_values (None, 0).

(** *** Sample rows *)

(** [df.fillna(v)] *)
Definition fillna (v : cell) (df : DataFrame) : DataFrame :=
  mkDataFrame (df_columns df)
    ((λ r : list cell, (λ c, if isna c then v else c) <$> r) <$> df_rows df).

(** [df.to_dict(orient="records")] *)
Definition to_dict_records (df : DataFrame) : list Row :=
  (λ r : list cell, zip (columns df) r) <$> df_rows df.

(** The body of the cleaning loop:
    [if pd.isna(value): row[key] = None
     elif isinstance(value, float) and value != value: row[key] = None]. *)
Definition clean_value (v : value) : value :=
  if isna v then PNone
  else match v with PNaN => PNone | _ => v end.

Definition clean_row (r : Row) : Row :=
  (λ kv : str * value, (fst kv, clean_value (snd kv))) <$> r.

Definition MAX_ROWS_DISPLAY : nat := 100.
Definition MAX_ROWS_CONTEXT : nat := 1000.

Definition sample_rows_of (df : DataFrame) : list Row :=
  clean_row <$> to_dict_records (fillna (PStr (empty)) (head MAX_ROWS_DISPLAY df)).

(** *** The text summary *)

(** [f"{n:,}"] *)
Fixpoint group3 (rev_digits : str) (k : nat) : str :=
  match rev_digits with
  | [] => []
  | d :: rest =>
    match k with
    | 3%nat => 44%N :: d :: group3 rest 1
    | _ => d :: group3 rest (S k)
    end
  end.

Definition with_commas_N (n : N) : str :=
  reverse (group3 (reverse (str_of_N n)) 0).

Definition with_commas (z : Z) : str :=
  if z <? 0 then 45%N :: with_commas_N (Z.to_N (- z)) else with_commas_N (Z.to_N z).

(** [f"{x:.1f}"] for [x >= 0] *)
Definition format_1f (x : Q) : str :=
  let k := round_half_even (x * 10) in
  str_of_Z (k / 10) ++ lit "." ++ str_of_Z (k mod 10).

(** [sorted(items, key=lambda x: -x[1])]: stable, largest count first. *)
Fixpoint insert_by_count (x : str * Z) (l : list (str * Z)) : list (str * Z) :=
  match l with
  | [] => [x]
  | y :: l' => if snd x <? snd y then y :: insert_by_count x l' else x :: l
  end.

Definition sorted_by_count (items : list (str * Z)) : list (str * Z) :=
  foldr insert_by_count [] items.

Definition column_list (cols : list str) : str :=
  match cols with
  | [] => lit "None"
  | _ => join (lit ", ") cols
  end.

Definition _generate_text_summary (df : DataFrame) (filename : str)
    (numeric_columns text_columns : list str) (missing_values : list (str * Z))
    : str :=
  let lines :=
    [ lit "**Dataset: " ++ filename ++ lit "**";
      lit "- **Total rows**: " ++ with_commas (Z.of_nat (len df));
      lit "- **Total columns**: " ++ str_of_Z (Z.of_nat (length (df_columns df)));
      empty;
      lit "**Numeric columns** ("
        ++ str_of_Z (Z.of_nat (length numeric_columns)) ++ lit "): "
        ++ column_list numeric_columns;
      lit "**Text columns** ("
        ++ str_of_Z (Z.of_nat (length text_columns)) ++ lit "): "
        ++ column_list text_columns ] in
  (* Missing values info *)
  let cols_with_missing := filter (λ kv : str * Z, 0 < snd kv) missing_values in
  let lines :=
    match cols_with_missing with
    | _ :: _ =>
      lines ++ [empty; lit "**Missing values:**"]
        ++ ((λ kv : str * Z,
               let pct := (inject_Z (snd kv) / inject_Z (Z.of_nat (len df)) * 100)%Q in
               lit "  - " ++ fst kv ++ lit ": " ++ with_commas (snd kv)
                 ++ lit " (" ++ format_1f pct ++ lit "%)")
            <$> slice_to 5 (sorted_by_count cols_with_missing))
    | [] => lines ++ [empty; lit "**Missing values:** None"]
    end in
  join [10%N] lines.

(** *** [parse_csv] *)

(** [parse_csv] once the frame has been read. *)
Definition parse_frame (df : DataFrame) (filename : str) : CsvData * Summary :=
  (* Limit rows for memory *)
  let df_full := df in
  let truncated := bool_decide (MAX_ROWS_CONTEXT < len df)%nat in
  let df := if truncated then head MAX_ROWS_CONTEXT df else df in
  (* Identify column types *)
  let numeric_columns := select_dtypes is_number df in
  let text_columns := select_dtypes is_object_or_category df in
  let datetime_columns := select_dtypes is_datetime df in
  (* Generate numeric statistics *)
  let numeric_stats := numeric_stats_of df numeric_columns in
  (* Missing values analysis *)
  let missing_values := missing_values_of df in
  (* Find most missing column *)
  let '(most_missing_col, most_missing_count) := most_missing missing_values in
  (* Sample rows for display and context *)
  let sample_rows := sample_rows_of df in
  (* Build CSV data structure *)
  let csv_data :=
    mkCsvData filename (columns df) (Z.of_nat (len df_full)) (Z.of_nat (len df))
      truncated numeric_columns text_columns datetime_columns
      ((λ c : str * dtype, (fst c, dtype_name (snd c))) <$> df_columns df)
      sample_rows numeric_stats missing_values in
  (* Build summary *)
  let text_summary :=
    _generate_text_summary df_full filename numeric_columns text_columns
      missing_values in
  let summary :=
    mkSummary (Z.of_nat (len df_full)) (Z.of_nat (length (df_columns df)))
      (columns df) numeric_columns text_columns missing_values numeric_stats
      most_missing_col most_missing_count text_summary (slice_to 5 sample_rows) in
  (csv_data, summary).

Inductive engine := CEngine | PythonSkipBadLines.

Section WithReader.
(** [pd.read_csv(StringIO(content))] and
    [pd.read_csv(StringIO(content), engine='python', on_bad_lines='skip')]. *)
Context (read_csv : engine → str → outcome DataFrame).

Definition read_frame (content : str) : outcome DataFrame :=
  match read_csv CEngine content with
  | Ret df => Ret df
  | Raise e =>
    match exn_cls e with
    | ParserError =>
      match read_csv PythonSkipBadLines content with
      | Ret df => Ret df
      | Raise e' =>
        Raise (mkExn ValueError (lit "File nát quá cứu không nổi: " ++ exn_str e'))
      end
    | _ => Raise (mkExn ValueError (lit "Lỗi parse CSV: " ++ exn_str e))
    end
  end.

Definition parse_csv (content filename : str) : outcome (CsvData * Summary) :=
  match read_frame content with
  | Ret df => Ret (parse_frame df filename)
  | Raise e => Raise e
  end.

End WithReader.

(** *** A reader for plain delimited text

    [pd.read_csv] belongs to pandas. This reader follows it on plain
    comma-delimited text with a header line: no quoting, numbers written as
    optionally signed digits with at most one decimal point, and a data line
    with more fields than the header counted as malformed (an error for the
    default engine, skipped by the lenient one). *)

Fixpoint split_on (sep : N) (s : str) : list str :=
  match s with
  | [] => [[]]
  | c :: s' =>
    match split_on sep s' with
    | cur :: rest => if (c =? sep)%N then [] :: cur :: rest else (c :: cur) :: rest
    | [] => [[c]]
    end
  end.

Definition strip_cr (line : str) : str :=
  match reverse line with
  | 13%N :: r => reverse r
  | _ => line
  end.

Definition digit_val (c : N) : option N :=
  if ((48 <=? c) && (c <=? 57))%N then Some (c - 48)%N else None.

Fixpoint parse_digits (s : str) (acc : N) : option N :=
  match s with
  | [] => Some acc
  | c :: r => d ← digit_val c; parse_digits r (acc * 10 + d)%N
  end.

Definition split_sign (s : str) : bool * str :=
  match s with
  | 45%N :: r => (true, r)
  | 43%N :: r => (false, r)
  | _ => (false, s)
  end.

Definition parse_int (s : str) : option Z :=
  let '(neg, r) := split_sign s in
  match r with
  | [] => None
  | _ => n ← parse_digits r 0; Some (if neg then - Z.of_N n else Z.of_N n)
  end.

Definition parse_dec (s : str) : option Q :=
  let '(neg, r) := split_sign s in
  match split_on 46 r with
  | [ip; fp] =>
    match ip ++ fp with
    | [] => None
    | _ =>
      i ← parse_digits ip 0;
      f ← parse_digits fp 0;
      let scale := (10 ^ N.of_nat (length fp))%N in
      let m := Z.of_N (i * scale + f) in
      Some (Qred ((if neg then - m else m) # Z.to_pos (Z.of_N scale)))
    end
  | _ => None
  end.

(** The strings pandas reads as missing by default. *)
Definition na_values : list str :=
  [ empty; lit "#N/A"; lit "#N/A N/A"; lit "#NA"; lit "-1.#IND"; lit "-1.#QNAN";
    lit "-NaN"; lit "-nan"; lit "1.#IND"; lit "1.#QNAN"; lit "<NA>"; lit "N/A";
    lit "NA"; lit "NULL"; lit "NaN"; lit "None"; lit "n/a"; lit "nan"; lit "null" ].

Definition is_na (f : str) : bool := existsb (str_eqb f) na_values.

Definition parse_bool (f : str) : option bool :=
  if existsb (str_eqb f) [lit "True"; lit "TRUE"; lit "true"] then Some true
  else if existsb (str_eqb f) [lit "False"; lit "FALSE"; lit "false"] then Some false
  else None.

Definition present (fields : list str) : list str :=
  filter (λ f, is_na f = false) fields.

Definition all_parse {A} (p : str → option A) (fields : list str) : bool :=
  forallb (λ f, bool_decide (is_Some (p f))) fields.

Definition parse_number (f : str) : option Q :=
  match parse_int f with
  | Some z => Some (inject_Z z)
  | None => parse_dec f
  end.

Definition read_cell (p : str → option cell) (f : str) : cell :=
  if is_na f then PNaN else default PNaN (p f).

(** Type inference for one column of raw fields. *)
Definition infer_column (fields : list str) : dtype * list cell :=
  let vals := present fields in
  let has_na := bool_decide (length vals < length fields)%nat in
  match vals with
  | [] => (Float64, (λ _, PNaN) <$> fields)
  | _ =>
    if all_parse parse_int vals then
      if has_na
      then (Float64, read_cell (λ f, (λ z, PFloat (inject_Z z)) <$> parse_int f) <$> fields)
      else (Int64, read_cell (λ f, PInt <$> parse_int f) <$> fields)
    else if all_parse parse_number vals then
      (Float64, read_cell (λ f, PFloat <$> parse_number f) <$> fields)
    else if all_parse parse_bool vals then
      (if has_na then ObjectT else BoolT,
       read_cell (λ f, PBool <$> parse_bool f) <$> fields)
    else (ObjectT, read_cell (λ f, Some (PStr f)) <$> fields)
  end.

(** Header names: an empty name becomes [Unnamed: i], a repeated name gets
    the suffix [.k]. *)
Fixpoint mangle (names : list str) (i : nat) (seen : list str) : list str :=
  match names with
  | [] => []
  | n :: rest =>
    let n := match n with
             | [] => lit "Unnamed: " ++ str_of_Z (Z.of_nat i)
             | _ => n
             end in
    let k := length (filter (λ s, s = n) seen) in
    (match k with
     | O => n
     | _ => n ++ lit "." ++ str_of_Z (Z.of_nat k)
     end) :: mangle rest (S i) (n :: seen)
  end.

Definition pad (n : nat) (fields : list str) : list str :=
  fields ++ replicate (n - length fields) [].

Definition plain_read_csv (e : engine) (content : str) : outcome DataFrame :=
  let lines := filter (λ l, l ≠ []) (strip_cr <$> split_on 10 content) in
  match lines with
  | [] => Raise (mkExn OtherError (lit "No columns to parse from file"))
  | header :: data =>
    let names := mangle (split_on 44 header) 0 [] in
    let ncols := length names in
    let records := split_on 44 <$> data in
    let too_long (r : list str) := bool_decide (ncols < length r)%nat in
    let kept :=
      match e with
      | CEngine => if existsb too_long records then None else Some records
      | PythonSkipBadLines => Some (filter (λ r, too_long r = false) records)
      end in
    match kept with
    | None => Raise (mkExn ParserError (lit "Error tokenizing data"))
    | Some records =>
      let records := pad ncols <$> records in
      let cols :=
        (λ i, infer_column ((λ r : list str, nth i r []) <$> records))
          <$> seq 0 ncols in
      Ret (mkDataFrame (zip names (fst <$> cols))
             ((λ j, (λ c : dtype * list cell, nth j (snd c) PNaN) <$> cols)
                <$> seq 0 (length records)))
    end
  end.

End CsvService.

Import CsvService.

(** ** [services/llm_service.py] *)

Module LlmService.

(** A message of the chat-completion payload: plain text, or a list of
    parts for a turn that carries an image. *)
Inductive part :=
| TextPart (text : str)
| ImageUrlPart (url detail : str).

Inductive content :=
| Text (s : str)
| Parts (ps : list part).

Record chat_message := mkChat { role : str; body : content }.

(** What one streaming call to the provider does: the [delta.content] of
    the chunks it delivers, then a normal end or an exception (raised by
    [create] itself when no chunk was delivered). *)
Record completion := mkCompletion {
  deltas : list (option str);
  failure : option exn
}.

(** A generator run: what was sent to the provider and what was yielded, in
    order, and how the run ended. *)
Inductive event :=
| Call (model : str) (messages : list chat_message)
| Yield (chunk : str).

Definition G (A : Type) : Type := list event * outcome A.

#[export] Instance G_ret : MRet G := λ A a, ([], Ret a).

#[export] Instance G_bind : MBind G := λ A B f m,
  match m with
  | (t, Ret a) => let '(t', r) := f a in (t ++ t', r)
  | (t, Raise e) => (t, Raise e)
  end.

Definition g_try_except {A} (m : G A) (h : exn → G A) : G A :=
  match m with
  | (t, Ret a) => (t, Ret a)
  | (t, Raise e) => let '(t', r) := h e in (t ++ t', r)
  end.

Definition yield (chunk : str) : G unit := ([Yield chunk], Ret tt).

Definition yielded {A} (g : G A) : list str :=
  omap (λ e, match e with Yield c => Some c | Call _ _ => None end) (fst g).

Definition calls {A} (g : G A) : list (str * list chat_message) :=
  omap (λ e, match e with Call m p => Some (m, p) | Yield _ => None end) (fst g).

Definition model : str := lit "meta-llama/llama-4-scout-17b-16e-instruct".
Definition vision_model : str := lit "meta-llama/llama-4-scout-17b-16e-instruct".
Definition fallback_model : str := lit "llama-3.3-70b-versatile".
Definition supports_vision : bool := true.

Section WithProvider.
(** The provider behind [client.chat.completions.create], streaming and not,
    and the text of [_build_system_prompt], whose rendering of numbers is
    left to Python. *)
Context (client : str → list chat_message → completion).
Context (complete : str → list chat_message → outcome str).
Context (_build_system_prompt : option Repository.ActiveCsv → option str → str).

(** [stream = await create(...); async for chunk in stream:
       if chunk.choices[0].delta.content: yield chunk.choices[0].delta.content] *)
Definition stream_from (model_name : str) (messages : list chat_message) : G unit :=
  let c := client model_name messages in
  (Call model_name messages
     :: omap (λ d, if truthy_opt d then Yield <$> d else None) (deltas c),
   match failure c with
   | None => Ret tt
   | Some e => Raise e
   end).

(** The loop over [history[-15:]]. *)
Definition history_messages (history : list Repository.HistoryItem)
    : list chat_message :=
  omap (λ msg,
          if startswith (Repository.h_content msg) (lit "[Uploaded")
             || startswith (Repository.h_content msg) (lit "[Loaded")
          then None
          else Some (mkChat (Repository.h_role msg) (Text (Repository.h_content msg))))
       (slice_last 15 history).

Definition has_image (image_base64 : option str) : bool :=
  truthy_opt image_base64 && supports_vision.

Definition current_message (message : str) (image_base64 : option str)
    : chat_message :=
  if has_image image_base64 then
    mkChat (lit "user")
      (Parts [ TextPart message;
               ImageUrlPart (lit "data:image/jpeg;base64," ++ default [] image_base64)
                            (lit "auto") ])
  else mkChat (lit "user") (Text message).

Definition build_messages (message : str) (history : list Repository.HistoryItem)
    (image_base64 : option str) (csv_context : option Repository.ActiveCsv)
    (csv_summary : option str) : list chat_message :=
  [mkChat (lit "system") (Text (_build_system_prompt csv_context csv_summary))]
    ++ history_messages history
    ++ [current_message message image_base64].

Definition image_notice : str := lit "[Ảnh đã được gửi nhưng model không thể xử lý]".

(** The text of the first part of type [text], or the empty string. *)
Fixpoint first_text (ps : list part) : str :=
  match ps with
  | [] => empty
  | TextPart t :: _ => t
  | ImageUrlPart _ _ :: rest => first_text rest
  end.

(** Remove image from messages for fallback. *)
Definition fallback_message (msg : chat_message) : chat_message :=
  match body msg with
  | Parts ps => mkChat (role msg) (Text (image_notice ++ [10%N] ++ first_text ps))
  | Text _ => msg
  end.

Definition apology (e : exn) : str :=
  lit "I apologize, but I encountered an error: " ++ exn_str e.

Definition generate_response_stream (message : str)
    (history : list Repository.HistoryItem) (image_base64 : option str)
    (csv_context : option Repository.ActiveCsv) (csv_summary : option str)
    : G unit :=
  let messages := build_messages message history image_base64 csv_context csv_summary in
  g_try_except
    (let model_to_use := if has_image image_base64 then vision_model else model in
     stream_from model_to_use messages)
    (λ e,
       g_try_except
         (let fallback_messages := fallback_message <$> messages in
          stream_from fallback_model fallback_messages)
         (λ fallback_error, yield (apology e))).

(** [analyze_image] *)
Definition analyze_image (image_base64 : str) (question : option str) : str :=
  if negb supports_vision then
    lit "**Lưu ý:** Model hiện tại chưa hỗ trợ phân tích hình ảnh. Ảnh đã được upload nhưng tôi không thể xem được nội dung."
  else
    let prompt :=
      if truthy_opt question then default [] question
      else lit "Hãy mô tả chi tiết hình ảnh này. Bạn thấy gì trong ảnh?" in
    let messages :=
      [ mkChat (lit "system")
          (Text (lit "Bạn là chuyên gia phân tích hình ảnh. Mô tả ảnh chính xác và chi tiết bằng tiếng Việt."));
        mkChat (lit "user")
          (Parts [ TextPart prompt;
                   ImageUrlPart (lit "data:image/jpeg;base64," ++ image_base64)
                                (lit "high") ]) ] in
    match complete model messages with
    | Ret text => text
    | Raise e => lit "Lỗi phân tích ảnh: " ++ exn_str e
    end.

End WithProvider.

End LlmService.

(** ** [schemas/models.py] *)

Module Schemas.

Record ChatRequest := mkChatRequest {
  message : str;
  session_id : option str;
  image_base64 : option str
}.

(** [message: str = Field(..., min_length=1, max_length=10000)] *)
Definition valid_chat_request (r : ChatRequest) : bool :=
  bool_decide (1 ≤ Z.of_nat (length (message r)) ≤ 10000).

Record CSVUploadResponse := mkCSVUploadResponse {
  cr_session_id : str;
  cr_message : str;
  cr_filename : str;
  cr_summary : Summary
}.

(** [CSVUrlRequest] *)
Record CSVUrlRequest := mkCSVUrlRequest {
  ur_url : str;
  ur_session_id : option str
}.

(** [SuccessResponse]: [success] defaults to [True]. *)
Record SuccessResponse := mkSuccessResponse {
  sr_message : str;
  sr_success : bool
}.

End Schemas.

(** ** The routes of [api/routes] *)

Module Routes.

Import Repository LlmService Schemas.

(** An uploaded file ([UploadFile]). *)
Record UploadFile := mkUploadFile {
  uf_filename : option str;
  uf_content_type : option str;
  uf_content : list N
}.

(** The events of the stream, before their rendering as [data: {json}]. *)
Inductive sse :=
| SessionEvent (session_id : str)
| ChunkEvent (content : str)
| DoneEvent (session_id : str)
| ErrorEvent (content : str).

(** The body returned by [upload_image]. *)
Record ImageUploadBody := mkImageUploadBody {
  ib_message : str;
  ib_session_id : str;
  ib_analysis : str;
  ib_image_preview : str;
  ib_filename : str
}.

(** [s.lower()], on the ASCII letters. *)
Definition lower (s : str) : str :=
  (λ c, if ((65 <=? c) && (c <=? 90))%N then (c + 32)%N else c) <$> s.

(** [base64.b64encode(content).decode("utf-8")] *)
Definition b64_char (n : N) : N :=
  if (n <? 26)%N then (65 + n)%N
  else if (n <? 52)%N then (97 + (n - 26))%N
  else if (n <? 62)%N then (48 + (n - 52))%N
  else if (n =? 62)%N then 43%N else 47%N.

Fixpoint b64encode (bs : list N) : str :=
  match bs with
  | [] => []
  | [a] => [b64_char (a / 4); b64_char (a mod 4 * 16); 61; 61]%N
  | [a; b] =>
    [b64_char (a / 4); b64_char (a mod 4 * 16 + b / 16);
     b64_char (b mod 16 * 4); 61]%N
  | a :: b :: c :: rest =>
    [b64_char (a / 4); b64_char (a mod 4 * 16 + b / 16);
     b64_char (b mod 16 * 4 + c / 64); b64_char (c mod 64)]%N
      ++ b64encode rest
  end.

Definition CSV_MAX_SIZE : Z := 5 * 1024 * 1024.
Definition CSV_ALLOWED_EXTENSIONS : list str := [lit ".csv"].
Definition IMAGE_MAX_SIZE : Z := 10 * 1024 * 1024.
Definition IMAGE_ALLOWED_TYPES : list str :=
  [lit "image/png"; lit "image/jpeg"; lit "image/jpg"; lit "image/webp"; lit "image/gif"].

Definition too_large (max_size : Z) : str :=
  lit "File too large. Maximum size is "
    ++ str_of_Z (max_size / 1024 / 1024) ++ lit "MB".

Definition http_error {A} (status : Z) (detail : str) : M A :=
  raise (mkExn (HTTPException status) detail).

Section WithCollaborators.
Context (env : Env).
Context (client : str → list chat_message → completion).
Context (complete : str → list chat_message → outcome str).
Context (_build_system_prompt : option ActiveCsv → option str → str).
Context (read_csv : engine → str → outcome DataFrame).

(** *** [chat.py] *)

(** The generator handed to [StreamingResponse], consumed to its end. *)
Definition generate (request : ChatRequest) (session_id : str)
    (history : list HistoryItem) (image_to_use : option str)
    (active_csv : option ActiveCsv) (csv_summary : option str) : M (list sse) :=
  let g := generate_response_stream client _build_system_prompt
             (message request) (slice_but_last history) image_to_use
             active_csv csv_summary in
  let chunks := yielded g in
  let full_response := concat chunks in
  rest ← try_except
    (match snd g with
     | Raise e => raise e
     | Ret _ =>
       (* Save complete response to database *)
       add_message env session_id (lit "assistant") full_response
                   None None None None;;
       (* Send done signal *)
       mret [DoneEvent session_id]
     end)
    (λ e, mret [ErrorEvent (lit "Error: " ++ exn_str e)]);
  (* Send session_id first *)
  mret (SessionEvent session_id :: (ChunkEvent <$> chunks) ++ rest).

Definition send_message_stream (request : ChatRequest) : M (list sse) :=
  (* Get or create session *)
  session_id ←
    (if truthy_opt (session_id request) then
       conv ← get_conversation env (default [] (session_id request)) None;
       match conv with
       | None => conv ← create_conversation env None; mret (v_id conv)
       | Some _ => mret (default [] (session_id request))
       end
     else conv ← create_conversation env None; mret (v_id conv));
  (* Save user message *)
  add_message env session_id (lit "user") (message request) None None None None;;
  (* Get context for LLM *)
  active_image ← get_active_image env session_id None;
  active_csv ← get_active_csv env session_id None;
  csv_summary ← get_csv_summary env session_id None;
  history ← get_message_history_for_llm env session_id 20 None;
  (* Use pasted image if provided, otherwise use stored image *)
  let image_to_use :=
    if truthy_opt (image_base64 request) then image_base64 request
    else active_image in
  generate request session_id history image_to_use active_csv csv_summary.

(** *** [csv.py] *)

Definition upload_csv (file : UploadFile) (session_id : option str)
    : M CSVUploadResponse :=
  (* Validate file extension *)
  let filename :=
    if truthy_opt (uf_filename file) then default [] (uf_filename file)
    else lit "data.csv" in
  if negb (existsb (endswith (lower filename)) CSV_ALLOWED_EXTENSIONS)
  then http_error 400 (lit "Only CSV files are allowed")
  else
  (* Read and validate size *)
  let content := uf_content file in
  if CSV_MAX_SIZE <? Z.of_nat (length content)
  then http_error 400 (too_large CSV_MAX_SIZE)
  else
  (* Decode content *)
  let content_str :=
    match decode_utf8 content with
    | Some s => s
    | None => decode_latin1 content
    end in
  (* Parse CSV *)
  match parse_csv read_csv content_str filename with
  | Raise e =>
    match exn_cls e with
    | ValueError => http_error 400 (exn_str e)
    | _ => http_error 400 (lit "Failed to parse CSV: " ++ exn_str e)
    end
  | Ret (csv_data, summary) =>
    (* Get or create session *)
    session_id ←
      (if truthy_opt session_id then
         conv ← get_conversation env (default [] session_id) None;
         match conv with
         | None => conv ← create_conversation env None; mret (v_id conv)
         | Some _ => mret (default [] session_id)
         end
       else conv ← create_conversation env None; mret (v_id conv));
    (* Store CSV in conversation context *)
    set_active_csv env session_id csv_data filename (sm_text_summary summary) None;;
    (* Add message showing CSV was uploaded *)
    add_message env session_id (lit "user")
      (lit "[Uploaded CSV: " ++ filename ++ lit "]") None
      (Some (JDict [ (lit "filename", JStr filename);
                     (lit "rows", JInt (sm_row_count summary));
                     (lit "columns", JInt (sm_column_count summary)) ]))
      None None;;
    (* Add assistant acknowledgment with summary *)
    add_message env session_id (lit "assistant")
      (lit "I've loaded the CSV file **" ++ filename ++ lit "**." ++ [10; 10]%N
         ++ sm_text_summary summary ++ [10; 10]%N
         ++ lit "You can now ask me questions like:" ++ [10%N]
         ++ lit "- " ++ dquote ++ lit "Summarize the dataset" ++ dquote ++ [10%N]
         ++ lit "- " ++ dquote ++ lit "Show stats for [column name]" ++ dquote ++ [10%N]
         ++ lit "- " ++ dquote ++ lit "Which column has the most missing values?"
         ++ dquote ++ [10%N]
         ++ lit "- " ++ dquote ++ lit "Plot a histogram of [numeric column]" ++ dquote)
      None None None None;;
    mret (mkCSVUploadResponse session_id
            (lit "CSV '" ++ filename ++ lit "' loaded successfully!")
            filename summary)
  end.

(** *** [image.py] *)

Definition upload_image (file : UploadFile) (session_id : option str)
    : M ImageUploadBody :=
  (* Validate file type *)
  if negb (match uf_content_type file with
           | Some t => existsb (str_eqb t) IMAGE_ALLOWED_TYPES
           | None => false
           end)
  then http_error 400
         (lit "File type '" ++ default (lit "None") (uf_content_type file)
            ++ lit "' not allowed. Supported types: PNG, JPG, WEBP, GIF")
  else
  (* Read and validate size *)
  let content := uf_content file in
  if IMAGE_MAX_SIZE <? Z.of_nat (length content)
  then http_error 400 (too_large IMAGE_MAX_SIZE)
  else
  (* Convert to base64 *)
  let base64_image := b64encode content in
  let image_data_url :=
    lit "data:" ++ default [] (uf_content_type file) ++ lit ";base64,"
      ++ base64_image in
  (* Get or create session *)
  session_id ←
    (if truthy_opt session_id then
       conv ← get_conversation env (default [] session_id) None;
       match conv with
       | None => conv ← create_conversation env None; mret (v_id conv)
       | Some _ => mret (default [] session_id)
       end
     else conv ← create_conversation env None; mret (v_id conv));
  (* Store image in conversation context *)
  let filename :=
    if truthy_opt (uf_filename file) then default [] (uf_filename file)
    else lit "uploaded_image" in
  set_active_image env session_id base64_image filename None;;
  (* Use LLM to analyze image automatically *)
  let analysis :=
    analyze_image complete base64_image (Some (lit "Describe this image briefly.")) in
  (* Add messages *)
  add_message env session_id (lit "user")
    (lit "[Uploaded image: " ++ filename ++ lit "]") (Some image_data_url)
    None None None;;
  add_message env session_id (lit "assistant") analysis None None None None;;
  mret (mkImageUploadBody
          (lit "Image '" ++ filename ++ lit "' uploaded successfully")
          session_id analysis image_data_url filename).

End WithCollaborators.

(** *** The remaining routes of [chat.py], [csv.py] and [image.py] *)

(** The body returned by [get_session_detail]. *)
Record SessionDetail := mkSessionDetail {
  sd_id : str;
  sd_created_at : Z;
  sd_updated_at : Z;
  sd_messages : list MessageDict;
  sd_context : option ContextInfo
}.

(** What [client.get(url)] followed by [response.raise_for_status()] does:
    a response, with its bytes and its decoded text, or one of the
    exceptions that the route tells apart. *)
Inductive fetch_outcome :=
| Fetched (content : list N) (text : str)
| TimeoutException
| HTTPStatusError (status_code : Z)
| RequestError (text : str)
| FetchFailure (e : exn).

Definition session_not_found {A} : M A :=
  http_error 404 (lit "Session not found").

(** The file name that [load_csv_from_url] derives from the URL. *)
Definition url_filename (url : str) : str :=
  let filename :=
    default [] (split 63 (default [] (last (split 47 url))) !! 0%nat) in
  if negb (endswith filename (lit ".csv")) then lit "data.csv" else filename.

Section WithDatabase.
Context (env : Env).
Context (read_csv : engine → str → outcome DataFrame).
(** The HTTP client of [load_csv_from_url], and what pydantic raises when
    [ContextInfo] is built from a dictionary that lacks a required field. *)
Context (http_get : str → fetch_outcome).
Context (validation_error : exn).

Definition create_session : M (str * Z) :=
  conv ← create_conversation env None;
  mret (v_id conv, v_created_at conv).

Definition get_history (session_id : str) : M (str * list MessageDict) :=
  conv ← get_conversation env session_id None;
  match conv with
  | None => session_not_found
  | Some conv => mret (session_id, v_messages conv)
  end.

Definition delete_session (session_id : str) : M str :=
  conv ← get_conversation env session_id None;
  match conv with
  | None => session_not_found
  | Some _ =>
    delete_conversation env session_id None;;
    mret (lit "Session deleted successfully")
  end.

Definition list_conversations : M (list ConversationListItem) :=
  get_all_conversations env None.

Definition get_session_detail (session_id : str) : M SessionDetail :=
  conv ← get_conversation env session_id None;
  match conv with
  | None => session_not_found
  | Some conv =>
    context ← get_conversation_context env session_id None;
    mret (mkSessionDetail (v_id conv) (v_created_at conv) (v_updated_at conv)
            (v_messages conv) context)
  end.

Definition delete_session_endpoint (session_id : str) : M SuccessResponse :=
  conv ← get_conversation env session_id None;
  match conv with
  | None => session_not_found
  | Some _ =>
    delete_conversation env session_id None;;
    mret (mkSuccessResponse (lit "Session deleted successfully") true)
  end.

Definition create_new_session : M (str * Z * str) :=
  conv ← create_conversation env None;
  mret (v_id conv, v_created_at conv, lit "New session created").

Definition get_context_info (session_id : str) : M ContextInfo :=
  conv ← get_conversation env session_id None;
  match conv with
  | None => session_not_found
  | Some _ =>
    context ← get_conversation_context env session_id None;
    match context with
    | Some info => mret info
    | None => raise validation_error
    end
  end.

Definition clear_context (session_id : str) : M SuccessResponse :=
  conv ← get_conversation env session_id None;
  match conv with
  | None => session_not_found
  | Some _ =>
    clear_all_context env session_id None;;
    (* Add system message *)
    add_message env session_id (lit "assistant")
      (lit "Context cleared. You can now upload a new image or CSV, or continue chatting.")
      None None None None;;
    mret (mkSuccessResponse (lit "Context cleared successfully") true)
  end.

Definition clear_csv (session_id : str) : M str :=
  conv ← get_conversation env session_id None;
  match conv with
  | None => session_not_found
  | Some _ =>
    clear_csv_context env session_id None;;
    mret (lit "CSV cleared successfully")
  end.

Definition clear_image (session_id : str) : M str :=
  conv ← get_conversation env session_id None;
  match conv with
  | None => session_not_found
  | Some _ =>
    clear_image_context env session_id None;;
    mret (lit "Image cleared successfully")
  end.

Definition load_csv_from_url (request : CSVUrlRequest) : M CSVUploadResponse :=
  (* Validate URL format *)
  let url := strip (ur_url request) in
  if negb (startswith url (lit "http://") || startswith url (lit "https://"))
  then http_error 400 (lit "Invalid URL. Must start with http:// or https://")
  else
  (* Fetch CSV from URL *)
  match http_get url with
  | TimeoutException =>
    http_error 408 (lit "Request timeout. The URL took too long to respond.")
  | HTTPStatusError status_code =>
    http_error 400 (lit "Failed to fetch URL: HTTP " ++ str_of_Z status_code)
  | RequestError text => http_error 400 (lit "Failed to fetch URL: " ++ text)
  | FetchFailure e => raise e
  | Fetched content content_str =>
    (* Check content length *)
    if CSV_MAX_SIZE <? Z.of_nat (length content)
    then http_error 400 (too_large CSV_MAX_SIZE)
    else
    (* Extract filename from URL *)
    let filename := url_filename url in
    (* Parse CSV *)
    match parse_csv read_csv content_str filename with
    | Raise e =>
      match exn_cls e with
      | ValueError => http_error 400 (exn_str e)
      | _ => http_error 400 (lit "Failed to parse CSV from URL: " ++ exn_str e)
      end
    | Ret (csv_data, summary) =>
      (* Get or create session *)
      session_id ←
        (if truthy_opt (ur_session_id request) then
           conv ← get_conversation env (default [] (ur_session_id request)) None;
           match conv with
           | None => conv ← create_conversation env None; mret (v_id conv)
           | Some _ => mret (default [] (ur_session_id request))
           end
         else conv ← create_conversation env None; mret (v_id conv));
      (* Store CSV in conversation context *)
      set_active_csv env session_id csv_data filename (sm_text_summary summary) None;;
      (* Add message showing CSV was loaded *)
      add_message env session_id (lit "user")
        (lit "[Loaded CSV from URL: " ++ filename ++ lit "]") None
        (Some (JDict [ (lit "filename", JStr filename);
                       (lit "rows", JInt (sm_row_count summary));
                       (lit "columns", JInt (sm_column_count summary));
                       (lit "url", JStr url) ]))
        None None;;
      (* Add assistant acknowledgment with summary *)
      add_message env session_id (lit "assistant")
        (lit "I've loaded the CSV file from the URL." ++ [10; 10]%N
           ++ lit "**File:** " ++ filename ++ [10; 10]%N
           ++ sm_text_summary summary ++ [10; 10]%N
           ++ lit "You can now ask me questions about this data!")
        None None None None;;
      mret (mkCSVUploadResponse session_id
              (lit "CSV loaded from URL successfully!") filename summary)
    end
  end.

End WithDatabase.

End Routes.

(** * Specifications *)

(** ** Notions used to state the properties of the repository *)

Module RepositorySpec.
Import Repository.

(** The title of session [k]: [None] when there is no such session,
    [Some None] when it has no title. *)
Definition title_of (d : DB) (k : str) : option (option str) :=
  c_title <$> conversations d !! k.

(** A world with no transaction under way. *)
Definition settled (d : DB) (c u t : nat) : World := mkWorld d d [] [] c u t.

(** Whether a message already has the identifier [u]. *)
Definition id_taken (u : str) (d : DB) : bool :=
  existsb (λ m', str_eqb (m_id m') u) (messages d).

(** The title test of [add_message]. *)
Definition derives_title (c : Conversation) (role content : str) : bool :=
  negb (truthy_opt (c_title c)) && str_eqb role (lit "user")
    && negb (startswith content (lit "[")).

(** The title of the session once the message is stored. *)
Definition next_title (c : Conversation) (role content : str) : option str :=
  if derives_title c role content then Some (slice_to 100 content) else c_title c.

(** The store after a successful [add_message]. *)
Definition add_message_db (d : DB) (c : Conversation) (msg : Message)
    (updated : Z) : DB :=
  set_messages (λ ms, ms ++ [msg])
    (set_conversations
       <[m_conversation_id msg :=
           set_title (next_title c (m_role msg) (m_content msg))
             (set_updated_at updated c)]> d).

(** The test of the history loop of [generate_response_stream]. *)
Definition upload_marker (s : str) : bool :=
  startswith s (lit "[Uploaded") || startswith s (lit "[Loaded").

End RepositorySpec.

(** ** Concrete environments and collaborators *)

Module Examples.
Import Repository LlmService.

(** A clock that ticks at every reading, identifiers [id-0], [id-1], ...,
    and a database that never fails. *)
Definition env0 : Env :=
  mkEnv (λ n, Z.of_nat n) (λ n, lit "id-" ++ str_of_N (N.of_nat n)) (λ _, None)
        (mkExn OtherError (lit "IntegrityError")).

(** The store after one [create_conversation]. *)
Definition one_session : World := snd (create_conversation env0 None initial_world).

(** A provider that fails on every call, after one chunk. *)
Definition failing_client (m : str) (p : list chat_message) : completion :=
  mkCompletion [Some (lit "par"); None; Some empty] (Some (mkExn OtherError (lit "boom"))).

(** A stand-in for the system prompt. *)
Definition no_prompt (c : option ActiveCsv) (s : option str) : str := lit "prompt".

End Examples.

(** ** Sequences of appended messages *)

Module TitleSpec.
Import Repository.

(** One [add_message] call on the session under study. *)
Record append_call := mkCall {
  ac_role : str;
  ac_content : str;
  ac_image_url : option str;
  ac_csv_data : option json;
  ac_chart_data : option json
}.

(** A sequence of [add_message] calls to one session, each in its own
    database session. *)
Fixpoint append_all (env : Env) (conv_id : str) (calls : list append_call)
    : M unit :=
  match calls with
  | [] => mret tt
  | k :: rest =>
    add_message env conv_id (ac_role k) (ac_content k) (ac_image_url k)
      (ac_csv_data k) (ac_chart_data k) None;;
    append_all env conv_id rest
  end.

(** A user message that is not a marker: the message a title is derived
    from. *)
Definition unmarked_user (k : append_call) : bool :=
  str_eqb (ac_role k) (lit "user") && negb (startswith (ac_content k) (lit "[")).

(** What the callers of [add_message] pass: a user message has at least one
    character ([ChatRequest.message] has [min_length=1], and the upload
    routes pass a marker). *)
Definition user_has_content (k : append_call) : Prop :=
  ac_role k = lit "user" → (1 ≤ length (ac_content k))%nat.

(** The identifiers that the next [n] calls to [uuid4] will return. *)
Definition draws (env : Env) (w : World) (n : nat) : list str :=
  uuid_src env <$> seq (uuid_draws w) n.

(** The identifiers of the stored messages. *)
Definition message_ids (d : DB) : list str := m_id <$> messages d.

(** An upload marker, its acknowledgment and a user message; then a later
    user message. *)
Definition example_calls : list append_call :=
  [ mkCall (lit "user") (lit "[Uploaded CSV: a.csv]") None None None;
    mkCall (lit "assistant") (lit "I've loaded the CSV file") None None None;
    mkCall (lit "user") (lit "hello") None None None ].

Definition example_later : list append_call :=
  [ mkCall (lit "user") (lit "bye") None None None ].

(** The title after one call, and after a sequence of calls, when every
    call succeeds. *)
Definition title_step (t : option str) (k : append_call) : option str :=
  if negb (truthy_opt t) && str_eqb (ac_role k) (lit "user")
     && negb (startswith (ac_content k) (lit "["))
  then Some (slice_to 100 (ac_content k)) else t.

Definition title_after (t : option str) (calls : list append_call) : option str :=
  fold_left title_step calls t.

End TitleSpec.

(** ** Reachable stores *)

Module StoreSpec.
Import Repository.

(** The operations of the repository that change the store. *)
Inductive op :=
| CreateConversation
| DeleteConversation (conv_id : str)
| AddMessage (conv_id role content : str) (image_url : option str)
             (csv_data chart_data : option json)
| SetActiveImage (conv_id image_base64 filename : str)
| ClearImageContext (conv_id : str)
| SetActiveCsv (conv_id : str) (csv_data : CsvData) (filename summary : str)
| ClearCsvContext (conv_id : str)
| ClearAllContext (conv_id : str).

(** The world after one operation, whether it returned or raised. *)
Definition perform (env : Env) (o : op) (w : World) : World :=
  match o with
  | CreateConversation => snd (create_conversation env None w)
  | DeleteConversation k => snd (delete_conversation env k None w)
  | AddMessage k role content image_url csv_data chart_data =>
    snd (add_message env k role content image_url csv_data chart_data None w)
  | SetActiveImage k image filename => snd (set_active_image env k image filename None w)
  | ClearImageContext k => snd (clear_image_context env k None w)
  | SetActiveCsv k csv_data filename summary =>
    snd (set_active_csv env k csv_data filename summary None w)
  | ClearCsvContext k => snd (clear_csv_context env k None w)
  | ClearAllContext k => snd (clear_all_context env k None w)
  end.

(** The world after a sequence of operations. *)
Definition perform_all (env : Env) (ops : list op) (w : World) : World :=
  fold_left (λ w o, perform env o w) ops w.

(** The flag of a session, as [get_conversation_context] reports it, and
    the presence of its tabular record with its data. *)
Definition has_csv_flag (d : DB) (k : str) : bool :=
  from_option c_has_active_csv false (conversations d !! k).

Definition has_csv_data (d : DB) (k : str) : bool :=
  from_option (λ x, bool_decide (is_Some (x_csv_data x))) false (csv_contexts d !! k).

(** The flag and the record agree, for every session. *)
Definition csv_consistent (d : DB) : Prop :=
  ∀ k, has_csv_flag d k = has_csv_data d k.

(** An environment whose database fails once, at round trip [n]. *)
Definition failing_at (n : nat) : Env :=
  mkEnv (λ i, Z.of_nat i) (λ i, lit "id-" ++ str_of_N (N.of_nat i))
        (λ i, if (i =? n)%nat then Some (mkExn OtherError (lit "OperationalError"))
              else None)
        (mkExn OtherError (lit "IntegrityError")).

(** A one-column table, as [parse_csv] would describe it. *)
Definition table (name : str) (rows : Z) : CsvData :=
  mkCsvData name [lit "a"] rows rows false [lit "a"] [] [] [(lit "a", lit "int64")]
            [] [] [(lit "a", 0)].

(** Resetting the last-update time of one session. *)
Definition forget_updated_at (k : str) (d : DB) : DB :=
  set_conversations (alter (set_updated_at 0) k) d.

End StoreSpec.

(** ** The effect of the clear operations on the store *)

Module ClearSpec.
Import Repository.

(** The store after [clear_image_context] and after [clear_csv_context],
    run at time [t] on the store [d]. *)
Definition clear_image_db (t : Z) (k : str) (d : DB) : DB :=
  let d1 := set_image_contexts (delete k) d in
  match conversations d1 !! k with
  | Some _ =>
    set_conversations (alter (set_updated_at t) k)
      (set_conversations (alter (set_image_flags false None) k) d1)
  | None => d1
  end.

Definition clear_csv_db (t : Z) (k : str) (d : DB) : DB :=
  let d1 := set_csv_contexts (delete k) d in
  match conversations d1 !! k with
  | Some _ =>
    set_conversations (alter (set_updated_at t) k)
      (set_conversations (alter (set_csv_flags false None None) k) d1)
  | None => d1
  end.

(** A slot that holds nothing: no context row, and the flags of the
    session, if it exists, say so. *)
Definition image_slot_empty (d : DB) (k : str) : Prop :=
  image_contexts d !! k = None
  ∧ ∀ c, conversations d !! k = Some c →
         c_has_active_image c = false ∧ c_image_filename c = None.

Definition csv_slot_empty (d : DB) (k : str) : Prop :=
  csv_contexts d !! k = None
  ∧ ∀ c, conversations d !! k = Some c →
         c_has_active_csv c = false ∧ c_csv_filename c = None ∧ c_csv_summary c = None.

End ClearSpec.

(** ** Scenario tables *)

Module CsvSpec.

(** The scenario file: three rows, two columns, one empty field. *)
Definition scenario : str :=
  lit "a,b" ++ [10%N] ++ lit "1,x" ++ [10%N] ++ lit "2," ++ [10%N] ++ lit "3,z".

(** The frame read from the scenario file. *)
Definition scenario_frame : DataFrame :=
  mkDataFrame [(lit "a", Int64); (lit "b", ObjectT)]
    [[PInt 1; PStr (lit "x")]; [PInt 2; PNaN]; [PInt 3; PStr (lit "z")]].

(** A file of 1001 data rows, and the frame read from it. *)
Definition long_file : str :=
  lit "a" ++ concat (replicate 1001 ([10%N] ++ lit "7")).

Definition long_frame : DataFrame :=
  mkDataFrame [(lit "a", Int64)] (replicate 1001 [PInt 7]).

(** A row of cells as [sample_rows] renders it: a null cell becomes the
    empty string. *)
Definition blank_nulls (cols : list str) (r : list cell) : Row :=
  zip cols ((λ c, if isna c then PStr empty else c) <$> r).

(** The frame on which [parse_frame] works. *)
Definition working_copy (df : DataFrame) : DataFrame :=
  if bool_decide (MAX_ROWS_CONTEXT < len df)%nat then head MAX_ROWS_CONTEXT df else df.

End CsvSpec.

(** ** Notions used to state the properties of the routes *)

Module RouteSpec.
Import Repository LlmService Schemas Routes.

(** The conversation row written by [create_conversation]. *)
Definition new_conversation (u : str) (created updated : Z) : Conversation :=
  mkConversation u created updated None false None false None None.

(** The rows written by [set_active_csv] and [set_active_image] for a
    session that has no such context yet. *)
Definition csv_context_row (k : str) (csv_data : CsvData) (filename summary : str)
    (uploaded : Z) : CSVContext :=
  mkCSVContext k (Some filename) (Some (cd_row_count csv_data))
    (Some (Z.of_nat (length (cd_columns csv_data)))) (Some (cd_columns csv_data))
    (Some (cd_numeric_columns csv_data)) (Some (cd_text_columns csv_data))
    (Some (mkFullCsvData (cd_sample_rows csv_data) (cd_numeric_stats csv_data)
             (cd_missing_values csv_data) (cd_dtypes csv_data)))
    (Some summary) uploaded.

Definition image_context_row (k image_base64 filename : str) (uploaded : Z)
    : ImageContext :=
  mkImageContext k image_base64 (Some filename) None uploaded.

(** The get-or-create step that opens the three routes. *)
Definition get_or_create (env : Env) (session_id : option str) : M str :=
  if truthy_opt session_id then
    conv ← get_conversation env (default [] session_id) None;
    match conv with
    | None => conv ← create_conversation env None; mret (v_id conv)
    | Some _ => mret (default [] session_id)
    end
  else conv ← create_conversation env None; mret (v_id conv).

(** The file name and the text that [upload_csv] works with, and the file
    name that [upload_image] works with. *)
Definition csv_name (file : UploadFile) : str :=
  if truthy_opt (uf_filename file) then default [] (uf_filename file)
  else lit "data.csv".

Definition csv_text (file : UploadFile) : str :=
  match decode_utf8 (uf_content file) with
  | Some s => s
  | None => decode_latin1 (uf_content file)
  end.

Definition image_name (file : UploadFile) : str :=
  if truthy_opt (uf_filename file) then default [] (uf_filename file)
  else lit "uploaded_image".

(** The checks that [upload_csv] and [upload_image] make before they look
    at the session. *)
Definition csv_accepted (file : UploadFile) : bool :=
  existsb (endswith (lower (csv_name file))) CSV_ALLOWED_EXTENSIONS
    && negb (CSV_MAX_SIZE <? Z.of_nat (length (uf_content file))).

Definition image_accepted (file : UploadFile) : bool :=
  match uf_content_type file with
  | Some t => existsb (str_eqb t) IMAGE_ALLOWED_TYPES
  | None => false
  end
    && negb (IMAGE_MAX_SIZE <? Z.of_nat (length (uf_content file))).

(** An identifier under which the store holds nothing. *)
Definition unused (d : DB) (u : str) : Prop :=
  conversations d !! u = None
  ∧ csv_contexts d !! u = None
  ∧ image_contexts d !! u = None.

(** What a route leaves behind when it answered a request that named the
    unknown session [sid] by working under the identifier [u]: the session
    [u] exists, [sid] was not created unless it is [u] itself, and the
    messages written are all filed under [u]. *)
Definition worked_under (w w' : World) (u sid : str) (new : list Message) : Prop :=
  is_Some (conversations (committed w') !! u)
  ∧ (u ≠ sid → conversations (committed w') !! sid = None)
  ∧ messages (committed w') = messages (committed w) ++ new
  ∧ Forall (λ m, m_conversation_id m = u) new.

(** Collaborators and requests for the examples. *)
Definition echo_client (m : str) (p : list chat_message) : completion :=
  mkCompletion [Some (lit "Hel"); None; Some (lit "lo")] None.

Definition describe (m : str) (p : list chat_message) : outcome str :=
  Ret (lit "A small picture.").

Definition plain_prompt (c : option ActiveCsv) (s : option str) : str :=
  lit "You are a helpful AI assistant".

Definition ghost_request : ChatRequest :=
  mkChatRequest (lit "hello") (Some (lit "ghost")) None.

Definition csv_upload : UploadFile :=
  mkUploadFile (Some (lit "a.csv")) (Some (lit "text/csv")) CsvSpec.scenario.

Definition image_upload : UploadFile :=
  mkUploadFile (Some (lit "p.png")) (Some (lit "image/png")) [137; 80; 78; 71]%N.

End RouteSpec.

(** ** Stored contexts *)

Module AccessSpec.
Import Repository.

(** What [get_active_csv] returns once [set_active_csv] has stored
    [csv_data] under [filename]. *)
Definition active_csv_of (csv_data : CsvData) (filename : str) : ActiveCsv :=
  mkActiveCsv (Some filename) (Some (cd_row_count csv_data))
    (Some (Z.of_nat (length (cd_columns csv_data)))) (cd_columns csv_data)
    (cd_numeric_columns csv_data) (cd_text_columns csv_data)
    (cd_sample_rows csv_data) (cd_numeric_stats csv_data)
    (cd_missing_values csv_data) (cd_dtypes csv_data).

(** The store after a successful [set_active_csv] and after a successful
    [set_active_image], run on the store [d] at the times [uploaded] and
    [updated]. *)
Definition set_active_csv_db (k : str) (csv_data : CsvData) (filename summary : str)
    (uploaded updated : Z) (d : DB) : DB :=
  set_csv_contexts
    <[k := RouteSpec.csv_context_row k csv_data filename summary uploaded]>
    (set_conversations (alter (set_updated_at updated) k)
       (set_conversations
          (alter (set_csv_flags true (Some filename) (Some summary)) k) d)).

Definition set_active_image_db (k image filename : str) (uploaded updated : Z)
    (d : DB) : DB :=
  set_image_contexts
    <[k := RouteSpec.image_context_row k image filename uploaded]>
    (set_conversations (alter (set_updated_at updated) k)
       (set_conversations (alter (set_image_flags true (Some filename)) k) d)).

End AccessSpec.

(** ** What the readers return *)

Module ReadSpec.
Import Repository.

(** The entry of [get_message_history_for_llm] for a stored message. *)
Definition history_item (msg : Message) : HistoryItem :=
  mkHistoryItem (m_role msg) (m_content msg).

(** What [get_conversation] returns for session [k] on the store [d]. *)
Definition conversation_dict (d : DB) (k : str) : option ConversationDict :=
  (λ c, mkConversationDict (c_id c) (c_created_at c) (c_updated_at c)
          (message_dict <$> messages_of k d)
          (mkContextDict (i_image_base64 <$> image_contexts d !! k)
             (c_image_filename c)
             ((λ x, mkCsvBrief (x_filename x) (x_row_count x) (x_column_count x)
                      (default [] (x_columns x)) (default [] (x_numeric_columns x))
                      (default [] (x_text_columns x)) (x_csv_data x))
                <$> csv_contexts d !! k)
             (c_csv_filename c) (c_csv_summary c)))
  <$> conversations d !! k.

(** The entry of [get_all_conversations] for the session [conv] on the
    store [d]. *)
Definition list_item (d : DB) (conv : Conversation) : ConversationListItem :=
  mkConversationListItem (c_id conv) (c_created_at conv) (c_updated_at conv)
    (Z.of_nat (length (messages_of (c_id conv) d)))
    (preview_of (messages_of (c_id conv) d))
    (c_has_active_image conv) (c_has_active_csv conv).

(** The first message that the preview loop stops at. *)
Definition previewed (msg : Message) : bool :=
  str_eqb (m_role msg) (lit "user") && negb (startswith (m_content msg) (lit "[")).

End ReadSpec.

(** ** Reachable stores, all writers *)

Module InvariantSpec.
Import Repository StoreSpec.

(** Every function of the repository that writes: the operations of
    [op], and [update_conversation_timestamp]. *)
Inductive action :=
| Perform (o : op)
| UpdateTimestamp (conv_id : str).

(** The world after one action, whether it returned or raised, and after a
    sequence of actions. *)
Definition act (env : Env) (a : action) (w : World) : World :=
  match a with
  | Perform o => perform env o w
  | UpdateTimestamp k => snd (update_conversation_timestamp env k None w)
  end.

Definition act_all (env : Env) (acts : list action) (w : World) : World :=
  fold_left (λ w a, act env a w) acts w.

(** The image columns of a session against its row of [image_contexts]. *)
Definition image_agrees (c : option Conversation) (i : option ImageContext) : Prop :=
  match c, i with
  | Some c, Some i => c_has_active_image c = true ∧ c_image_filename c = i_filename i
  | Some c, None => c_has_active_image c = false ∧ c_image_filename c = None
  | None, Some _ => False
  | None, None => True
  end.

Definition image_mirrored (d : DB) : Prop :=
  ∀ k, image_agrees (conversations d !! k) (image_contexts d !! k).

(** The tabular columns of a session against its row of [csv_contexts]. *)
Definition csv_agrees (c : option Conversation) (x : option CSVContext) : Prop :=
  match c, x with
  | Some c, Some x =>
    c_has_active_csv c = true
    ∧ c_csv_filename c = x_filename x
    ∧ c_csv_summary c = x_summary_text x
    ∧ ∃ cols, x_columns x = Some cols ∧ x_column_count x = Some (Z.of_nat (length cols))
  | Some c, None =>
    c_has_active_csv c = false ∧ c_csv_filename c = None ∧ c_csv_summary c = None
  | None, Some _ => False
  | None, None => True
  end.

Definition csv_mirrored (d : DB) : Prop :=
  ∀ k, csv_agrees (conversations d !! k) (csv_contexts d !! k).

(** Every message belongs to a session that exists. *)
Definition messages_owned (d : DB) : Prop :=
  Forall (λ m, is_Some (conversations d !! m_conversation_id m)) (messages d).

(** A title as [add_message] writes it. *)
Definition title_ok (t : option str) : Prop :=
  match t with
  | None => True
  | Some s => (length s ≤ 100)%nat ∧ startswith s (lit "[") = false
  end.

Definition titles_ok (d : DB) : Prop :=
  ∀ k c, conversations d !! k = Some c → title_ok (c_title c).

(** A session is created, a user message is appended to it, an image is
    stored for it, and a message is sent to a session that does not
    exist. *)
Definition example_acts : list action :=
  [ Perform CreateConversation;
    Perform (AddMessage (lit "id-0") (lit "user") (lit "hello") None None None);
    Perform (SetActiveImage (lit "id-0") (lit "aGk=") (lit "p.png"));
    Perform (AddMessage (lit "ghost") (lit "user") (lit "lost") None None None) ].

End InvariantSpec.

(** ** Notions used to state the properties of the summarizer *)

Module SummarySpec.

(** [col] with count [n] is the first column of [mv] whose count is the
    largest, when some count is positive; otherwise there is no column and
    the count is 0. *)
Definition first_maximum (mv : list (str * Z)) (col : option str) (n : Z) : Prop :=
  Forall (λ kv, snd kv ≤ n) mv
  ∧ match col with
    | None => n = 0
    | Some c =>
      0 < n
      ∧ ∃ before after,
          mv = before ++ (c, n) :: after ∧ Forall (λ kv, snd kv < n) before
    end.

(** A frame whose rows all have one cell per column. *)
Definition rectangular (df : DataFrame) : Prop :=
  Forall (λ r, length r = length (df_columns df)) (df_rows df).

End SummarySpec.

(** ** Notions used to state the properties of the generator *)

Module StreamSpec.
Import Repository LlmService RepositorySpec.

(** The chunks that one streaming call makes the generator yield: the
    [delta.content] that are neither [None] nor empty. *)
Definition chunks_of (c : completion) : list str :=
  omap (λ d, if truthy_opt d then d else None) (deltas c).

(** The entries of the history that reach the payload. *)
Definition kept_history (history : list HistoryItem) : list HistoryItem :=
  filter (λ h, upload_marker (h_content h) = false) (slice_last 15 history).

(** A provider that answers the primary model with two chunks and then
    fails, and answers every other model in full. *)
Definition flaky_client (m : str) (p : list chat_message) : completion :=
  if str_eqb m model
  then mkCompletion [Some (lit "Hel"); None] (Some (mkExn OtherError (lit "reset")))
  else mkCompletion [Some (lit "Hello"); Some empty; Some (lit " there")] None.

End StreamSpec.

(** ** Refusals *)

Module EndpointSpec.
Import Repository LlmService Schemas Routes RouteSpec.

(** The URL that [load_csv_from_url] works with, and whether it passes the
    check of its scheme. *)
Definition url_of (request : CSVUrlRequest) : str := strip (ur_url request).

Definition url_accepted (request : CSVUrlRequest) : bool :=
  startswith (url_of request) (lit "http://")
  || startswith (url_of request) (lit "https://").

(** An HTTP error with the given status, raised before anything was done:
    the world is as it was. *)
Definition refused {A} (r : outcome A * World) (status : Z) (w : World) : Prop :=
  ∃ detail, r = (Raise (mkExn (HTTPException status) detail), w).

(** The answer to a request that names a session that does not exist. *)
Definition not_found {A} (r : outcome A * World) (w : World) : Prop :=
  fst r = Raise (mkExn (HTTPException 404) (lit "Session not found"))
  ∧ committed (snd r) = committed w.

End EndpointSpec.

(** ** Chat turns *)

Module TurnSpec.
Import Repository LlmService Schemas Routes RepositorySpec.

(** The image that [send_message_stream] hands to the model: the one
    pasted with the request if there is one, the one stored for the session
    otherwise. *)
Definition image_for (request : ChatRequest) (d : DB) (k : str) : option str :=
  if truthy_opt (image_base64 request) then image_base64 request
  else i_image_base64 <$> image_contexts d !! k.

(** The notice that [clear_context] appends to the session. *)
Definition cleared_notice : str :=
  lit "Context cleared. You can now upload a new image or CSV, or continue chatting.".

(** A message was appended to the session [k] by the given role. *)
Definition appended (d d' : DB) (k role content : str) : Prop :=
  ∃ msg, messages d' = messages d ++ [msg]
         ∧ m_conversation_id msg = k ∧ m_role msg = role ∧ m_content msg = content.

End TurnSpec.

(** ** Uploads *)

Module UploadSpec.
Import Repository LlmService Schemas Routes RepositorySpec RouteSpec.

(** The marker messages that the three upload routes write. *)
Definition uploaded_csv_marker (filename : str) : str :=
  lit "[Uploaded CSV: " ++ filename ++ lit "]".

Definition loaded_csv_marker (filename : str) : str :=
  lit "[Loaded CSV from URL: " ++ filename ++ lit "]".

(** What a route that loads a table into the existing session [k] leaves
    behind: the table is the active one, two messages were appended to the
    session, the marker and then an acknowledgment, the title is as it was,
    and no identifier was drawn for a session. *)
Definition table_loaded (env : Env) (w w' : World) (k : str) (csv_data : CsvData)
    (filename summary marker : str) : Prop :=
  fst (get_active_csv (healthy env) k None w')
  = Ret (Some (AccessSpec.active_csv_of csv_data filename))
  ∧ fst (get_csv_summary (healthy env) k None w') = Ret (Some summary)
  ∧ (∃ new1 new2,
       messages (committed w') = messages (committed w) ++ [new1; new2]
       ∧ m_conversation_id new1 = k ∧ m_role new1 = lit "user"
       ∧ m_content new1 = marker
       ∧ m_conversation_id new2 = k ∧ m_role new2 = lit "assistant")
  ∧ upload_marker marker = true
  ∧ title_of (committed w') k = title_of (committed w) k
  ∧ uuid_draws w' = S (S (uuid_draws w))
  ∧ image_contexts (committed w') = image_contexts (committed w)
  ∧ ∀ j, j ≠ k →
      conversations (committed w') !! j = conversations (committed w) !! j
      ∧ csv_contexts (committed w') !! j = csv_contexts (committed w) !! j.

(** A file served at a URL, for the examples. *)
Definition scenario_server (url : str) : fetch_outcome :=
  Fetched CsvSpec.scenario CsvSpec.scenario.

Definition uploaded_image_marker (filename : str) : str :=
  lit "[Uploaded image: " ++ filename ++ lit "]".

(** The data URL that [upload_image] builds for the preview. *)
Definition image_data_url (file : UploadFile) : str :=
  lit "data:" ++ default [] (uf_content_type file) ++ lit ";base64,"
    ++ b64encode (uf_content file).

(** The prompt and the payload of the analysis that [upload_image] asks
    for. *)
Definition analysis_payload (image_base64 : str) : list chat_message :=
  [ mkChat (lit "system")
      (Text (lit "Bạn là chuyên gia phân tích hình ảnh. Mô tả ảnh chính xác và chi tiết bằng tiếng Việt."));
    mkChat (lit "user")
      (Parts [ TextPart (lit "Describe this image briefly.");
               ImageUrlPart (lit "data:image/jpeg;base64," ++ image_base64)
                            (lit "high") ]) ].

(** A vision provider that is down. *)
Definition no_vision (m : str) (p : list chat_message) : outcome str :=
  Raise (mkExn OtherError (lit "503")).

End UploadSpec.

(** * Properties *)

(** ** The streaming generator *)

Module LlmServiceProps.
Import Repository LlmService Examples.

Section WithProvider.
Context (client : str → list chat_message → completion).
Context (prompt : option ActiveCsv → option str → str).

Lemma calls_app {A} (t t' : list event) (r : outcome A) :
  calls (t ++ t', r) = calls (t, r) ++ calls (t', r).
Proof. unfold calls. cbn. apply omap_app. Qed.

Lemma yielded_app {A} (t t' : list event) (r : outcome A) :
  yielded (t ++ t', r) = yielded (t, r) ++ yielded (t', r).
Proof. unfold yielded. cbn. apply omap_app. Qed.

Lemma stream_from_calls m p :
  calls (stream_from client m p) = [(m, p)].
Proof.
  unfold stream_from, calls. cbn. f_equal.
  induction (deltas (client m p)) as [|d ds IH]; [done|].
  cbn. destruct d as [s|]; cbn; [|done].
  destruct (truthy s); cbn; done.
Qed.

Lemma stream_from_outcome m p :
  snd (stream_from client m p)
  = match failure (client m p) with None => Ret tt | Some e => Raise e end.
Proof. reflexivity. Qed.

Lemma fallback_message_text msg : ∃ s, body (fallback_message msg) = Text s.
Proof.
  unfold fallback_message. destruct msg as [r [s|ps]]; cbn; eauto.
Qed.

(** C5. When the primary call and the fallback call both fail, the run of
    the generator ends normally (no exception reaches the consumer) and the
    last string it yields is the apology text built from the primary
    error. *)
Theorem both_calls_fail_ends_with_apology
    message history image_base64 csv_context csv_summary e1 e2 :
  let messages :=
    build_messages prompt message history image_base64 csv_context csv_summary in
  failure (client (if has_image image_base64 then vision_model else model) messages)
    = Some e1 →
  failure (client fallback_model (fallback_message <$> messages)) = Some e2 →
  let g := generate_response_stream client prompt message history image_base64
             csv_context csv_summary in
  snd g = Ret tt
  ∧ last (yielded g)
    = Some (lit "I apologize, but I encountered an error: " ++ exn_str e1).
Proof.
  intros messages H1 H2 g. subst g.
  unfold generate_response_stream, g_try_except. fold messages.
  destruct (stream_from client _ messages) as [t1 r1] eqn:E1.
  pose proof (stream_from_outcome (if has_image image_base64 then vision_model else model)
                messages) as O1.
  rewrite E1, H1 in O1. cbn in O1. subst r1.
  destruct (stream_from client fallback_model (fallback_message <$> messages))
    as [t2 r2] eqn:E2.
  pose proof (stream_from_outcome fallback_model (fallback_message <$> messages)) as O2.
  rewrite E2, H2 in O2. cbn in O2. subst r2.
  cbn. split; [done|].
  rewrite !app_assoc. unfold yielded. cbn. rewrite omap_app. cbn.
  apply last_snoc.
Qed.

(** C6. When the primary call fails on a turn that carries an image, the
    second call goes to the fallback model, with a payload made of text
    messages only: the turn that held the image is now the notice text
    followed by the user's text, and no image part is left. *)
Theorem fallback_payload_has_no_image
    message history image_base64 csv_context csv_summary e :
  let messages :=
    build_messages prompt message history image_base64 csv_context csv_summary in
  truthy_opt image_base64 = true →
  failure (client vision_model messages) = Some e →
  let g := generate_response_stream client prompt message history image_base64
             csv_context csv_summary in
  ∃ payload,
    calls g = [(vision_model, messages); (fallback_model, payload)]
    ∧ last messages
      = Some (mkChat (lit "user")
                (Parts [ TextPart message;
                         ImageUrlPart (lit "data:image/jpeg;base64,"
                                         ++ default [] image_base64) (lit "auto") ]))
    ∧ last payload
      = Some (mkChat (lit "user") (Text (image_notice ++ [10%N] ++ message)))
    ∧ Forall (λ m, ∃ s, body m = Text s) payload.
Proof.
  intros messages Himg H1 g. subst g.
  assert (Hhas : has_image image_base64 = true).
  { unfold has_image. rewrite Himg. reflexivity. }
  exists (fallback_message <$> messages).
  assert (Hlast : last messages
      = Some (mkChat (lit "user")
                (Parts [ TextPart message;
                         ImageUrlPart (lit "data:image/jpeg;base64,"
                                         ++ default [] image_base64) (lit "auto") ]))).
  { unfold messages, build_messages. rewrite !app_assoc, last_snoc.
    unfold current_message. rewrite Hhas. reflexivity. }
  split; [|split; [exact Hlast|split]].
  - unfold generate_response_stream, g_try_except. fold messages. rewrite Hhas.
    pose proof (stream_from_calls vision_model messages) as C1.
    pose proof (stream_from_outcome vision_model messages) as O1.
    rewrite H1 in O1.
    destruct (stream_from client vision_model messages) as [t1 r1].
    simpl snd in O1. subst r1.
    pose proof (stream_from_calls fallback_model (fallback_message <$> messages)) as C2.
    destruct (stream_from client fallback_model (fallback_message <$> messages))
      as [t2 [[]|e2]].
    + unfold calls in *. cbv beta iota. simpl fst in *.
      rewrite omap_app, C1, C2. reflexivity.
    + unfold yield, calls in *. cbv beta iota. simpl fst in *.
      rewrite !omap_app, C1, C2. reflexivity.
  - rewrite fmap_last, Hlast. reflexivity.
  - apply Forall_fmap, Forall_forall. intros m _. apply fallback_message_text.
Qed.

End WithProvider.

Lemma both_calls_fail_witness :
  let g := generate_response_stream failing_client no_prompt (lit "hi") [] None None None in
  snd g = Ret tt
  ∧ last (yielded g)
    = Some (lit "I apologize, but I encountered an error: " ++ lit "boom").
Proof.
  apply (both_calls_fail_ends_with_apology failing_client no_prompt (lit "hi") [] None
           None None (mkExn OtherError (lit "boom")) (mkExn OtherError (lit "boom")));
    reflexivity.
Defined.

Lemma fallback_payload_witness :
  ∃ payload,
    calls (generate_response_stream failing_client no_prompt (lit "what is this?") []
             (Some (lit "QUJD")) None None)
    = [(vision_model,
        build_messages no_prompt (lit "what is this?") [] (Some (lit "QUJD")) None None);
       (fallback_model, payload)]
    ∧ last (build_messages no_prompt (lit "what is this?") [] (Some (lit "QUJD")) None None)
      = Some (mkChat (lit "user")
                (Parts [ TextPart (lit "what is this?");
                         ImageUrlPart (lit "data:image/jpeg;base64,"
                                         ++ default [] (Some (lit "QUJD"))) (lit "auto") ]))
    ∧ last payload
      = Some (mkChat (lit "user")
                (Text (image_notice ++ [10%N] ++ lit "what is this?")))
    ∧ Forall (λ m, ∃ s, body m = Text s) payload.
Proof.
  apply (fallback_payload_has_no_image failing_client no_prompt (lit "what is this?") []
           (Some (lit "QUJD")) None None (mkExn OtherError (lit "boom")));
    reflexivity.
Defined.

End LlmServiceProps.

(** ** Symbolic runs of the repository *)

Module RepositoryProps.
Import Repository RepositorySpec.

(** Unfolding of the monad and of the session primitives. *)
Ltac unfold_orm :=
  unfold with_db, get_db_session, close, try_finally, try_except, commit,
    flush, send_commit, query, bulk_delete, round_trip, utcnow, uuid4, db_add,
    db_delete, assign, rollback, modify, gets, raise, abandon, publish,
    with_pending in *;
  unfold mbind, M_bind, mret, M_ret in *.

(** One case split of a symbolic run. *)
Ltac split_run :=
  match goal with
  | |- context [db_fault ?e ?n] =>
    lazymatch goal with
    | |- context [match db_fault e n with _ => _ end] =>
      destruct (db_fault e n) eqn:?
    end
  | |- context [match conversations ?d !! ?k with _ => _ end] =>
    destruct (conversations d !! k) eqn:?
  | |- context [match image_contexts ?d !! ?k with _ => _ end] =>
    destruct (image_contexts d !! k) eqn:?
  | |- context [match csv_contexts ?d !! ?k with _ => _ end] =>
    destruct (csv_contexts d !! k) eqn:?
  | |- context [if existsb ?f ?l then _ else _] =>
    destruct (existsb f l) eqn:?
  | |- context [if ?b then _ else _] => destruct b eqn:?
  end.

Ltac run := unfold_orm; simpl; repeat (split_run; simpl).

Lemma title_of_updated_at d t cid k :
  title_of (set_conversations (alter (set_updated_at t) cid) d) k = title_of d k.
Proof.
  unfold title_of, set_conversations. simpl. rewrite lookup_alter.
  case_decide; [subst|done]. destruct (conversations d !! k); done.
Qed.

Lemma title_of_messages d f k : title_of (set_messages f d) k = title_of d k.
Proof. reflexivity. Qed.

Lemma alter_known {A} (f : A → A) (k : str) (m : gmap str A) (a : A) :
  m !! k = Some a → alter f k m = <[k := f a]> m.
Proof.
  intros H. apply map_eq. intros i. rewrite lookup_alter, lookup_insert.
  destruct (decide (k = i)); [subst; rewrite H; reflexivity|reflexivity].
Qed.

Lemma alter_twice {A} (f g : A → A) (k : str) (m : gmap str A) :
  alter f k (alter g k m) = alter (f ∘ g) k m.
Proof.
  apply map_eq. intros i. rewrite !lookup_alter.
  repeat case_decide; try congruence. by destruct (m !! k).
Qed.

Lemma add_message_ok env conv_id role content image_url csv_data chart_data w c :
  conversations (committed w) !! conv_id = Some c →
  id_taken (uuid_src env (uuid_draws w)) (committed w) = false →
  let msg := mkMessage (uuid_src env (uuid_draws w)) conv_id role content
               (clock env (clock_reads w)) image_url csv_data chart_data in
  add_message (healthy env) conv_id role content image_url csv_data chart_data None w
  = (Ret (message_dict msg),
     settled (add_message_db (committed w) c msg (clock env (S (clock_reads w))))
       (S (S (clock_reads w))) (S (uuid_draws w)) (4 + db_trips w)).
Proof.
  intros Hc Hf msg. unfold id_taken in Hf.
  unfold add_message. unfold_orm. simpl. rewrite Hc. simpl.
  unfold add_message_db, next_title, derives_title. simpl.
  destruct (negb (truthy_opt (c_title c)) && str_eqb role (lit "user")
            && negb (startswith content (lit "["))) eqn:Hd;
    simpl; rewrite Hf; simpl; unfold settled; f_equal;
    f_equal; unfold set_messages, set_conversations; simpl; f_equal.
  all: apply map_eq; intros i;
    repeat first [rewrite lookup_alter | rewrite lookup_insert];
    repeat case_decide; subst; try congruence; rewrite ?Hc; try reflexivity.
  all: simpl; f_equal; by destruct c.
Qed.

Lemma add_message_marker_keeps_title env conv_id role content image_url csv_data
    chart_data w k :
  startswith content (lit "[") = true →
  title_of (committed (snd (add_message env conv_id role content image_url
                              csv_data chart_data None w))) k
  = title_of (committed w) k.
Proof.
  intros Hm. unfold add_message. rewrite Hm. simpl negb.
  run; try reflexivity;
    try match goal with
        | H : _ && false = true |- _ => rewrite andb_false_r in H; discriminate
        end;
    rewrite title_of_messages, title_of_updated_at; reflexivity.
Qed.

End RepositoryProps.

(** ** Marker messages *)

Module MarkerProps.
Import Repository LlmService RepositorySpec RepositoryProps Examples.

Lemma history_messages_spec history m :
  m ∈ history_messages history ↔
  ∃ item, item ∈ slice_last 15 history
          ∧ upload_marker (h_content item) = false
          ∧ m = mkChat (h_role item) (Text (h_content item)).
Proof.
  unfold history_messages. rewrite list_elem_of_omap. unfold upload_marker.
  split.
  - intros (item & Hin & Hm). exists item.
    destruct (_ || _); [discriminate|]. naive_solver.
  - intros (item & Hin & Hk & ->). exists item. rewrite Hk. done.
Qed.

(** C1 (as the code has it). A message whose content begins with [[] never
    becomes the title of any session; and when its content begins with
    [[Uploaded] or [[Loaded] it is dropped from the history sent to the model,
    under any role and in any history. *)
Theorem marker_kept_out_of_title_and_history
    env conv_id role content image_url csv_data chart_data w k history :
  startswith content (lit "[") = true →
  title_of (committed (snd (add_message env conv_id role content image_url
                              csv_data chart_data None w))) k
  = title_of (committed w) k
  ∧ (upload_marker content = true →
     ∀ r, mkChat r (Text content) ∉ history_messages history).
Proof.
  intros Hm. split.
  - by apply add_message_marker_keeps_title.
  - intros Hu r (item & _ & Hk & Heq)%history_messages_spec.
    injection Heq as _ Hc. subst content. congruence.
Qed.

(** C1 fails as stated for the history: a stored message that begins with
    [[] without being an upload marker is sent to the model. *)
Lemma bracket_text_reaches_model :
  startswith (lit "[draft] hello") (lit "[") = true
  ∧ history_messages [mkHistoryItem (lit "user") (lit "[draft] hello")]
    = [mkChat (lit "user") (Text (lit "[draft] hello"))].
Proof. split; vm_compute; reflexivity. Qed.

Lemma marker_kept_out_witness :
  title_of (committed (snd (add_message env0 (lit "id-0") (lit "user")
                              (lit "[Uploaded CSV: a.csv]") None None None None
                              one_session))) (lit "id-0")
  = title_of (committed one_session) (lit "id-0")
  ∧ ∀ r, mkChat r (Text (lit "[Uploaded CSV: a.csv]"))
         ∉ history_messages [mkHistoryItem (lit "user") (lit "[Uploaded CSV: a.csv]")].
Proof.
  assert (Hm : startswith (lit "[Uploaded CSV: a.csv]") (lit "[") = true)
    by (vm_compute; reflexivity).
  assert (Hu : upload_marker (lit "[Uploaded CSV: a.csv]") = true)
    by (vm_compute; reflexivity).
  destruct (marker_kept_out_of_title_and_history env0 (lit "id-0") (lit "user")
              (lit "[Uploaded CSV: a.csv]") None None None one_session (lit "id-0")
              [mkHistoryItem (lit "user") (lit "[Uploaded CSV: a.csv]")] Hm)
    as [Ht Hh].
  split; [exact Ht|exact (Hh Hu)].
Defined.

End MarkerProps.

(** ** Title derivation *)

Module TitleProps.
Import Repository RepositorySpec RepositoryProps TitleSpec Examples.

Lemma id_taken_false u d : u ∉ message_ids d → id_taken u d = false.
Proof.
  unfold message_ids, id_taken. induction (messages d) as [|m ms IH]; [done|].
  rewrite fmap_cons, not_elem_of_cons. intros [Hne Hnin]. simpl.
  rewrite IH by done. unfold str_eqb. rewrite bool_decide_eq_false_2; done.
Qed.

Lemma title_after_truthy t calls :
  truthy_opt t = true → title_after t calls = t.
Proof.
  unfold title_after. induction calls as [|k rest IH]; [done|].
  intros Ht. simpl. unfold title_step at 2. rewrite Ht. simpl. by apply IH.
Qed.

Lemma truthy_slice_to n (s : str) :
  (0 < n)%nat → truthy s = true → truthy (slice_to n s) = true.
Proof. destruct s, n; simpl; try done; lia. Qed.

Lemma title_after_unset calls :
  Forall user_has_content calls →
  title_after None calls
  = (λ k, slice_to 100 (ac_content k)) <$> find unmarked_user calls.
Proof.
  unfold title_after. induction 1 as [|k rest Hk _ IH]; [done|].
  cbn [fold_left find]. unfold title_step at 2, unmarked_user at 1.
  cbn [truthy_opt negb andb].
  destruct (str_eqb (ac_role k) (lit "user")) eqn:Hr; cbn [andb]; [|exact IH].
  destruct (startswith (ac_content k) (lit "[")); cbn [negb]; [exact IH|].
  cbn [fmap option_fmap option_map].
  apply (title_after_truthy (Some (slice_to 100 (ac_content k)))).
  cbn [truthy_opt]. apply truthy_slice_to; [lia|].
  unfold str_eqb in Hr. apply bool_decide_eq_true in Hr.
  specialize (Hk Hr). destruct (ac_content k); [simpl in Hk; lia|done].
Qed.

Lemma append_all_runs env conv_id calls : ∀ w c,
  conversations (committed w) !! conv_id = Some c →
  NoDup (draws env w (length calls) ++ message_ids (committed w)) →
  ∃ w' c',
    append_all (healthy env) conv_id calls w = (Ret tt, w')
    ∧ conversations (committed w') !! conv_id = Some c'
    ∧ c_title c' = title_after (c_title c) calls
    ∧ uuid_draws w' = (uuid_draws w + length calls)%nat
    ∧ message_ids (committed w')
      = message_ids (committed w) ++ draws env w (length calls).
Proof.
  induction calls as [|k rest IH]; intros w c Hc Hnd.
  - exists w, c. unfold draws. cbn [length seq fmap list_fmap].
    rewrite Nat.add_0_r, app_nil_r. done.
  - simpl in Hnd. unfold draws in Hnd. simpl in Hnd.
    apply NoDup_cons in Hnd as [Hfresh Hnd].
    assert (Hfree : id_taken (uuid_src env (uuid_draws w)) (committed w) = false).
    { apply id_taken_false. intros Hin. apply Hfresh. apply elem_of_app. by right. }
    pose proof (add_message_ok env conv_id (ac_role k) (ac_content k) (ac_image_url k)
                  (ac_csv_data k) (ac_chart_data k) w c Hc Hfree) as Hadd.
    cbv zeta in Hadd.
    set (msg := mkMessage _ _ _ _ _ _ _ _) in Hadd.
    set (w1 := settled _ _ _ _) in Hadd.
    destruct (IH w1 (set_title (next_title c (ac_role k) (ac_content k))
                       (set_updated_at (clock env (S (clock_reads w))) c)))
      as (w' & c' & Hrun & Hc' & Ht & Hu & Hids).
    { unfold w1, settled, add_message_db, set_messages, set_conversations. simpl.
      apply lookup_insert_eq. }
    { unfold w1, settled, draws, message_ids, add_message_db, set_messages. simpl.
      rewrite fmap_app. simpl. rewrite app_assoc.
      apply NoDup_app. apply NoDup_app in Hnd as (Hd1 & Hd2 & Hd3).
      split; [|split].
      - apply NoDup_app. split; [done|]. split; [|done]. done.
      - intros x [Hx|Hx]%elem_of_app.
        + intros ->%list_elem_of_singleton. apply Hfresh. apply elem_of_app. by left.
        + intros ->%list_elem_of_singleton. apply Hfresh. apply elem_of_app. by right.
      - apply NoDup_singleton. }
    exists w', c'. split; [|split; [done|split; [|split]]].
    + cbn [append_all]. unfold mbind, M_bind. rewrite Hadd. exact Hrun.
    + rewrite Ht. simpl. unfold title_after. simpl. by f_equal.
    + rewrite Hu. unfold w1, settled. cbn [uuid_draws length]. lia.
    + rewrite Hids.
      unfold w1, settled, draws, message_ids, add_message_db, set_messages.
      cbn [committed messages uuid_draws length seq fmap list_fmap].
      rewrite fmap_app. cbn [fmap list_fmap]. rewrite <- app_assoc. done.
Qed.

(** C8. Over any sequence of [add_message] calls to a session whose title is
    unset, in which every user message has content as the callers pass it,
    with a working database and fresh message identifiers: every call
    succeeds; the title is unset as long as no user message that does not
    begin with [[] has arrived, and from the first such message on it is
    the first 100 characters of that message; no later message, whatever
    it holds, overwrites it. *)
Theorem title_from_first_unmarked_user_message env conv_id calls later w c :
  conversations (committed w) !! conv_id = Some c →
  c_title c = None →
  Forall user_has_content calls →
  NoDup (draws env w (length (calls ++ later)) ++ message_ids (committed w)) →
  ∃ w1 c1 w2 c2,
    append_all (healthy env) conv_id calls w = (Ret tt, w1)
    ∧ conversations (committed w1) !! conv_id = Some c1
    ∧ c_title c1 = (λ k, slice_to 100 (ac_content k)) <$> find unmarked_user calls
    ∧ append_all (healthy env) conv_id later w1 = (Ret tt, w2)
    ∧ conversations (committed w2) !! conv_id = Some c2
    ∧ (is_Some (find unmarked_user calls) → c_title c2 = c_title c1).
Proof.
  intros Hc Ht Hcalls Hnd.
  rewrite length_app in Hnd. unfold draws in Hnd. rewrite seq_app, fmap_app in Hnd.
  destruct (append_all_runs env conv_id calls w c Hc)
    as (w1 & c1 & Hrun1 & Hc1 & Ht1 & Hu1 & Hids1).
  { unfold draws. rewrite <- app_assoc in Hnd.
    apply NoDup_app in Hnd as (Hd1 & Hd2 & Hd3).
    apply NoDup_app in Hd3 as (Hd4 & Hd5 & Hd6).
    apply NoDup_app. split; [done|]. split; [|done].
    intros x Hx Hin. apply (Hd2 x Hx). apply elem_of_app. by right. }
  destruct (append_all_runs env conv_id later w1 c1 Hc1)
    as (w2 & c2 & Hrun2 & Hc2 & Ht2 & _ & _).
  { unfold draws. rewrite Hu1, Hids1. unfold draws.
    eapply NoDup_Permutation_proper; [|exact Hnd].
    rewrite <- !app_assoc.
    rewrite (Permutation_app_comm
               (uuid_src env <$> seq (uuid_draws w + length calls) (length later))).
    rewrite <- !app_assoc.
    rewrite (Permutation_app_comm (message_ids (committed w))).
    rewrite <- !app_assoc. done. }
  exists w1, c1, w2, c2.
  rewrite Ht in Ht1. rewrite (title_after_unset calls Hcalls) in Ht1.
  repeat split; try done.
  intros [k Hk]. rewrite Ht2, Ht1, Hk. cbn [fmap option_fmap option_map].
  apply title_after_truthy. cbn [truthy_opt]. apply truthy_slice_to; [lia|].
  apply find_some in Hk as [Hin Hk]. unfold unmarked_user in Hk.
  apply andb_prop in Hk as [Hr _]. unfold str_eqb in Hr.
  apply bool_decide_eq_true in Hr.
  pose proof (proj1 (List.Forall_forall _ _) Hcalls k Hin Hr) as Hlen.
  destruct (ac_content k); [simpl in Hlen; lia|done].
Qed.

(** The hypothesis on the content is used: [add_message] tests the
    truthiness of the title, so a direct call with an empty user message
    stores an empty title, which counts as unset at the next call. *)
Remark direct_call_with_empty_content :
  let w1 := snd (add_message env0 (lit "id-0") (lit "user") empty None None None None
                   one_session) in
  let w2 := snd (add_message env0 (lit "id-0") (lit "user") (lit "hello") None None
                   None None w1) in
  title_of (committed one_session) (lit "id-0") = Some None
  ∧ title_of (committed w1) (lit "id-0") = Some (Some (slice_to 100 empty))
  ∧ title_of (committed w2) (lit "id-0") = Some (Some (lit "hello")).
Proof. vm_compute. done. Qed.

Lemma title_from_first_unmarked_user_witness :
  ∃ w1 c1 w2 c2,
    append_all (healthy env0) (lit "id-0") example_calls one_session = (Ret tt, w1)
    ∧ conversations (committed w1) !! lit "id-0" = Some c1
    ∧ c_title c1
      = (λ k, slice_to 100 (ac_content k)) <$> find unmarked_user example_calls
    ∧ append_all (healthy env0) (lit "id-0") example_later w1 = (Ret tt, w2)
    ∧ conversations (committed w2) !! lit "id-0" = Some c2
    ∧ (is_Some (find unmarked_user example_calls) → c_title c2 = c_title c1).
Proof.
  apply (title_from_first_unmarked_user_message env0 (lit "id-0") example_calls
           example_later one_session
           (mkConversation (lit "id-0") 0 1 None false None false None None)).
  - vm_compute. reflexivity.
  - reflexivity.
  - repeat constructor; intros _; vm_compute; lia.
  - apply (bool_decide_unpack _). vm_compute. reflexivity.
Defined.

End TitleProps.

(** ** The tabular flag and the tabular record *)

Module StoreProps.
Import Repository RepositorySpec RepositoryProps StoreSpec.

Ltac lookups :=
  repeat first
    [ rewrite lookup_alter in * | rewrite lookup_insert in *
    | rewrite lookup_delete in * ];
  repeat case_decide; subst; simplify_eq.

Ltac consistent Hinv :=
  let j := fresh "j" in
  intros j; specialize (Hinv j);
  unfold has_csv_flag, has_csv_data, set_csv_contexts, set_conversations,
    set_messages, set_image_contexts, delete_rows, delete_row in *; simpl in *;
  lookups;
  repeat match goal with
         | H : ?m !! ?i = _ |- context [?m !! ?i] => rewrite H
         | H : ?m !! ?i = _, H' : context [?m !! ?i] |- _ => rewrite H in H'
         end;
  simpl in *; simplify_eq; try done;
  try match goal with
      | |- context [conversations ?d !! ?i] => by destruct (conversations d !! i)
      end.

Lemma perform_consistent env o w :
  csv_consistent (committed w) → csv_consistent (committed (perform env o w)).
Proof.
  intros Hinv. destruct o; unfold perform.
  - unfold create_conversation. run; try exact Hinv; solve [consistent Hinv].
  - unfold delete_conversation. run; try exact Hinv; solve [consistent Hinv].
  - unfold add_message. run; try exact Hinv; solve [consistent Hinv].
  - unfold set_active_image. run; try exact Hinv; solve [consistent Hinv].
  - unfold clear_image_context. run; try exact Hinv; solve [consistent Hinv].
  - unfold set_active_csv. run; try exact Hinv; solve [consistent Hinv].
  - unfold clear_csv_context. run; try exact Hinv; solve [consistent Hinv].
  - unfold clear_all_context, clear_image_context, clear_csv_context.
    run; try exact Hinv; solve [consistent Hinv].
Qed.

(** C4. In every state reached from the empty store by repository
    operations, whatever the database failures on the way (a replace that
    fails is rolled back), the tabular flag of a session is set exactly when
    a tabular record holding data is stored for it. *)
Theorem csv_flag_iff_context_stored env ops k :
  let d := committed (perform_all env ops initial_world) in
  has_csv_flag d k = true
  ↔ ∃ x data, csv_contexts d !! k = Some x ∧ x_csv_data x = Some data.
Proof.
  intros d.
  assert (Hinv : csv_consistent d).
  { subst d. unfold perform_all.
    assert (H0 : csv_consistent (committed initial_world)) by (intros j; reflexivity).
    revert H0. generalize initial_world as w0.
    induction ops as [|o ops IH]; intros w0 H0; [exact H0|].
    simpl. apply IH. by apply perform_consistent. }
  rewrite (Hinv k). unfold has_csv_data.
  destruct (csv_contexts d !! k) as [x|]; simpl.
  - rewrite bool_decide_eq_true. split.
    + intros [data Hd]. eauto.
    + intros (x' & data & [= <-] & Hd). eauto.
  - split; [done|]. by intros (x' & data & [=] & _).
Qed.

(** A replace that fails after its delete was flushed leaves the previous
    record and the flag as they were. *)
Example failing_replace_rolls_back :
  let env := failing_at 10 in
  let w1 := perform_all env
              [CreateConversation;
               SetActiveCsv (lit "id-0") (table (lit "a.csv") 3) (lit "a.csv") (lit "s1")]
              initial_world in
  let r := set_active_csv env (lit "id-0") (table (lit "b.csv") 7) (lit "b.csv")
             (lit "s2") None w1 in
  fst r = Raise (mkExn OtherError (lit "OperationalError"))
  ∧ committed (snd r) = committed w1
  ∧ has_csv_flag (committed (snd r)) (lit "id-0") = true
  ∧ (x_filename <$> csv_contexts (committed (snd r)) !! lit "id-0")
    = Some (Some (lit "a.csv")).
Proof. vm_compute. done. Qed.

End StoreProps.

(** ** Clearing the active contexts *)

Module ClearProps.
Import Repository RepositorySpec RepositoryProps Examples StoreSpec StoreProps ClearSpec.

Lemma clear_image_context_shared env k s w :
  session_new w = [] → session_deleted w = [] →
  ∃ c' t',
    clear_image_context (healthy env) k (Some s) w
    = (Ret tt, settled (clear_image_db (clock env (clock_reads w)) k (pending w))
                 c' (uuid_draws w) t').
Proof.
  intros Hn Hd. unfold clear_image_context, clear_image_db. unfold_orm. simpl.
  destruct (conversations (pending w) !! k); simpl; rewrite Hn, Hd; simpl;
    eexists _, _; reflexivity.
Qed.

Lemma clear_csv_context_shared env k s w :
  session_new w = [] → session_deleted w = [] →
  ∃ c' t',
    clear_csv_context (healthy env) k (Some s) w
    = (Ret tt, settled (clear_csv_db (clock env (clock_reads w)) k (pending w))
                 c' (uuid_draws w) t').
Proof.
  intros Hn Hd. unfold clear_csv_context, clear_csv_db. unfold_orm. simpl.
  destruct (conversations (pending w) !! k); simpl; rewrite Hn, Hd; simpl;
    eexists _, _; reflexivity.
Qed.

Lemma clear_image_context_own env k w :
  ∃ c' t',
    clear_image_context (healthy env) k None w
    = (Ret tt, settled (clear_image_db (clock env (clock_reads w)) k (committed w))
                 c' (uuid_draws w) t').
Proof.
  unfold clear_image_context, clear_image_db. unfold_orm. simpl.
  destruct (conversations (committed w) !! k); simpl; eexists _, _; reflexivity.
Qed.

Lemma clear_csv_context_own env k w :
  ∃ c' t',
    clear_csv_context (healthy env) k None w
    = (Ret tt, settled (clear_csv_db (clock env (clock_reads w)) k (committed w))
                 c' (uuid_draws w) t').
Proof.
  unfold clear_csv_context, clear_csv_db. unfold_orm. simpl.
  destruct (conversations (committed w) !! k); simpl; eexists _, _; reflexivity.
Qed.

Lemma clear_all_context_own env k w :
  ∃ t1 t2 c' t',
    clear_all_context (healthy env) k None w
    = (Ret tt, settled (clear_csv_db t2 k (clear_image_db t1 k (committed w)))
                 c' (uuid_draws w) t').
Proof.
  unfold clear_all_context, with_db at 1, get_db_session, try_finally, close.
  unfold modify, mbind, M_bind, mret, M_ret. simpl.
  destruct (clear_image_context_shared env k SessionLocal (abandon w) eq_refl eq_refl)
    as (c1 & t1 & H1).
  rewrite H1.
  destruct (clear_csv_context_shared env k SessionLocal
              (settled (clear_image_db (clock env (clock_reads (abandon w))) k
                          (pending (abandon w))) c1 (uuid_draws (abandon w)) t1)
              eq_refl eq_refl) as (c2 & t2 & H2).
  rewrite H2. simpl. eexists _, _, _, _. reflexivity.
Qed.

Lemma alter_absent {A} (f : A → A) (k : str) (m : gmap str A) :
  m !! k = None → alter f k m = m.
Proof.
  intros H. apply map_eq. intros i. rewrite lookup_alter.
  case_decide; [subst; by rewrite H|done].
Qed.

Lemma clear_image_db_eq t k d :
  clear_image_db t k d
  = mkDB (alter (set_updated_at t ∘ set_image_flags false None) k (conversations d))
         (messages d) (delete k (image_contexts d)) (csv_contexts d).
Proof.
  unfold clear_image_db, set_conversations, set_image_contexts. simpl.
  destruct (conversations d !! k) eqn:Hc; simpl; f_equal.
  - apply alter_twice.
  - symmetry. by apply alter_absent.
Qed.

Lemma clear_csv_db_eq t k d :
  clear_csv_db t k d
  = mkDB (alter (set_updated_at t ∘ set_csv_flags false None None) k (conversations d))
         (messages d) (image_contexts d) (delete k (csv_contexts d)).
Proof.
  unfold clear_csv_db, set_conversations, set_csv_contexts. simpl.
  destruct (conversations d !! k) eqn:Hc; simpl; f_equal.
  - apply alter_twice.
  - symmetry. by apply alter_absent.
Qed.

Ltac same_maps :=
  rewrite ?clear_csv_db_eq, ?clear_image_db_eq;
  unfold forget_updated_at, set_conversations; simpl;
  f_equal; apply map_eq; intros ?;
  repeat first [ rewrite lookup_alter | rewrite lookup_delete ];
  repeat (case_decide; subst; try congruence);
  try match goal with
      | |- context [conversations ?d !! ?i] => by destruct (conversations d !! i) as [[]|]
      end;
  try reflexivity.

Lemma cleared_slots t1 t2 k d :
  image_contexts (clear_csv_db t2 k (clear_image_db t1 k d)) !! k = None
  ∧ csv_contexts (clear_csv_db t2 k (clear_image_db t1 k d)) !! k = None.
Proof.
  rewrite clear_csv_db_eq, clear_image_db_eq. simpl.
  split; apply lookup_delete_eq.
Qed.

Lemma clear_image_db_again t1 t2 k d :
  forget_updated_at k (clear_image_db t2 k (clear_image_db t1 k d))
  = forget_updated_at k (clear_image_db t1 k d).
Proof. same_maps. Qed.

Lemma clear_csv_db_again t1 t2 k d :
  forget_updated_at k (clear_csv_db t2 k (clear_csv_db t1 k d))
  = forget_updated_at k (clear_csv_db t1 k d).
Proof. same_maps. Qed.

Lemma clear_all_db_again t1 t2 t3 t4 k d :
  forget_updated_at k
    (clear_csv_db t4 k (clear_image_db t3 k
       (clear_csv_db t2 k (clear_image_db t1 k d))))
  = forget_updated_at k (clear_csv_db t2 k (clear_image_db t1 k d)).
Proof. same_maps. Qed.

Lemma clear_image_db_empty t k d :
  image_slot_empty d k →
  forget_updated_at k (clear_image_db t k d) = forget_updated_at k d.
Proof.
  intros [Hi Hc]. rewrite clear_image_db_eq.
  unfold forget_updated_at, set_conversations. simpl. f_equal.
  - apply map_eq. intros i. rewrite !lookup_alter.
    repeat (case_decide; subst; try congruence).
    destruct (conversations d !! i) as [c|] eqn:E; [|done].
    destruct (Hc c eq_refl) as [H1 H2]. destruct c. simpl in *. by subst.
  - apply map_eq. intros i. rewrite lookup_delete.
    case_decide; subst; by rewrite ?Hi.
Qed.

Lemma clear_csv_db_empty t k d :
  csv_slot_empty d k →
  forget_updated_at k (clear_csv_db t k d) = forget_updated_at k d.
Proof.
  intros [Hi Hc]. rewrite clear_csv_db_eq.
  unfold forget_updated_at, set_conversations. simpl. f_equal.
  - apply map_eq. intros i. rewrite !lookup_alter.
    repeat (case_decide; subst; try congruence).
    destruct (conversations d !! i) as [c|] eqn:E; [|done].
    destruct (Hc c eq_refl) as (H1 & H2 & H3). destruct c. simpl in *. by subst.
  - apply map_eq. intros i. rewrite lookup_delete.
    case_decide; subst; by rewrite ?Hi.
Qed.

Lemma csv_slot_empty_after_image t k d :
  csv_slot_empty d k → csv_slot_empty (clear_image_db t k d) k.
Proof.
  intros [Hi Hc]. rewrite clear_image_db_eq. split; [exact Hi|].
  simpl. intros c. rewrite lookup_alter, decide_True by done.
  destruct (conversations d !! k) as [c0|] eqn:E; [|done].
  intros [= <-]. destruct (Hc c0 eq_refl) as (H1 & H2 & H3). by destruct c0.
Qed.

Lemma get_active_image_absent env k w :
  image_contexts (committed w) !! k = None →
  fst (get_active_image (healthy env) k None w) = Ret None.
Proof. intros H. unfold get_active_image. unfold_orm. simpl. by rewrite H. Qed.

Lemma get_active_csv_absent env k w :
  csv_contexts (committed w) !! k = None →
  fst (get_active_csv (healthy env) k None w) = Ret None.
Proof. intros H. unfold get_active_csv. unfold_orm. simpl. by rewrite H. Qed.

(** C9. With a working database, [clear_all_context] never raises, after it
    both [get_active_image] and [get_active_csv] return nothing, and a
    second call raises nothing, leaves both readers returning nothing and
    leaves the store as the first one left it (the last-update time of the
    session apart, which every clear sets again). The same holds for
    [clear_image_context] and [clear_csv_context] run on a slot that was
    just cleared, and for each of the three run on a slot that holds
    nothing. *)
Theorem clear_all_absent_and_idempotent env k w :
  let r1 := clear_all_context (healthy env) k None w in
  let r2 := clear_all_context (healthy env) k None (snd r1) in
  let i1 := clear_image_context (healthy env) k None w in
  let i2 := clear_image_context (healthy env) k None (snd i1) in
  let x1 := clear_csv_context (healthy env) k None w in
  let x2 := clear_csv_context (healthy env) k None (snd x1) in
  (fst r1 = Ret tt ∧ fst r2 = Ret tt
   ∧ fst (get_active_image (healthy env) k None (snd r1)) = Ret None
   ∧ fst (get_active_csv (healthy env) k None (snd r1)) = Ret None
   ∧ fst (get_active_image (healthy env) k None (snd r2)) = Ret None
   ∧ fst (get_active_csv (healthy env) k None (snd r2)) = Ret None
   ∧ forget_updated_at k (committed (snd r2)) = forget_updated_at k (committed (snd r1)))
  ∧ (fst i1 = Ret tt ∧ fst i2 = Ret tt
     ∧ forget_updated_at k (committed (snd i2)) = forget_updated_at k (committed (snd i1)))
  ∧ (fst x1 = Ret tt ∧ fst x2 = Ret tt
     ∧ forget_updated_at k (committed (snd x2)) = forget_updated_at k (committed (snd x1)))
  ∧ (image_slot_empty (committed w) k →
     forget_updated_at k (committed (snd i1)) = forget_updated_at k (committed w))
  ∧ (csv_slot_empty (committed w) k →
     forget_updated_at k (committed (snd x1)) = forget_updated_at k (committed w))
  ∧ (image_slot_empty (committed w) k → csv_slot_empty (committed w) k →
     forget_updated_at k (committed (snd r1)) = forget_updated_at k (committed w)).
Proof.
  intros r1 r2 i1 i2 x1 x2.
  split; [|split; [|split; [|split; [|split]]]].
  - destruct (clear_all_context_own env k w) as (t1 & t2 & c1 & n1 & H1).
    subst r2 r1. rewrite H1. cbn [fst snd].
    destruct (clear_all_context_own env k
                (settled (clear_csv_db t2 k (clear_image_db t1 k (committed w)))
                   c1 (uuid_draws w) n1)) as (t3 & t4 & c2 & n2 & H2).
    rewrite H2. cbn [fst snd settled committed uuid_draws].
    pose proof (cleared_slots t1 t2 k (committed w)) as [Hi Hx].
    pose proof (cleared_slots t3 t4 k
                  (clear_csv_db t2 k (clear_image_db t1 k (committed w)))) as [Hi' Hx'].
    repeat split.
    + by apply get_active_image_absent.
    + by apply get_active_csv_absent.
    + by apply get_active_image_absent.
    + by apply get_active_csv_absent.
    + apply clear_all_db_again.
  - destruct (clear_image_context_own env k w) as (c1 & n1 & H1).
    subst i2 i1. rewrite H1. cbn [fst snd].
    destruct (clear_image_context_own env k
                (settled (clear_image_db (clock env (clock_reads w)) k (committed w))
                   c1 (uuid_draws w) n1)) as (c2 & n2 & H2).
    rewrite H2. cbn [fst snd settled committed uuid_draws]. repeat split. apply clear_image_db_again.
  - destruct (clear_csv_context_own env k w) as (c1 & n1 & H1).
    subst x2 x1. rewrite H1. cbn [fst snd].
    destruct (clear_csv_context_own env k
                (settled (clear_csv_db (clock env (clock_reads w)) k (committed w))
                   c1 (uuid_draws w) n1)) as (c2 & n2 & H2).
    rewrite H2. cbn [fst snd settled committed uuid_draws]. repeat split. apply clear_csv_db_again.
  - intros He. destruct (clear_image_context_own env k w) as (c1 & n1 & H1).
    subst i1. rewrite H1. cbn [snd settled committed]. by apply clear_image_db_empty.
  - intros He. destruct (clear_csv_context_own env k w) as (c1 & n1 & H1).
    subst x1. rewrite H1. cbn [snd settled committed]. by apply clear_csv_db_empty.
  - intros Hi Hx. destruct (clear_all_context_own env k w) as (t1 & t2 & c1 & n1 & H1).
    subst r1. rewrite H1. cbn [snd settled committed].
    rewrite (clear_csv_db_empty t2 k (clear_image_db t1 k (committed w)))
      by (by apply csv_slot_empty_after_image).
    by apply clear_image_db_empty.
Qed.

Lemma clear_empty_slots_witness :
  let r1 := clear_all_context (healthy env0) (lit "id-0") None one_session in
  let i1 := clear_image_context (healthy env0) (lit "id-0") None one_session in
  let x1 := clear_csv_context (healthy env0) (lit "id-0") None one_session in
  fst r1 = Ret tt ∧ fst i1 = Ret tt ∧ fst x1 = Ret tt
  ∧ forget_updated_at (lit "id-0") (committed (snd i1))
    = forget_updated_at (lit "id-0") (committed one_session)
  ∧ forget_updated_at (lit "id-0") (committed (snd x1))
    = forget_updated_at (lit "id-0") (committed one_session)
  ∧ forget_updated_at (lit "id-0") (committed (snd r1))
    = forget_updated_at (lit "id-0") (committed one_session).
Proof.
  assert (Hi : image_slot_empty (committed one_session) (lit "id-0")).
  { split; [vm_compute; reflexivity|]. intros c Hc. vm_compute in Hc.
    injection Hc as <-. split; reflexivity. }
  assert (Hx : csv_slot_empty (committed one_session) (lit "id-0")).
  { split; [vm_compute; reflexivity|]. intros c Hc. vm_compute in Hc.
    injection Hc as <-. repeat split; reflexivity. }
  destruct (clear_all_absent_and_idempotent env0 (lit "id-0") one_session)
    as ((R1 & _) & (I1 & _) & (X1 & _) & Ei & Ex & Er).
  split; [exact R1|]. split; [exact I1|]. split; [exact X1|].
  split; [exact (Ei Hi)|]. split; [exact (Ex Hx)|exact (Er Hi Hx)].
Defined.

End ClearProps.

(** ** The tabular summarizer *)

Module CsvProps.
Import CsvSpec.

Lemma head_len n df : len (head n df) = Nat.min n (len df).
Proof. unfold len, head. cbn [df_rows]. apply length_take. Qed.

Lemma head_head n m df : head n (head m df) = head (Nat.min n m) df.
Proof. unfold head. cbn [df_rows df_columns]. by rewrite take_take. Qed.

Lemma clean_row_blank cols r : clean_row (blank_nulls cols r) = blank_nulls cols r.
Proof.
  unfold blank_nulls, clean_row. revert cols.
  induction r as [|c r IH]; intros [|col cols]; try reflexivity.
  cbn [fmap list_fmap zip zip_with fst snd]. f_equal.
  - f_equal. destruct c; reflexivity.
  - apply IH.
Qed.

Lemma sample_rows_of_spec df :
  sample_rows_of df = blank_nulls (columns df) <$> take MAX_ROWS_DISPLAY (df_rows df).
Proof.
  unfold sample_rows_of, to_dict_records, fillna, head, columns.
  cbn [df_rows df_columns]. rewrite <- !list_fmap_compose.
  apply list_fmap_ext. intros i r _. cbn [compose].
  apply clean_row_blank.
Qed.

Lemma blank_nulls_no_null cols r :
  Forall (λ kv : str * value, snd kv ≠ PNaN ∧ snd kv ≠ PNone) (blank_nulls cols r).
Proof.
  unfold blank_nulls. revert cols. induction r as [|c r IH]; intros [|col cols];
    cbn [fmap list_fmap zip zip_with]; try constructor.
  - cbn [snd]. destruct c; cbn [isna]; split; congruence.
  - apply IH.
Qed.

Lemma parse_frame_fields df filename :
  let cd := fst (parse_frame df filename) in
  let sm := snd (parse_frame df filename) in
  let work := working_copy df in
  cd_row_count cd = Z.of_nat (len df)
  ∧ sm_row_count sm = Z.of_nat (len df)
  ∧ cd_truncated cd = bool_decide (MAX_ROWS_CONTEXT < len df)%nat
  ∧ cd_displayed_rows cd = Z.of_nat (len work)
  ∧ cd_numeric_stats cd = numeric_stats_of work (select_dtypes is_number work)
  ∧ sm_numeric_stats sm = numeric_stats_of work (select_dtypes is_number work)
  ∧ cd_missing_values cd = missing_values_of work
  ∧ (sm_most_missing_column sm, sm_most_missing_count sm)
    = most_missing (missing_values_of work)
  ∧ cd_sample_rows cd = sample_rows_of work
  ∧ sm_sample_rows sm = slice_to 5 (sample_rows_of work).
Proof.
  unfold parse_frame, working_copy.
  destruct (most_missing _) as [col n] eqn:Hm.
  cbn [fst snd cd_row_count sm_row_count cd_truncated cd_displayed_rows
       cd_numeric_stats sm_numeric_stats cd_missing_values sm_most_missing_column
       sm_most_missing_count cd_sample_rows sm_sample_rows].
  repeat split.
Qed.

Lemma working_copy_short df :
  (len df ≤ MAX_ROWS_CONTEXT)%nat → working_copy df = df.
Proof.
  intros H. unfold working_copy. rewrite bool_decide_eq_false_2; [done|lia].
Qed.

Lemma sample_rows_of_working_copy df :
  sample_rows_of (working_copy df) = sample_rows_of df.
Proof.
  unfold working_copy. case_bool_decide; [|done].
  rewrite !sample_rows_of_spec. unfold head, columns. cbn [df_rows df_columns].
  rewrite take_take. f_equal.
Qed.

(** C7. When the frame read has more than 1000 rows, both [row_count]
    fields are the number of rows read, while the statistics, the missing
    counts and the samples are those of the first 1000 rows: they are what
    [parse_csv] computes from the truncated copy alone. *)
Theorem row_count_full_statistics_truncated read_csv content filename df :
  read_frame read_csv content = Ret df →
  (MAX_ROWS_CONTEXT < len df)%nat →
  ∃ csv_data summary,
    parse_csv read_csv content filename = Ret (csv_data, summary)
    ∧ cd_row_count csv_data = Z.of_nat (len df)
    ∧ sm_row_count summary = Z.of_nat (len df)
    ∧ cd_truncated csv_data = true
    ∧ let work := head MAX_ROWS_CONTEXT df in
      let alone := fst (parse_frame work filename) in
      len work = MAX_ROWS_CONTEXT
      ∧ cd_displayed_rows csv_data = Z.of_nat MAX_ROWS_CONTEXT
      ∧ cd_numeric_stats csv_data = numeric_stats_of work (select_dtypes is_number work)
      ∧ sm_numeric_stats summary = cd_numeric_stats csv_data
      ∧ cd_missing_values csv_data = missing_values_of work
      ∧ (sm_most_missing_column summary, sm_most_missing_count summary)
        = most_missing (missing_values_of work)
      ∧ cd_sample_rows csv_data = sample_rows_of work
      ∧ cd_numeric_stats csv_data = cd_numeric_stats alone
      ∧ cd_missing_values csv_data = cd_missing_values alone
      ∧ cd_sample_rows csv_data = cd_sample_rows alone
      ∧ cd_row_count alone = Z.of_nat MAX_ROWS_CONTEXT.
Proof.
  intros Hread Hlen.
  exists (fst (parse_frame df filename)), (snd (parse_frame df filename)).
  unfold parse_csv. rewrite Hread.
  pose proof (parse_frame_fields df filename) as F. cbv zeta in F.
  destruct F as (F1 & F2 & F3 & F4 & F5 & F6 & F7 & F8 & F9 & F10).
  assert (Hw : working_copy df = head MAX_ROWS_CONTEXT df).
  { unfold working_copy. by rewrite bool_decide_eq_true_2. }
  rewrite Hw in *.
  assert (Hl : len (head MAX_ROWS_CONTEXT df) = MAX_ROWS_CONTEXT).
  { rewrite head_len. lia. }
  pose proof (parse_frame_fields (head MAX_ROWS_CONTEXT df) filename) as G.
  cbv zeta in G. rewrite working_copy_short in G by lia.
  destruct G as (G1 & G2 & G3 & G4 & G5 & G6 & G7 & G8 & G9 & G10).
  split; [by destruct (parse_frame df filename)|].
  rewrite F3, bool_decide_eq_true_2 by done.
  cbv zeta. rewrite F4, Hl, G1, Hl, G5, G7, G9, F6.
  repeat split; try assumption; by symmetry.
Qed.

(** C2 (as the code has it). The sample rows are the first rows of the
    frame, at most 100, with every null cell replaced by the empty string:
    no cell is left as NaN, and none is turned into the explicit null
    marker. *)
Theorem sample_rows_blank_for_null read_csv content filename csv_data summary :
  parse_csv read_csv content filename = Ret (csv_data, summary) →
  ∃ df,
    read_frame read_csv content = Ret df
    ∧ cd_sample_rows csv_data
      = blank_nulls (columns df) <$> take MAX_ROWS_DISPLAY (df_rows df)
    ∧ (length (cd_sample_rows csv_data) ≤ MAX_ROWS_DISPLAY)%nat
    ∧ Forall (Forall (λ kv : str * value, snd kv ≠ PNaN ∧ snd kv ≠ PNone))
             (cd_sample_rows csv_data).
Proof.
  unfold parse_csv. destruct (read_frame read_csv content) as [df|e]; [|done].
  intros [= Hp]. exists df. split; [done|].
  pose proof (parse_frame_fields df filename) as F. cbv zeta in F.
  destruct F as (_ & _ & _ & _ & _ & _ & _ & _ & F9 & _).
  rewrite Hp in F9. cbn [fst] in F9.
  rewrite sample_rows_of_working_copy, sample_rows_of_spec in F9.
  rewrite F9. split; [done|]. split.
  - rewrite length_fmap, length_take. lia.
  - apply Forall_fmap, Forall_forall. intros r _. apply blank_nulls_no_null.
Qed.

(** C2 fails as stated: in the scenario file the empty field of column [b]
    is read as NaN and comes out of the sample rows as the empty string. *)
Lemma null_cell_becomes_empty_string :
  ∃ csv_data summary,
    parse_csv plain_read_csv scenario (lit "data.csv") = Ret (csv_data, summary)
    ∧ read_frame plain_read_csv scenario
      = Ret scenario_frame
    ∧ cd_sample_rows csv_data !! 1%nat
      = Some [(lit "a", PInt 2); (lit "b", PStr empty)].
Proof.
  eexists _, _. split; [vm_compute; reflexivity|].
  split; vm_compute; reflexivity.
Qed.

(** C3. On the scenario file, whatever the file name, column [a] has mean
    2, median 2, minimum 1, maximum 3, standard deviation 1, 3 values and
    none missing; column [b] has one missing value, and it is the most
    missing column, with count 1. *)
Theorem scenario_statistics filename :
  ∃ csv_data summary,
    parse_csv plain_read_csv scenario filename = Ret (csv_data, summary)
    ∧ cd_numeric_stats csv_data = [(lit "a", mkStats 2 2 1 3 1 3 0)]
    ∧ sm_numeric_stats summary = [(lit "a", mkStats 2 2 1 3 1 3 0)]
    ∧ cd_missing_values csv_data = [(lit "a", 0); (lit "b", 1)]
    ∧ sm_missing_values summary = [(lit "a", 0); (lit "b", 1)]
    ∧ sm_most_missing_column summary = Some (lit "b")
    ∧ sm_most_missing_count summary = 1
    ∧ sm_row_count summary = 3
    ∧ sm_column_count summary = 2.
Proof.
  assert (Hr : read_frame plain_read_csv scenario
               = Ret scenario_frame).
  { vm_compute. reflexivity. }
  unfold parse_csv. rewrite Hr.
  eexists _, _. split; [reflexivity|].
  repeat split; vm_compute; reflexivity.
Qed.

Lemma row_count_full_witness :
  ∃ csv_data summary,
    parse_csv plain_read_csv long_file (lit "long.csv") = Ret (csv_data, summary)
    ∧ cd_row_count csv_data = Z.of_nat (len long_frame)
    ∧ sm_row_count summary = Z.of_nat (len long_frame)
    ∧ cd_truncated csv_data = true
    ∧ let work := head MAX_ROWS_CONTEXT long_frame in
      let alone := fst (parse_frame work (lit "long.csv")) in
      len work = MAX_ROWS_CONTEXT
      ∧ cd_displayed_rows csv_data = Z.of_nat MAX_ROWS_CONTEXT
      ∧ cd_numeric_stats csv_data = numeric_stats_of work (select_dtypes is_number work)
      ∧ sm_numeric_stats summary = cd_numeric_stats csv_data
      ∧ cd_missing_values csv_data = missing_values_of work
      ∧ (sm_most_missing_column summary, sm_most_missing_count summary)
        = most_missing (missing_values_of work)
      ∧ cd_sample_rows csv_data = sample_rows_of work
      ∧ cd_numeric_stats csv_data = cd_numeric_stats alone
      ∧ cd_missing_values csv_data = cd_missing_values alone
      ∧ cd_sample_rows csv_data = cd_sample_rows alone
      ∧ cd_row_count alone = Z.of_nat MAX_ROWS_CONTEXT.
Proof.
  apply (row_count_full_statistics_truncated plain_read_csv long_file (lit "long.csv")
           long_frame).
  - vm_compute. reflexivity.
  - vm_compute. lia.
Defined.

Lemma sample_rows_blank_witness :
  ∃ df,
    read_frame plain_read_csv scenario = Ret df
    ∧ cd_sample_rows (fst (parse_frame scenario_frame (lit "data.csv")))
      = blank_nulls (columns df) <$> take MAX_ROWS_DISPLAY (df_rows df)
    ∧ (length (cd_sample_rows (fst (parse_frame scenario_frame (lit "data.csv"))))
       ≤ MAX_ROWS_DISPLAY)%nat
    ∧ Forall (Forall (λ kv : str * value, snd kv ≠ PNaN ∧ snd kv ≠ PNone))
        (cd_sample_rows (fst (parse_frame scenario_frame (lit "data.csv")))).
Proof.
  apply (sample_rows_blank_for_null plain_read_csv scenario (lit "data.csv")
           (fst (parse_frame scenario_frame (lit "data.csv")))
           (snd (parse_frame scenario_frame (lit "data.csv")))).
  vm_compute. reflexivity.
Defined.

End CsvProps.

(** ** Successful runs of the repository functions *)

Module RouteLemmas.
Import Repository RepositorySpec RepositoryProps RouteSpec.

Ltac run_healthy := unfold_orm; simpl.

Lemma get_conversation_absent env k w :
  conversations (committed w) !! k = None →
  get_conversation (healthy env) k None w
  = (Ret None, settled (committed w) (clock_reads w) (uuid_draws w) (S (db_trips w))).
Proof. intros H. unfold get_conversation. run_healthy. by rewrite H. Qed.

Lemma create_conversation_ok env w :
  let u := uuid_src env (uuid_draws w) in
  conversations (committed w) !! u = None →
  ∃ dict,
    v_id dict = u
    ∧ create_conversation (healthy env) None w
      = (Ret dict,
         settled (set_conversations
                    <[u := new_conversation u (clock env (clock_reads w))
                             (clock env (S (clock_reads w)))]> (committed w))
           (S (S (clock_reads w))) (S (uuid_draws w)) (3 + db_trips w)).
Proof.
  intros u H. unfold create_conversation. run_healthy. fold u. rewrite H.
  eexists. split; [|reflexivity]. reflexivity.
Qed.

Lemma set_active_csv_ok env k csv_data filename summary w c :
  conversations (committed w) !! k = Some c →
  csv_contexts (committed w) !! k = None →
  set_active_csv (healthy env) k csv_data filename summary None w
  = (Ret tt,
     settled (set_csv_contexts
                <[k := csv_context_row k csv_data filename summary
                         (clock env (clock_reads w))]>
                (set_conversations
                   (alter (set_updated_at (clock env (S (clock_reads w)))) k)
                   (set_conversations
                      (alter (set_csv_flags true (Some filename) (Some summary)) k)
                      (committed w))))
       (S (S (clock_reads w))) (uuid_draws w) (4 + db_trips w)).
Proof.
  intros Hc Hx. unfold set_active_csv. run_healthy. rewrite Hc. simpl.
  rewrite Hx. simpl. rewrite Hx. reflexivity.
Qed.

Lemma set_active_image_ok env k image filename w c :
  conversations (committed w) !! k = Some c →
  image_contexts (committed w) !! k = None →
  set_active_image (healthy env) k image filename None w
  = (Ret tt,
     settled (set_image_contexts
                <[k := image_context_row k image filename (clock env (clock_reads w))]>
                (set_conversations
                   (alter (set_updated_at (clock env (S (clock_reads w)))) k)
                   (set_conversations
                      (alter (set_image_flags true (Some filename)) k)
                      (committed w))))
       (S (S (clock_reads w))) (uuid_draws w) (4 + db_trips w)).
Proof.
  intros Hc Hx. unfold set_active_image. run_healthy. rewrite Hc. simpl.
  rewrite Hx. simpl. rewrite Hx. reflexivity.
Qed.

(** The functions that only read leave the store as it is. *)
Lemma get_active_image_reads env k w :
  ∃ r t, get_active_image (healthy env) k None w
         = (Ret r, settled (committed w) (clock_reads w) (uuid_draws w) t).
Proof. unfold get_active_image. run_healthy. eexists _, _. reflexivity. Qed.

Lemma get_active_csv_reads env k w :
  ∃ r t, get_active_csv (healthy env) k None w
         = (Ret r, settled (committed w) (clock_reads w) (uuid_draws w) t).
Proof.
  unfold get_active_csv. run_healthy.
  destruct (csv_contexts (committed w) !! k); eexists _, _; reflexivity.
Qed.

Lemma get_csv_summary_reads env k w :
  ∃ r t, get_csv_summary (healthy env) k None w
         = (Ret r, settled (committed w) (clock_reads w) (uuid_draws w) t).
Proof. unfold get_csv_summary. run_healthy. eexists _, _. reflexivity. Qed.

Lemma get_message_history_reads env k n w :
  ∃ r t, get_message_history_for_llm (healthy env) k n None w
         = (Ret r, settled (committed w) (clock_reads w) (uuid_draws w) t).
Proof. unfold get_message_history_for_llm. run_healthy. eexists _, _. reflexivity. Qed.

(** The same facts, keeping of the resulting world only what the next
    step needs: its store and how many identifiers were drawn. *)
Lemma get_conversation_absent' env k w :
  conversations (committed w) !! k = None →
  ∃ w', get_conversation (healthy env) k None w = (Ret None, w')
        ∧ committed w' = committed w ∧ uuid_draws w' = uuid_draws w.
Proof. intros H. eexists. split; [by apply get_conversation_absent|done]. Qed.

Lemma create_conversation_ok' env w :
  let u := uuid_src env (uuid_draws w) in
  conversations (committed w) !! u = None →
  ∃ dict w' created updated,
    create_conversation (healthy env) None w = (Ret dict, w')
    ∧ v_id dict = u
    ∧ committed w'
      = set_conversations <[u := new_conversation u created updated]> (committed w)
    ∧ uuid_draws w' = S (uuid_draws w).
Proof.
  intros u H. destruct (create_conversation_ok env w H) as (dict & Hid & Hrun).
  eexists dict, _, _, _. split; [exact Hrun|done].
Qed.

Lemma add_message_ok' env k role content image_url csv_data chart_data w c :
  conversations (committed w) !! k = Some c →
  uuid_src env (uuid_draws w) ∉ TitleSpec.message_ids (committed w) →
  ∃ w' ts updated,
    let msg := mkMessage (uuid_src env (uuid_draws w)) k role content ts image_url
                 csv_data chart_data in
    add_message (healthy env) k role content image_url csv_data chart_data None w
    = (Ret (message_dict msg), w')
    ∧ committed w' = add_message_db (committed w) c msg updated
    ∧ uuid_draws w' = S (uuid_draws w).
Proof.
  intros Hc Hf. apply TitleProps.id_taken_false in Hf.
  eexists _, _, _. split; [by apply add_message_ok|done].
Qed.

Lemma set_active_csv_ok' env k csv_data filename summary w c :
  conversations (committed w) !! k = Some c →
  csv_contexts (committed w) !! k = None →
  ∃ w' uploaded updated,
    set_active_csv (healthy env) k csv_data filename summary None w = (Ret tt, w')
    ∧ committed w'
      = set_csv_contexts <[k := csv_context_row k csv_data filename summary uploaded]>
          (set_conversations
             <[k := set_updated_at updated
                      (set_csv_flags true (Some filename) (Some summary) c)]>
             (committed w))
    ∧ uuid_draws w' = uuid_draws w.
Proof.
  intros Hc Hx.
  eexists _, (clock env (clock_reads w)), (clock env (S (clock_reads w))).
  split; [by eapply set_active_csv_ok|].
  split; [|done]. cbn [committed settled].
  unfold set_csv_contexts, set_conversations.
  cbn [conversations messages image_contexts csv_contexts]. f_equal.
  rewrite alter_twice, (alter_known _ _ _ _ Hc). reflexivity.
Qed.

Lemma set_active_image_ok' env k image filename w c :
  conversations (committed w) !! k = Some c →
  image_contexts (committed w) !! k = None →
  ∃ w' uploaded updated,
    set_active_image (healthy env) k image filename None w = (Ret tt, w')
    ∧ committed w'
      = set_image_contexts <[k := image_context_row k image filename uploaded]>
          (set_conversations
             <[k := set_updated_at updated (set_image_flags true (Some filename) c)]>
             (committed w))
    ∧ uuid_draws w' = uuid_draws w.
Proof.
  intros Hc Hx.
  eexists _, (clock env (clock_reads w)), (clock env (S (clock_reads w))).
  split; [by eapply set_active_image_ok|].
  split; [|done]. cbn [committed settled].
  unfold set_image_contexts, set_conversations.
  cbn [conversations messages image_contexts csv_contexts]. f_equal.
  rewrite alter_twice, (alter_known _ _ _ _ Hc). reflexivity.
Qed.

Lemma reads_keep {A} (m : M A) w :
  (∃ r t, m w = (Ret r, settled (committed w) (clock_reads w) (uuid_draws w) t)) →
  ∃ r w', m w = (Ret r, w') ∧ committed w' = committed w ∧ uuid_draws w' = uuid_draws w.
Proof. intros (r & t & H). eexists r, _. split; [exact H|done]. Qed.

End RouteLemmas.

(** ** Requests that name an unknown session *)

Module RouteProps.
Import Repository LlmService Schemas Routes RepositorySpec RepositoryProps RouteSpec RouteLemmas TitleSpec.

Lemma bind_ret {A B} (m : M A) (f : A → M B) w a w' :
  m w = (Ret a, w') → (m ≫= f) w = f a w'.
Proof. intros H. unfold mbind, M_bind. by rewrite H. Qed.

Lemma get_or_create_unknown env o w :
  (∀ sid, o = Some sid → conversations (committed w) !! sid = None) →
  let u := uuid_src env (uuid_draws w) in
  conversations (committed w) !! u = None →
  ∃ w' created updated,
    get_or_create (healthy env) o w = (Ret u, w')
    ∧ committed w'
      = set_conversations <[u := new_conversation u created updated]> (committed w)
    ∧ uuid_draws w' = S (uuid_draws w).
Proof.
  intros Ho u Hu. unfold get_or_create.
  destruct (truthy_opt o) eqn:Ht.
  - destruct o as [sid|]; [|done]. cbn [default].
    destruct (get_conversation_absent' env sid w (Ho sid eq_refl)) as (w1 & H1 & Hd1 & Hu1).
    rewrite (bind_ret _ _ _ _ _ H1).
    destruct (create_conversation_ok' env w1) as (dict & w2 & t1 & t2 & H2 & Hid & Hd2 & Hu2).
    { by rewrite Hd1, Hu1. }
    rewrite (bind_ret _ _ _ _ _ H2).
    exists w2, t1, t2. rewrite Hid, Hd2, Hu2, Hd1, Hu1. done.
  - destruct (create_conversation_ok' env w Hu) as (dict & w2 & t1 & t2 & H2 & Hid & Hd2 & Hu2).
    rewrite (bind_ret _ _ _ _ _ H2).
    exists w2, t1, t2. rewrite Hid, Hd2, Hu2. done.
Qed.

Lemma generate_response_stream_returns client prompt message history image
    csv_context csv_summary :
  snd (generate_response_stream client prompt message history image csv_context
         csv_summary) = Ret tt.
Proof.
  unfold generate_response_stream, g_try_except.
  destruct (stream_from client _ _) as [t1 [[]|e1]]; [done|].
  destruct (stream_from client fallback_model _) as [t2 [[]|e2]]; done.
Qed.

Lemma try_except_ret {A} (m : M A) (h : exn → M A) w a w' :
  m w = (Ret a, w') → try_except m h w = (Ret a, w').
Proof. intros H. unfold try_except. by rewrite H. Qed.

Lemma NoDup_two_fresh (a b : str) (ids : list str) :
  NoDup ([a; b] ++ ids) → (a ∉ ids) ∧ (b ∉ ids) ∧ (a ≠ b).
Proof.
  intros H. apply NoDup_cons in H as [Ha H]. apply NoDup_cons in H as [Hb _].
  rewrite not_elem_of_cons in Ha. destruct Ha as [Hab Ha]. done.
Qed.

Lemma message_ids_add d c msg t :
  message_ids (add_message_db d c msg t) = message_ids d ++ [m_id msg].
Proof. unfold message_ids, add_message_db, set_messages. simpl. by rewrite fmap_app. Qed.

Lemma conversations_add d c msg t k :
  conversations (add_message_db d c msg t) !! k
  = if decide (m_conversation_id msg = k)
    then Some (set_title (next_title c (m_role msg) (m_content msg)) (set_updated_at t c))
    else conversations d !! k.
Proof. unfold add_message_db, set_messages, set_conversations. simpl. apply lookup_insert. Qed.

Lemma chat_unknown_session env client prompt request w :
  (∀ sid, session_id request = Some sid → conversations (committed w) !! sid = None) →
  let u := uuid_src env (uuid_draws w) in
  let m1 := uuid_src env (S (uuid_draws w)) in
  let m2 := uuid_src env (S (S (uuid_draws w))) in
  conversations (committed w) !! u = None →
  NoDup ([m1; m2] ++ message_ids (committed w)) →
  ∃ chunks w' c' t1 t2,
    send_message_stream (healthy env) client prompt request w
    = (Ret (SessionEvent u :: (ChunkEvent <$> chunks) ++ [DoneEvent u]), w')
    ∧ conversations (committed w') !! u = Some c'
    ∧ (∀ k, k ≠ u → conversations (committed w') !! k = conversations (committed w) !! k)
    ∧ messages (committed w')
      = messages (committed w)
        ++ [ mkMessage m1 u (lit "user") (message request) t1 None None None;
             mkMessage m2 u (lit "assistant") (concat chunks) t2 None None None ].
Proof.
  intros Ho u m1 m2 Hu Hnd.
  apply NoDup_two_fresh in Hnd as (Hm1 & Hm2 & Hne).
  unfold send_message_stream. fold (get_or_create (healthy env) (session_id request)).
  destruct (get_or_create_unknown env (session_id request) w Ho Hu)
    as (w1 & tc & tu & H1 & Hd1 & Hu1).
  rewrite (bind_ret _ _ _ _ _ H1).
  destruct (add_message_ok' env u (lit "user") (message request) None None None w1
              (new_conversation u tc tu)) as (w2 & ts1 & up1 & H2 & Hd2 & Hu2).
  { rewrite Hd1. unfold set_conversations. cbn [conversations]. apply lookup_insert_eq. }
  { rewrite Hu1, Hd1. exact Hm1. }
  cbv zeta in H2. rewrite Hu1 in H2, Hd2. fold m1 in H2, Hd2.
  rewrite (bind_ret _ _ _ _ _ H2).
  destruct (reads_keep _ _ (get_active_image_reads env u w2)) as (ai & w3 & H3 & Hd3 & Hu3).
  rewrite (bind_ret _ _ _ _ _ H3).
  destruct (reads_keep _ _ (get_active_csv_reads env u w3)) as (ac & w4 & H4 & Hd4 & Hu4).
  rewrite (bind_ret _ _ _ _ _ H4).
  destruct (reads_keep _ _ (get_csv_summary_reads env u w4)) as (cs & w5 & H5 & Hd5 & Hu5).
  rewrite (bind_ret _ _ _ _ _ H5).
  destruct (reads_keep _ _ (get_message_history_reads env u 20 w5))
    as (hs & w6 & H6 & Hd6 & Hu6).
  rewrite (bind_ret _ _ _ _ _ H6).
  unfold generate.
  set (g := generate_response_stream _ _ _ _ _ _ _).
  assert (Hg : snd g = Ret tt) by apply generate_response_stream_returns.
  rewrite Hg.
  assert (Hc6 : committed w6 = add_message_db (committed w1) (new_conversation u tc tu)
                  (mkMessage m1 u (lit "user") (message request) ts1 None None None) up1).
  { by rewrite Hd6, Hd5, Hd4, Hd3, Hd2. }
  assert (Hdr : uuid_draws w6 = S (S (uuid_draws w))).
  { by rewrite Hu6, Hu5, Hu4, Hu3, Hu2, Hu1. }
  destruct (add_message_ok' env u (lit "assistant") (concat (yielded g)) None None None w6
              (set_title (next_title (new_conversation u tc tu) (lit "user") (message request))
                 (set_updated_at up1 (new_conversation u tc tu))))
    as (w7 & ts2 & up2 & H7 & Hd7 & Hu7).
  { rewrite Hc6, conversations_add. cbn [m_conversation_id m_role m_content].
    by rewrite decide_True. }
  { rewrite Hdr, Hc6, message_ids_add, Hd1. fold m2. cbn [m_id].
    rewrite elem_of_app, list_elem_of_singleton. intros [H|H]; [exact (Hm2 H)|].
    by apply Hne. }
  cbv zeta in H7. rewrite Hdr in H7, Hd7. fold m2 in H7, Hd7.
  erewrite bind_ret; [|apply try_except_ret; rewrite (bind_ret _ _ _ _ _ H7); reflexivity].
  eexists (yielded g), w7, _, ts1, ts2.
  split; [reflexivity|].
  rewrite Hd7. split; [|split].
  - rewrite conversations_add. cbn [m_conversation_id]. by rewrite decide_True.
  - intros k Hk. rewrite conversations_add. cbn [m_conversation_id].
    rewrite decide_False by done. rewrite Hc6, conversations_add.
    cbn [m_conversation_id]. rewrite decide_False by done.
    rewrite Hd1. unfold set_conversations. cbn [conversations].
    by apply lookup_insert_ne.
  - unfold add_message_db at 1, set_messages. cbn [messages]. rewrite Hc6.
    unfold add_message_db, set_messages. cbn [messages]. rewrite Hd1.
    unfold set_conversations. cbn [messages]. by rewrite <- app_assoc.
Qed.

Lemma csv_unknown_session env read_csv file o w csv_data summary :
  (∀ sid, o = Some sid → conversations (committed w) !! sid = None) →
  csv_accepted file = true →
  parse_csv read_csv (csv_text file) (csv_name file) = Ret (csv_data, summary) →
  let u := uuid_src env (uuid_draws w) in
  let m1 := uuid_src env (S (uuid_draws w)) in
  let m2 := uuid_src env (S (S (uuid_draws w))) in
  unused (committed w) u →
  NoDup ([m1; m2] ++ message_ids (committed w)) →
  ∃ resp w' c' x new1 new2,
    upload_csv (healthy env) read_csv file o w = (Ret resp, w')
    ∧ cr_session_id resp = u
    ∧ conversations (committed w') !! u = Some c'
    ∧ c_has_active_csv c' = true
    ∧ csv_contexts (committed w') !! u = Some x
    ∧ x_filename x = Some (csv_name file)
    ∧ (∀ k, k ≠ u →
         conversations (committed w') !! k = conversations (committed w) !! k
         ∧ csv_contexts (committed w') !! k = csv_contexts (committed w) !! k)
    ∧ messages (committed w') = messages (committed w) ++ [new1; new2]
    ∧ m_id new1 = m1 ∧ m_conversation_id new1 = u ∧ m_role new1 = lit "user"
    ∧ m_content new1 = lit "[Uploaded CSV: " ++ csv_name file ++ lit "]"
    ∧ m_id new2 = m2 ∧ m_conversation_id new2 = u ∧ m_role new2 = lit "assistant".
Proof.
  intros Ho Hacc Hparse u m1 m2 (Hu & Hux & _) Hnd.
  apply NoDup_two_fresh in Hnd as (Hm1 & Hm2 & Hne).
  unfold csv_accepted in Hacc. apply andb_true_iff in Hacc as [Hext Hsize].
  apply negb_true_iff in Hsize.
  unfold upload_csv. cbv zeta. fold (csv_name file). fold (csv_text file).
  rewrite Hext, Hsize, Hparse. cbn [negb].
  fold (get_or_create (healthy env) o).
  destruct (get_or_create_unknown env o w Ho Hu) as (w1 & tc & tu & H1 & Hd1 & Hu1).
  rewrite (bind_ret _ _ _ _ _ H1).
  destruct (set_active_csv_ok' env u csv_data (csv_name file) (sm_text_summary summary) w1
              (new_conversation u tc tu)) as (w2 & tx & ty & H2 & Hd2 & Hu2).
  { rewrite Hd1. unfold set_conversations. cbn [conversations]. apply lookup_insert_eq. }
  { rewrite Hd1. exact Hux. }
  rewrite (bind_ret _ _ _ _ _ H2).
  set (c1 := set_updated_at ty _) in Hd2.
  destruct (add_message_ok' env u (lit "user")
              (lit "[Uploaded CSV: " ++ csv_name file ++ lit "]") None
              (Some (JDict [ (lit "filename", JStr (csv_name file));
                             (lit "rows", JInt (sm_row_count summary));
                             (lit "columns", JInt (sm_column_count summary)) ]))
              None w2 c1) as (w3 & ts1 & up1 & H3 & Hd3 & Hu3).
  { rewrite Hd2. unfold set_csv_contexts, set_conversations. cbn [conversations].
    apply lookup_insert_eq. }
  { rewrite Hu2, Hu1, Hd2, Hd1. exact Hm1. }
  cbv zeta in H3. rewrite Hu2, Hu1 in H3, Hd3. fold m1 in H3, Hd3.
  rewrite (bind_ret _ _ _ _ _ H3).
  set (msg1 := mkMessage m1 _ _ _ _ _ _ _) in *.
  match goal with
  | |- context [add_message _ _ (lit "assistant") ?body _ _ _ _] => set (body2 := body)
  end.
  destruct (add_message_ok' env u (lit "assistant") body2 None None None w3
              (set_title (next_title c1 (m_role msg1) (m_content msg1))
                 (set_updated_at up1 c1)))
    as (w4 & ts2 & up2 & H4 & Hd4 & Hu4).
  { rewrite Hd3, conversations_add. cbn [m_conversation_id msg1]. by rewrite decide_True. }
  { rewrite Hu3, Hu2, Hu1, Hd3, message_ids_add, Hd2, Hd1. fold m2. cbn [m_id msg1].
    rewrite elem_of_app, list_elem_of_singleton. intros [H|H]; [exact (Hm2 H)|].
    by apply Hne. }
  cbv zeta in H4. rewrite Hu3, Hu2, Hu1 in H4, Hd4. fold m2 in H4, Hd4.
  rewrite (bind_ret _ _ _ _ _ H4).
  set (msg2 := mkMessage m2 _ _ _ _ _ _ _) in *.
  eexists _, w4, _, _, msg1, msg2.
  split; [reflexivity|]. split; [reflexivity|].
  rewrite Hd4.
  split; [rewrite conversations_add; cbn [m_conversation_id msg2]; by rewrite decide_True|].
  split.
  { cbn [c_has_active_csv set_title set_updated_at]. reflexivity. }
  assert (Hx4 : ∀ k, csv_contexts (add_message_db (committed w3)
                       (set_title (next_title c1 (m_role msg1) (m_content msg1))
                          (set_updated_at up1 c1)) msg2 up2) !! k
                     = <[u := csv_context_row u csv_data (csv_name file)
                                (sm_text_summary summary) tx]>
                         (csv_contexts (committed w)) !! k).
  { intros k. unfold add_message_db, set_messages, set_conversations.
    cbn [csv_contexts]. rewrite Hd3. unfold add_message_db, set_messages,
      set_conversations. cbn [csv_contexts]. rewrite Hd2.
    unfold set_csv_contexts, set_conversations. cbn [csv_contexts]. rewrite Hd1.
    reflexivity. }
  split; [rewrite Hx4; apply lookup_insert_eq|].
  split; [reflexivity|].
  split.
  { intros k Hk. split.
    - rewrite conversations_add. cbn [m_conversation_id msg2].
      rewrite decide_False by done. rewrite Hd3, conversations_add.
      cbn [m_conversation_id msg1]. rewrite decide_False by done.
      rewrite Hd2. unfold set_csv_contexts, set_conversations. cbn [conversations].
      rewrite lookup_insert_ne by done. rewrite Hd1. cbn [conversations].
      by apply lookup_insert_ne.
    - rewrite Hx4. by apply lookup_insert_ne. }
  split.
  { unfold add_message_db at 1, set_messages. cbn [messages]. rewrite Hd3.
    unfold add_message_db, set_messages. cbn [messages]. rewrite Hd2.
    unfold set_csv_contexts, set_conversations. cbn [messages]. rewrite Hd1.
    cbn [messages]. by rewrite <- app_assoc. }
  repeat split.
Qed.

Lemma image_unknown_session env complete file o w :
  (∀ sid, o = Some sid → conversations (committed w) !! sid = None) →
  image_accepted file = true →
  let u := uuid_src env (uuid_draws w) in
  let m1 := uuid_src env (S (uuid_draws w)) in
  let m2 := uuid_src env (S (S (uuid_draws w))) in
  unused (committed w) u →
  NoDup ([m1; m2] ++ message_ids (committed w)) →
  ∃ resp w' c' i new1 new2,
    upload_image (healthy env) complete file o w = (Ret resp, w')
    ∧ ib_session_id resp = u
    ∧ conversations (committed w') !! u = Some c'
    ∧ c_has_active_image c' = true
    ∧ image_contexts (committed w') !! u = Some i
    ∧ i_image_base64 i = b64encode (uf_content file)
    ∧ (∀ k, k ≠ u →
         conversations (committed w') !! k = conversations (committed w) !! k
         ∧ image_contexts (committed w') !! k = image_contexts (committed w) !! k)
    ∧ messages (committed w') = messages (committed w) ++ [new1; new2]
    ∧ m_id new1 = m1 ∧ m_conversation_id new1 = u ∧ m_role new1 = lit "user"
    ∧ m_content new1 = lit "[Uploaded image: " ++ image_name file ++ lit "]"
    ∧ m_id new2 = m2 ∧ m_conversation_id new2 = u ∧ m_role new2 = lit "assistant".
Proof.
  intros Ho Hacc u m1 m2 (Hu & _ & Hui) Hnd.
  apply NoDup_two_fresh in Hnd as (Hm1 & Hm2 & Hne).
  unfold image_accepted in Hacc. apply andb_true_iff in Hacc as [Htype Hsize].
  apply negb_true_iff in Hsize.
  unfold upload_image. cbv zeta. fold (image_name file).
  rewrite Htype, Hsize. cbn [negb].
  fold (get_or_create (healthy env) o).
  destruct (get_or_create_unknown env o w Ho Hu) as (w1 & tc & tu & H1 & Hd1 & Hu1).
  rewrite (bind_ret _ _ _ _ _ H1).
  destruct (set_active_image_ok' env u (b64encode (uf_content file)) (image_name file) w1
              (new_conversation u tc tu)) as (w2 & tx & ty & H2 & Hd2 & Hu2).
  { rewrite Hd1. unfold set_conversations. cbn [conversations]. apply lookup_insert_eq. }
  { rewrite Hd1. exact Hui. }
  rewrite (bind_ret _ _ _ _ _ H2).
  set (c1 := set_updated_at ty _) in Hd2.
  match goal with
  | |- context [add_message _ _ (lit "user") ?body ?url _ _ _] =>
    set (body1 := body); set (url1 := url)
  end.
  destruct (add_message_ok' env u (lit "user") body1 url1 None None w2 c1)
    as (w3 & ts1 & up1 & H3 & Hd3 & Hu3).
  { rewrite Hd2. unfold set_image_contexts, set_conversations. cbn [conversations].
    apply lookup_insert_eq. }
  { rewrite Hu2, Hu1, Hd2, Hd1. exact Hm1. }
  cbv zeta in H3. rewrite Hu2, Hu1 in H3, Hd3. fold m1 in H3, Hd3.
  rewrite (bind_ret _ _ _ _ _ H3).
  set (msg1 := mkMessage m1 _ _ _ _ _ _ _) in *.
  match goal with
  | |- context [add_message _ _ (lit "assistant") ?body _ _ _ _] => set (body2 := body)
  end.
  destruct (add_message_ok' env u (lit "assistant") body2 None None None w3
              (set_title (next_title c1 (m_role msg1) (m_content msg1))
                 (set_updated_at up1 c1)))
    as (w4 & ts2 & up2 & H4 & Hd4 & Hu4).
  { rewrite Hd3, conversations_add. cbn [m_conversation_id msg1]. by rewrite decide_True. }
  { rewrite Hu3, Hu2, Hu1, Hd3, message_ids_add, Hd2, Hd1. fold m2. cbn [m_id msg1].
    rewrite elem_of_app, list_elem_of_singleton. intros [H|H]; [exact (Hm2 H)|].
    by apply Hne. }
  cbv zeta in H4. rewrite Hu3, Hu2, Hu1 in H4, Hd4. fold m2 in H4, Hd4.
  rewrite (bind_ret _ _ _ _ _ H4).
  set (msg2 := mkMessage m2 _ _ _ _ _ _ _) in *.
  eexists _, w4, _, _, msg1, msg2.
  split; [reflexivity|]. split; [reflexivity|].
  rewrite Hd4.
  split; [rewrite conversations_add; cbn [m_conversation_id msg2]; by rewrite decide_True|].
  split.
  { cbn [c_has_active_image set_title set_updated_at]. reflexivity. }
  assert (Hx4 : ∀ k, image_contexts (add_message_db (committed w3)
                       (set_title (next_title c1 (m_role msg1) (m_content msg1))
                          (set_updated_at up1 c1)) msg2 up2) !! k
                     = <[u := image_context_row u (b64encode (uf_content file))
                                (image_name file) tx]>
                         (image_contexts (committed w)) !! k).
  { intros k. unfold add_message_db, set_messages, set_conversations.
    cbn [image_contexts]. rewrite Hd3. unfold add_message_db, set_messages,
      set_conversations. cbn [image_contexts]. rewrite Hd2.
    unfold set_image_contexts, set_conversations. cbn [image_contexts]. rewrite Hd1.
    reflexivity. }
  split; [rewrite Hx4; apply lookup_insert_eq|].
  split; [reflexivity|].
  split.
  { intros k Hk. split.
    - rewrite conversations_add. cbn [m_conversation_id msg2].
      rewrite decide_False by done. rewrite Hd3, conversations_add.
      cbn [m_conversation_id msg1]. rewrite decide_False by done.
      rewrite Hd2. unfold set_image_contexts, set_conversations. cbn [conversations].
      rewrite lookup_insert_ne by done. rewrite Hd1. cbn [conversations].
      by apply lookup_insert_ne.
    - rewrite Hx4. by apply lookup_insert_ne. }
  split.
  { unfold add_message_db at 1, set_messages. cbn [messages]. rewrite Hd3.
    unfold add_message_db, set_messages. cbn [messages]. rewrite Hd2.
    unfold set_image_contexts, set_conversations. cbn [messages]. rewrite Hd1.
    cbn [messages]. by rewrite <- app_assoc. }
  repeat split.
Qed.

(** C10. A chat-stream, CSV-upload or image-upload request that names a
    session absent from the store is served, not refused: with a working
    database and fresh identifiers, each route creates a session under the
    identifier that [uuid4] returns, whatever identifier was supplied,
    announces or returns that identifier, files every message and context
    it writes under it, and leaves the supplied identifier absent. *)
Theorem unknown_session_id_gets_fresh_session
    env client complete prompt read_csv w sid request csv_file image_file
    csv_data summary :
  conversations (committed w) !! sid = None →
  session_id request = Some sid →
  csv_accepted csv_file = true →
  parse_csv read_csv (csv_text csv_file) (csv_name csv_file) = Ret (csv_data, summary) →
  image_accepted image_file = true →
  let u := uuid_src env (uuid_draws w) in
  unused (committed w) u →
  NoDup ([uuid_src env (S (uuid_draws w)); uuid_src env (S (S (uuid_draws w)))]
           ++ message_ids (committed w)) →
  (∃ events w' new,
     send_message_stream (healthy env) client prompt request w = (Ret events, w')
     ∧ events !! 0%nat = Some (SessionEvent u)
     ∧ last events = Some (DoneEvent u)
     ∧ worked_under w w' u sid new)
  ∧ (∃ resp w' new,
       upload_csv (healthy env) read_csv csv_file (Some sid) w = (Ret resp, w')
       ∧ cr_session_id resp = u
       ∧ worked_under w w' u sid new
       ∧ is_Some (csv_contexts (committed w') !! u)
       ∧ (u ≠ sid → csv_contexts (committed w') !! sid = csv_contexts (committed w) !! sid))
  ∧ (∃ resp w' new,
       upload_image (healthy env) complete image_file (Some sid) w = (Ret resp, w')
       ∧ ib_session_id resp = u
       ∧ worked_under w w' u sid new
       ∧ is_Some (image_contexts (committed w') !! u)
       ∧ (u ≠ sid →
          image_contexts (committed w') !! sid = image_contexts (committed w) !! sid)).
Proof.
  intros Hsid Hreq Hcsv Hparse Himg u Hunused Hnd. subst u.
  assert (Ho : ∀ s, Some sid = Some s → conversations (committed w) !! s = None).
  { by intros s [= <-]. }
  split; [|split].
  - destruct (chat_unknown_session env client prompt request w) as
      (chunks & w' & c' & t1 & t2 & Hrun & Hc & Hk & Hm).
    { rewrite Hreq. exact Ho. }
    { apply Hunused. }
    { exact Hnd. }
    eexists _, w', _. split; [exact Hrun|].
    split; [reflexivity|]. split; [by rewrite app_comm_cons, last_snoc|].
    unfold worked_under.
    split; [by rewrite Hc|]. split.
    { intros Hne. rewrite Hk by done. exact Hsid. }
    split; [exact Hm|]. repeat constructor.
  - destruct (csv_unknown_session env read_csv csv_file (Some sid) w csv_data summary
                Ho Hcsv Hparse Hunused Hnd)
      as (resp & w' & c' & x & n1 & n2 & Hrun & Hid & Hc & _ & Hx & _ & Hk & Hm
          & _ & Hc1 & _ & _ & _ & Hc2 & _).
    exists resp, w', [n1; n2]. split; [exact Hrun|]. split; [exact Hid|].
    split.
    { unfold worked_under. split; [by rewrite Hc|]. split.
      { intros Hne. rewrite (proj1 (Hk sid (not_eq_sym Hne))). exact Hsid. }
      split; [exact Hm|]. by repeat constructor. }
    split; [by rewrite Hx|].
    intros Hne. apply (Hk sid (not_eq_sym Hne)).
  - destruct (image_unknown_session env complete image_file (Some sid) w
                Ho Himg Hunused Hnd)
      as (resp & w' & c' & x & n1 & n2 & Hrun & Hid & Hc & _ & Hx & _ & Hk & Hm
          & _ & Hc1 & _ & _ & _ & Hc2 & _).
    exists resp, w', [n1; n2]. split; [exact Hrun|]. split; [exact Hid|].
    split.
    { unfold worked_under. split; [by rewrite Hc|]. split.
      { intros Hne. rewrite (proj1 (Hk sid (not_eq_sym Hne))). exact Hsid. }
      split; [exact Hm|]. by repeat constructor. }
    split; [by rewrite Hx|].
    intros Hne. apply (Hk sid (not_eq_sym Hne)).
Qed.

Lemma unknown_session_witness :
  let env := Examples.env0 in
  let w := initial_world in
  let sid := lit "ghost" in
  let u := uuid_src env (uuid_draws w) in
  (∃ events w' new,
     send_message_stream (healthy env) echo_client plain_prompt ghost_request w
     = (Ret events, w')
     ∧ events !! 0%nat = Some (SessionEvent u)
     ∧ last events = Some (DoneEvent u)
     ∧ worked_under w w' u sid new)
  ∧ (∃ resp w' new,
       upload_csv (healthy env) plain_read_csv csv_upload (Some sid) w = (Ret resp, w')
       ∧ cr_session_id resp = u
       ∧ worked_under w w' u sid new
       ∧ is_Some (csv_contexts (committed w') !! u)
       ∧ (u ≠ sid → csv_contexts (committed w') !! sid = csv_contexts (committed w) !! sid))
  ∧ (∃ resp w' new,
       upload_image (healthy env) describe image_upload (Some sid) w = (Ret resp, w')
       ∧ ib_session_id resp = u
       ∧ worked_under w w' u sid new
       ∧ is_Some (image_contexts (committed w') !! u)
       ∧ (u ≠ sid →
          image_contexts (committed w') !! sid = image_contexts (committed w) !! sid)).
Proof.
  apply (unknown_session_id_gets_fresh_session Examples.env0 echo_client describe
           plain_prompt plain_read_csv initial_world (lit "ghost") ghost_request
           csv_upload image_upload
           (fst (parse_frame CsvSpec.scenario_frame (lit "a.csv")))
           (snd (parse_frame CsvSpec.scenario_frame (lit "a.csv")))).
  - reflexivity.
  - reflexivity.
  - vm_compute. reflexivity.
  - vm_compute. reflexivity.
  - vm_compute. reflexivity.
  - repeat split; reflexivity.
  - apply (bool_decide_unpack _). vm_compute. reflexivity.
Defined.

End RouteProps.

(** ** Round trips of the contexts, and writes to a missing session *)

Module AccessProps.
Import Repository RepositorySpec RepositoryProps Examples StoreSpec RouteSpec RouteLemmas
  AccessSpec.

Lemma set_active_csv_replace env k csv_data filename summary w c x :
  conversations (committed w) !! k = Some c →
  csv_contexts (committed w) !! k = Some x →
  set_active_csv (healthy env) k csv_data filename summary None w
  = (Ret tt,
     settled (set_active_csv_db k csv_data filename summary
                (clock env (clock_reads w)) (clock env (S (clock_reads w)))
                (committed w))
       (S (S (clock_reads w))) (uuid_draws w) (5 + db_trips w)).
Proof.
  intros Hc Hx. unfold set_active_csv. run_healthy. rewrite Hc. simpl.
  rewrite Hx. simpl. rewrite lookup_delete_eq. simpl.
  unfold settled, set_active_csv_db, set_csv_contexts, set_conversations. simpl.
  rewrite insert_delete_eq. reflexivity.
Qed.

(** Whatever the session held before, a successful [set_active_csv]
    leaves the same store. *)
Lemma set_active_csv_runs env k csv_data filename summary w c :
  conversations (committed w) !! k = Some c →
  ∃ t,
    set_active_csv (healthy env) k csv_data filename summary None w
    = (Ret tt,
       settled (set_active_csv_db k csv_data filename summary
                  (clock env (clock_reads w)) (clock env (S (clock_reads w)))
                  (committed w))
         (S (S (clock_reads w))) (uuid_draws w) t).
Proof.
  intros Hc. destruct (csv_contexts (committed w) !! k) as [x|] eqn:Hx.
  - eexists. by eapply set_active_csv_replace.
  - eexists. by eapply set_active_csv_ok.
Qed.

Lemma get_active_csv_present env k w x :
  csv_contexts (committed w) !! k = Some x →
  fst (get_active_csv (healthy env) k None w)
  = Ret (Some (mkActiveCsv (x_filename x) (x_row_count x) (x_column_count x)
                 (default [] (x_columns x)) (default [] (x_numeric_columns x))
                 (default [] (x_text_columns x))
                 (fd_sample_rows (default (mkFullCsvData [] [] [] []) (x_csv_data x)))
                 (fd_numeric_stats (default (mkFullCsvData [] [] [] []) (x_csv_data x)))
                 (fd_missing_values (default (mkFullCsvData [] [] [] []) (x_csv_data x)))
                 (fd_dtypes (default (mkFullCsvData [] [] [] []) (x_csv_data x))))).
Proof. intros H. unfold get_active_csv. run_healthy. by rewrite H. Qed.

Lemma get_csv_summary_value env k w :
  fst (get_csv_summary (healthy env) k None w)
  = Ret (conversations (committed w) !! k ≫= c_csv_summary).
Proof. unfold get_csv_summary. by run_healthy. Qed.

Lemma get_conversation_context_value env k w :
  fst (get_conversation_context (healthy env) k None w)
  = Ret ((λ c, mkContextInfo (c_has_active_image c) (c_image_filename c)
                 (c_has_active_csv c) (c_csv_filename c) (c_csv_summary c))
         <$> conversations (committed w) !! k).
Proof. unfold get_conversation_context. by run_healthy. Qed.

Lemma get_active_image_value env k w :
  fst (get_active_image (healthy env) k None w)
  = Ret (i_image_base64 <$> image_contexts (committed w) !! k).
Proof. unfold get_active_image. by run_healthy. Qed.

Lemma get_image_filename_value env k w :
  fst (get_image_filename (healthy env) k None w)
  = Ret (conversations (committed w) !! k ≫= c_image_filename).
Proof. unfold get_image_filename. by run_healthy. Qed.

(** X8. What is stored for a session by [set_active_csv] is what the three
    readers return afterwards, whether or not the session already had a
    tabular context (the earlier one is replaced). *)
Theorem csv_context_round_trip env k csv_data filename summary w c :
  conversations (committed w) !! k = Some c →
  let r := set_active_csv (healthy env) k csv_data filename summary None w in
  fst r = Ret tt
  ∧ fst (get_active_csv (healthy env) k None (snd r))
    = Ret (Some (active_csv_of csv_data filename))
  ∧ fst (get_csv_summary (healthy env) k None (snd r)) = Ret (Some summary)
  ∧ ∃ info,
      fst (get_conversation_context (healthy env) k None (snd r)) = Ret (Some info)
      ∧ ci_has_csv info = true
      ∧ ci_csv_filename info = Some filename
      ∧ ci_csv_summary info = Some summary
      ∧ ci_has_image info = c_has_active_image c
      ∧ ci_image_filename info = c_image_filename c.
Proof.
  intros Hc r. destruct (set_active_csv_runs env k csv_data filename summary w c Hc)
    as (t & Hr). subst r. rewrite Hr. cbn [fst snd].
  split; [done|].
  split.
  { rewrite (get_active_csv_present env k _
               (csv_context_row k csv_data filename summary (clock env (clock_reads w))));
      [reflexivity|].
    cbn [settled committed]. unfold set_active_csv_db, set_csv_contexts.
    cbn [csv_contexts]. apply lookup_insert_eq. }
  assert (Hk : conversations
                 (committed (settled (set_active_csv_db k csv_data filename summary
                    (clock env (clock_reads w)) (clock env (S (clock_reads w)))
                    (committed w)) (S (S (clock_reads w))) (uuid_draws w) t)) !! k
               = Some (set_updated_at (clock env (S (clock_reads w)))
                         (set_csv_flags true (Some filename) (Some summary) c))).
  { cbn [settled committed]. unfold set_active_csv_db, set_csv_contexts, set_conversations.
    cbn [conversations]. rewrite !lookup_alter_eq, Hc. reflexivity. }
  split.
  { rewrite get_csv_summary_value, Hk. reflexivity. }
  eexists. rewrite get_conversation_context_value, Hk. cbn. done.
Qed.

Lemma csv_context_round_trip_witness :
  let w := snd (set_active_csv (healthy env0) (lit "id-0") (table (lit "a.csv") 3)
                  (lit "a.csv") (lit "s1") None one_session) in
  let r := set_active_csv (healthy env0) (lit "id-0") (table (lit "b.csv") 7)
             (lit "b.csv") (lit "s2") None w in
  is_Some (csv_contexts (committed w) !! lit "id-0")
  ∧ fst (get_active_csv (healthy env0) (lit "id-0") None (snd r))
    = Ret (Some (active_csv_of (table (lit "b.csv") 7) (lit "b.csv")))
  ∧ fst (get_csv_summary (healthy env0) (lit "id-0") None (snd r)) = Ret (Some (lit "s2")).
Proof.
  intros w r. split; [vm_compute; eauto|].
  assert (Hc : ∃ c, conversations (committed w) !! lit "id-0" = Some c)
    by (vm_compute; eauto).
  destruct Hc as [c Hc].
  destruct (csv_context_round_trip env0 (lit "id-0") (table (lit "b.csv") 7)
              (lit "b.csv") (lit "s2") w c Hc) as (_ & H1 & H2 & _).
  split; [exact H1|exact H2].
Defined.

(** X9. The first image stored for a session is what the readers return
    afterwards. *)
Theorem image_context_round_trip env k image filename w c :
  conversations (committed w) !! k = Some c →
  image_contexts (committed w) !! k = None →
  let r := set_active_image (healthy env) k image filename None w in
  fst r = Ret tt
  ∧ fst (get_active_image (healthy env) k None (snd r)) = Ret (Some image)
  ∧ fst (get_image_filename (healthy env) k None (snd r)) = Ret (Some filename)
  ∧ ∃ info,
      fst (get_conversation_context (healthy env) k None (snd r)) = Ret (Some info)
      ∧ ci_has_image info = true
      ∧ ci_image_filename info = Some filename
      ∧ ci_has_csv info = c_has_active_csv c
      ∧ ci_csv_filename info = c_csv_filename c
      ∧ ci_csv_summary info = c_csv_summary c.
Proof.
  intros Hc Hi r. subst r.
  rewrite (set_active_image_ok env k image filename w c Hc Hi). cbn [fst snd].
  split; [done|].
  split.
  { rewrite get_active_image_value. cbn [settled committed].
    unfold set_image_contexts. cbn [image_contexts]. by rewrite lookup_insert_eq. }
  assert (Hk : ∀ cr u t d,
    conversations (committed (settled (set_image_contexts d
      (set_conversations (alter (set_updated_at (clock env (S (clock_reads w)))) k)
        (set_conversations (alter (set_image_flags true (Some filename)) k)
           (committed w)))) cr u t)) !! k
    = Some (set_updated_at (clock env (S (clock_reads w)))
              (set_image_flags true (Some filename) c))).
  { intros. cbn [settled committed]. unfold set_image_contexts, set_conversations.
    cbn [conversations]. rewrite !lookup_alter_eq, Hc. reflexivity. }
  split.
  { rewrite get_image_filename_value, Hk. reflexivity. }
  eexists. rewrite get_conversation_context_value, Hk. cbn. done.
Qed.

Lemma image_context_round_trip_witness :
  let r := set_active_image (healthy env0) (lit "id-0") (lit "aGk=") (lit "p.png")
             None one_session in
  fst r = Ret tt
  ∧ fst (get_active_image (healthy env0) (lit "id-0") None (snd r))
    = Ret (Some (lit "aGk="))
  ∧ fst (get_image_filename (healthy env0) (lit "id-0") None (snd r))
    = Ret (Some (lit "p.png")).
Proof.
  intros r.
  assert (Hc : ∃ c, conversations (committed one_session) !! lit "id-0" = Some c)
    by (vm_compute; eauto).
  destruct Hc as [c Hc].
  assert (Hi : image_contexts (committed one_session) !! lit "id-0" = None)
    by (vm_compute; reflexivity).
  destruct (image_context_round_trip env0 (lit "id-0") (lit "aGk=") (lit "p.png")
              one_session c Hc Hi) as (H0 & H1 & H2 & _).
  split; [exact H0|]. split; [exact H1|exact H2].
Defined.

Lemma set_active_image_conflict env k image filename w c i :
  conversations (committed w) !! k = Some c →
  image_contexts (committed w) !! k = Some i →
  set_active_image (healthy env) k image filename None w
  = (Raise (integrity_error env),
     settled (committed w) (S (S (clock_reads w))) (uuid_draws w) (3 + db_trips w)).
Proof.
  intros Hc Hi. unfold set_active_image. run_healthy.
  rewrite Hc. simpl. rewrite Hi. simpl. rewrite Hi. reflexivity.
Qed.

(** X3. Writing to a session that does not exist. [add_message] raises and
    stores nothing; when the database answers, the exception is the
    [ValueError] that names the session. [set_active_csv] and
    [set_active_image] store nothing either, whatever the database does, but
    they return normally when the database answers: the caller is not
    told. *)
Theorem writes_to_unknown_conversation env k role content image_url info chart_data
    csv_data filename summary image w :
  conversations (committed w) !! k = None →
  let r := add_message env k role content image_url info chart_data None w in
  let r1 := set_active_csv env k csv_data filename summary None w in
  let r2 := set_active_image env k image filename None w in
  (∃ e, fst r = Raise e)
  ∧ committed (snd r) = committed w
  ∧ uuid_draws (snd r) = uuid_draws w
  ∧ committed (snd r1) = committed w
  ∧ committed (snd r2) = committed w
  ∧ (db_fault env (db_trips w) = None →
     fst r = Raise (mkExn ValueError (lit "Conversation " ++ k ++ lit " not found"))
     ∧ fst r1 = Ret tt
     ∧ fst r2 = Ret tt).
Proof.
  intros Hc r r1 r2. subst r r1 r2.
  unfold add_message, set_active_csv, set_active_image. unfold_orm. simpl.
  destruct (db_fault env (db_trips w)) as [e|]; simpl.
  - repeat split; try done; eauto.
  - rewrite Hc. simpl. repeat split; try done; eauto.
Qed.

Lemma writes_to_unknown_conversation_witness :
  let r := add_message env0 (lit "ghost") (lit "user") (lit "hello") None None None
             None one_session in
  let r1 := set_active_csv env0 (lit "ghost") (table (lit "a.csv") 3) (lit "a.csv")
              (lit "s1") None one_session in
  let r2 := set_active_image env0 (lit "ghost") (lit "aGk=") (lit "a.csv") None
              one_session in
  fst r = Raise (mkExn ValueError (lit "Conversation ghost not found"))
  ∧ committed (snd r) = committed one_session
  ∧ fst r1 = Ret tt ∧ committed (snd r1) = committed one_session
  ∧ fst r2 = Ret tt ∧ committed (snd r2) = committed one_session.
Proof.
  intros r r1 r2.
  assert (Hc : conversations (committed one_session) !! lit "ghost" = None)
    by (vm_compute; reflexivity).
  assert (Hf : db_fault env0 (db_trips one_session) = None) by reflexivity.
  destruct (writes_to_unknown_conversation env0 (lit "ghost") (lit "user") (lit "hello")
              None None None (table (lit "a.csv") 3) (lit "a.csv") (lit "s1")
              (lit "aGk=") one_session Hc) as (_ & H1 & _ & H2 & H3 & H4).
  destruct (H4 Hf) as (Hr & Hr1 & Hr2).
  split; [subst r; rewrite Hr; vm_compute; reflexivity|].
  split; [exact H1|]. split; [exact Hr1|]. split; [exact H2|].
  split; [exact Hr2|exact H3].
Defined.

End AccessProps.

(** ** Readers, creation and deletion *)

Module ReadProps.
Import Repository RepositorySpec RepositoryProps Examples StoreSpec RouteSpec RouteLemmas AccessSpec
  AccessProps ReadSpec.

#[export] Instance not_after_trans : Transitive not_after.
Proof. unfold not_after. intros a b c. lia. Qed.

#[export] Instance not_after_total : Total not_after.
Proof. unfold not_after. intros a b. lia. Qed.

#[export] Instance flip_not_after_trans : Transitive (flip not_after).
Proof. unfold flip, not_after. intros a b c. lia. Qed.

#[export] Instance flip_not_after_total : Total (flip not_after).
Proof. unfold flip, not_after. intros a b. lia. Qed.

#[export] Instance updated_not_before_trans : Transitive updated_not_before.
Proof. unfold updated_not_before. intros a b c. lia. Qed.

#[export] Instance updated_not_before_total : Total updated_not_before.
Proof. unfold updated_not_before. intros a b. lia. Qed.

Lemma get_messages_value env k w :
  fst (get_messages (healthy env) k None w)
  = Ret (message_dict <$> order_by_timestamp (messages_of k (committed w))).
Proof. unfold get_messages. by run_healthy. Qed.

Lemma get_message_history_value env k limit w :
  fst (get_message_history_for_llm (healthy env) k limit None w)
  = Ret (history_item
           <$> reverse (take limit
                          (order_by_timestamp_desc (messages_of k (committed w))))).
Proof. unfold get_message_history_for_llm. by run_healthy. Qed.

Lemma get_conversation_value env k w :
  fst (get_conversation (healthy env) k None w) = Ret (conversation_dict (committed w) k).
Proof.
  unfold get_conversation, conversation_dict. run_healthy.
  by destruct (conversations (committed w) !! k).
Qed.

Lemma StronglySorted_reverse {A} (R : relation A) (l : list A) :
  StronglySorted R l → StronglySorted (flip R) (reverse l).
Proof.
  induction 1 as [|x l Hl IH Hx]; [constructor|].
  rewrite reverse_cons. apply StronglySorted_app_2.
  - intros x1 x2 H1 H2. apply list_elem_of_singleton in H2 as ->.
    rewrite elem_of_reverse in H1. rewrite Forall_forall in Hx.
    unfold flip. by apply Hx.
  - exact IH.
  - repeat constructor.
Qed.

(** X4. [get_messages] returns the messages of the session and no other, each
    once, by increasing time. *)
Theorem get_messages_in_time_order env k w :
  ∃ ms,
    fst (get_messages (healthy env) k None w) = Ret (message_dict <$> ms)
    ∧ ms ≡ₚ messages_of k (committed w)
    ∧ Forall (λ m, m_conversation_id m = k) ms
    ∧ StronglySorted (λ a b, m_timestamp a ≤ m_timestamp b) ms.
Proof.
  exists (order_by_timestamp (messages_of k (committed w))).
  split; [apply get_messages_value|].
  assert (Hp : order_by_timestamp (messages_of k (committed w))
               ≡ₚ messages_of k (committed w))
    by apply merge_sort_Permutation.
  split; [exact Hp|]. split.
  - rewrite Hp. unfold messages_of. apply Forall_forall.
    intros m Hm. by apply list_elem_of_filter in Hm as [? _].
  - apply (StronglySorted_merge_sort not_after).
Qed.

(** X5. [get_message_history_for_llm] returns at most [limit] messages of the
    session, by increasing time, and they are the most recent ones: no
    message left out is later than one returned. *)
Theorem history_is_the_most_recent env k limit w :
  ∃ ms older,
    fst (get_message_history_for_llm (healthy env) k limit None w)
    = Ret (history_item <$> ms)
    ∧ ms ++ older ≡ₚ messages_of k (committed w)
    ∧ length ms = Nat.min limit (length (messages_of k (committed w)))
    ∧ StronglySorted (λ a b, m_timestamp a ≤ m_timestamp b) ms
    ∧ ∀ m o, m ∈ ms → o ∈ older → m_timestamp o ≤ m_timestamp m.
Proof.
  set (l := messages_of k (committed w)).
  set (s := order_by_timestamp_desc l).
  assert (Hp : s ≡ₚ l) by apply merge_sort_Permutation.
  assert (Hs : StronglySorted (flip not_after) s)
    by apply (StronglySorted_merge_sort (flip not_after)).
  exists (reverse (take limit s)), (drop limit s).
  split; [apply get_message_history_value|].
  rewrite <- (take_drop limit s) in Hs. apply StronglySorted_app in Hs as (Hx & Ht & _).
  split; [by rewrite reverse_Permutation, take_drop|].
  split; [by rewrite length_reverse, length_take, Hp|].
  split.
  - apply (StronglySorted_reverse (flip not_after)) in Ht. exact Ht.
  - intros m o Hm Ho. rewrite elem_of_reverse in Hm. exact (Hx m o Hm Ho).
Qed.

Lemma filter_other_session (j k : str) (ms : list Message) :
  j ≠ k →
  filter (λ m, m_conversation_id m = j) (filter (λ m, m_conversation_id m ≠ k) ms)
  = filter (λ m, m_conversation_id m = j) ms.
Proof.
  intros Hjk. induction ms as [|m ms IH]; [done|].
  rewrite !filter_cons. destruct (decide (m_conversation_id m ≠ k)) as [Hne|He].
  - rewrite filter_cons. destruct (decide (m_conversation_id m = j)); by rewrite IH.
  - rewrite IH. destruct (decide (m_conversation_id m = j)) as [Hj|]; [|done].
    exfalso. apply He. congruence.
Qed.

Lemma filter_own_session (k : str) (ms : list Message) :
  filter (λ m, m_conversation_id m = k) (filter (λ m, m_conversation_id m ≠ k) ms) = [].
Proof.
  induction ms as [|m ms IH]; [done|].
  rewrite filter_cons. destruct (decide (m_conversation_id m ≠ k)) as [Hne|He]; [|done].
  rewrite filter_cons. by destruct (decide (m_conversation_id m = k)).
Qed.

Lemma delete_conversation_ok env k w c :
  conversations (committed w) !! k = Some c →
  delete_conversation (healthy env) k None w
  = (Ret true,
     settled (delete_row (DConversation k) (committed w))
       (clock_reads w) (uuid_draws w) (3 + db_trips w)).
Proof. intros Hc. unfold delete_conversation. run_healthy. by rewrite Hc. Qed.

Lemma delete_conversation_absent env k w :
  conversations (committed w) !! k = None →
  delete_conversation (healthy env) k None w
  = (Ret false, settled (committed w) (clock_reads w) (uuid_draws w) (1 + db_trips w)).
Proof. intros Hc. unfold delete_conversation. run_healthy. by rewrite Hc. Qed.

(** X2. Deleting a session removes it with its messages and its two contexts,
    and leaves every other session as it was; deleting a session that does
    not exist returns [False] and changes nothing. *)
Theorem delete_conversation_cascades env k w :
  let r := delete_conversation (healthy env) k None w in
  (is_Some (conversations (committed w) !! k) →
   fst r = Ret true
   ∧ fst (get_conversation (healthy env) k None (snd r)) = Ret None
   ∧ fst (get_messages (healthy env) k None (snd r)) = Ret []
   ∧ fst (get_active_image (healthy env) k None (snd r)) = Ret None
   ∧ fst (get_active_csv (healthy env) k None (snd r)) = Ret None
   ∧ ∀ j, j ≠ k →
       fst (get_conversation (healthy env) j None (snd r))
       = fst (get_conversation (healthy env) j None w)
       ∧ fst (get_messages (healthy env) j None (snd r))
         = fst (get_messages (healthy env) j None w))
  ∧ (conversations (committed w) !! k = None →
     fst r = Ret false ∧ committed (snd r) = committed w).
Proof.
  intros r. split.
  - intros [c Hc]. subst r. rewrite (delete_conversation_ok env k w c Hc).
    cbn [fst snd]. split; [done|].
    rewrite !get_conversation_value, !get_messages_value, get_active_image_value.
    cbn [settled committed]. unfold conversation_dict, messages_of, delete_row.
    cbn [conversations messages image_contexts csv_contexts].
    rewrite !lookup_delete_eq, filter_own_session.
    split; [done|]. split; [done|]. split; [done|].
    split.
    { unfold get_active_csv. run_healthy. by rewrite lookup_delete_eq. }
    intros j Hj. rewrite !get_conversation_value, !get_messages_value.
    cbn [settled committed]. unfold conversation_dict, messages_of.
    cbn [conversations messages image_contexts csv_contexts].
    rewrite !lookup_delete_ne by done. by rewrite filter_other_session.
  - intros Hc. subst r. by rewrite (delete_conversation_absent env k w Hc).
Qed.

(** X1. A session that was just created is what [get_conversation] returns
    for its identifier: the same dictionary, with no message and an empty
    context; the other sessions are as they were. *)
Theorem created_session_is_returned env w :
  let u := uuid_src env (uuid_draws w) in
  unused (committed w) u →
  messages_of u (committed w) = [] →
  ∃ dict w',
    create_conversation (healthy env) None w = (Ret dict, w')
    ∧ v_id dict = u
    ∧ v_messages dict = []
    ∧ v_context dict = mkContextDict None None None None None
    ∧ fst (get_conversation (healthy env) u None w') = Ret (Some dict)
    ∧ fst (get_conversation_context (healthy env) u None w')
      = Ret (Some (mkContextInfo false None false None None))
    ∧ ∀ j, j ≠ u →
        fst (get_conversation (healthy env) j None w')
        = fst (get_conversation (healthy env) j None w).
Proof.
  intros u (Hu & Hx & Hi) Hm.
  destruct (create_conversation_ok env w Hu) as (dict & Hid & Hrun).
  fold u in Hrun. eexists dict, _. split; [exact Hrun|].
  assert (Hdict : dict = mkConversationDict u (clock env (clock_reads w))
                           (clock env (S (clock_reads w))) []
                           (mkContextDict None None None None None)).
  { unfold create_conversation in Hrun. revert Hrun. run_healthy. fold u.
    rewrite Hu. by intros [= <-]. }
  split; [exact Hid|]. split; [by rewrite Hdict|]. split; [by rewrite Hdict|].
  split.
  { rewrite get_conversation_value. cbn [settled committed].
    unfold conversation_dict, set_conversations, messages_of in *.
    cbn [conversations messages image_contexts csv_contexts].
    rewrite lookup_insert_eq, Hm, Hx, Hi, Hdict. reflexivity. }
  split.
  { rewrite get_conversation_context_value. cbn [settled committed].
    unfold set_conversations. cbn [conversations]. by rewrite lookup_insert_eq. }
  intros j Hj. rewrite !get_conversation_value. cbn [settled committed].
  unfold conversation_dict, set_conversations, messages_of.
  cbn [conversations messages image_contexts csv_contexts].
  by rewrite lookup_insert_ne.
Qed.

Lemma created_session_is_returned_witness :
  ∃ dict w',
    create_conversation (healthy env0) None one_session = (Ret dict, w')
    ∧ v_id dict = lit "id-1"
    ∧ fst (get_conversation (healthy env0) (lit "id-1") None w') = Ret (Some dict).
Proof.
  destruct (created_session_is_returned env0 one_session)
    as (dict & w' & Hrun & Hid & _ & _ & Hget & _).
  - repeat split; vm_compute; reflexivity.
  - vm_compute. reflexivity.
  - exists dict, w'. split; [exact Hrun|]. split; [|exact Hget].
    rewrite Hid. vm_compute. reflexivity.
Defined.

Lemma delete_conversation_cascades_witness :
  let w := snd (add_message (healthy env0) (lit "id-0") (lit "user") (lit "hello") None
                  None None None one_session) in
  let r := delete_conversation (healthy env0) (lit "id-0") None w in
  length (messages (committed w)) = 1%nat
  ∧ fst r = Ret true
  ∧ fst (get_conversation (healthy env0) (lit "id-0") None (snd r)) = Ret None
  ∧ fst (get_messages (healthy env0) (lit "id-0") None (snd r)) = Ret [].
Proof.
  intros w r. split; [vm_compute; reflexivity|].
  assert (Hc : is_Some (conversations (committed w) !! lit "id-0"))
    by (vm_compute; eauto).
  destruct (delete_conversation_cascades env0 (lit "id-0") w) as [H _].
  destruct (H Hc) as (H1 & H2 & H3 & _).
  split; [exact H1|]. split; [exact H2|exact H3].
Defined.

Section Readers.
Context (env : Env).

Lemma for_each_keeps {A B} (body : A → M B) (xs : list A) :
  (∀ x w, committed (snd (body x w)) = committed w) →
  ∀ w, committed (snd (for_each body xs w)) = committed w.
Proof.
  intros Hb. induction xs as [|x xs IH]; intros w; [done|].
  cbn [for_each]. unfold mbind, M_bind, mret, M_ret.
  specialize (Hb x w). destruct (body x w) as [[y|e] w']; [|exact Hb].
  specialize (IH w'). destruct (for_each body xs w') as [[ys|e] w''];
    simpl in *; congruence.
Qed.

Lemma query_then_keeps {A B} (f : DB → A) (g : A → B) (w : World) :
  committed (snd ((a ← query env f; mret (g a)) w)) = committed w.
Proof.
  unfold query, round_trip, gets, mbind, M_bind, mret, M_ret.
  by destruct (db_fault env (db_trips w)).
Qed.

(** X11. The functions that read never change what is stored, whatever the
    database does. *)
Theorem readers_store_nothing k limit w :
  committed (snd (get_conversation env k None w)) = committed w
  ∧ committed (snd (get_all_conversations env None w)) = committed w
  ∧ committed (snd (get_messages env k None w)) = committed w
  ∧ committed (snd (get_message_history_for_llm env k limit None w)) = committed w
  ∧ committed (snd (get_active_image env k None w)) = committed w
  ∧ committed (snd (get_image_filename env k None w)) = committed w
  ∧ committed (snd (get_active_csv env k None w)) = committed w
  ∧ committed (snd (get_csv_summary env k None w)) = committed w
  ∧ committed (snd (get_conversation_context env k None w)) = committed w.
Proof.
  repeat split.
  - unfold get_conversation. run; reflexivity.
  - unfold get_all_conversations, with_db, get_db_session, try_finally, close, modify.
    unfold mbind at 1, M_bind at 1, mbind at 1, M_bind at 1, mret at 1, M_ret at 1.
    cbn beta iota.
    unfold mbind at 1, M_bind at 1, query at 1, round_trip, gets.
    unfold mbind at 1, M_bind at 1. cbn [db_trips abandon].
    destruct (db_fault env (db_trips w)); [done|]. cbn beta iota.
    match goal with
    | |- context [for_each ?b ?cs ?w'] =>
      pose proof (for_each_keeps b cs) as H; specialize (H (λ x w0, query_then_keeps _ _ w0) w');
      destruct (for_each b cs w') as [[ys|e] w'']
    end; exact H.
  - unfold get_messages. run; reflexivity.
  - unfold get_message_history_for_llm. run; reflexivity.
  - unfold get_active_image. run; reflexivity.
  - unfold get_image_filename. run; reflexivity.
  - unfold get_active_csv. run; reflexivity.
  - unfold get_csv_summary. run; reflexivity.
  - unfold get_conversation_context. run; reflexivity.
Qed.

End Readers.

End ReadProps.

(** ** Invariants of the store *)

Module InvariantProps.
Import Repository RepositorySpec RepositoryProps Examples StoreSpec StoreProps InvariantSpec.

(** A property of the committed store kept by every action, in every
    environment, holds in every state reached from the empty store. *)
Lemma reachable_invariant (P : DB → Prop) env :
  P empty_db →
  (∀ a w, P (committed w) → P (committed (act env a w))) →
  ∀ acts, P (committed (act_all env acts initial_world)).
Proof.
  intros H0 Hstep acts. unfold act_all.
  change empty_db with (committed initial_world) in H0.
  revert H0. generalize initial_world as w0.
  induction acts as [|a acts IH]; intros w0 H0; [exact H0|].
  simpl. apply IH. by apply Hstep.
Qed.

Ltac unfold_setters :=
  unfold set_csv_contexts, set_conversations, set_messages, set_image_contexts,
    delete_rows, delete_row in *.

Ltac known_lookups :=
  repeat match goal with
         | H : ?m !! ?i = _ |- context [?m !! ?i] => rewrite H
         | H : ?m !! ?i = _, H' : context [?m !! ?i] |- _ => rewrite H in H'
         end.

Ltac image_step Hinv :=
  let j := fresh "j" in
  intros j; specialize (Hinv j); unfold image_agrees in *;
  unfold_setters; simpl in *; lookups; known_lookups; simpl in *; simplify_eq;
  try done;
  repeat match goal with
         | |- context [conversations ?d !! ?i] => destruct (conversations d !! i) eqn:?
         | |- context [image_contexts ?d !! ?i] => destruct (image_contexts d !! i) eqn:?
         end;
  simpl in *; simplify_eq; try done; try tauto.

Lemma act_image_mirrored env a w :
  image_mirrored (committed w) → image_mirrored (committed (act env a w)).
Proof.
  intros Hinv. destruct a as [o|k]; [destruct o|]; unfold act, perform.
  - unfold create_conversation. run; try exact Hinv; solve [image_step Hinv].
  - unfold delete_conversation. run; try exact Hinv; solve [image_step Hinv].
  - unfold add_message. run; try exact Hinv; solve [image_step Hinv].
  - unfold set_active_image. run; try exact Hinv; solve [image_step Hinv].
  - unfold clear_image_context. run; try exact Hinv; solve [image_step Hinv].
  - unfold set_active_csv. run; try exact Hinv; solve [image_step Hinv].
  - unfold clear_csv_context. run; try exact Hinv; solve [image_step Hinv].
  - unfold clear_all_context, clear_image_context, clear_csv_context.
    run; try exact Hinv; solve [image_step Hinv].
  - unfold update_conversation_timestamp. run; try exact Hinv; solve [image_step Hinv].
Qed.

Ltac csv_step Hinv :=
  let j := fresh "j" in
  intros j; specialize (Hinv j); unfold csv_agrees in *;
  unfold_setters; simpl in *; lookups; known_lookups; simpl in *; simplify_eq;
  try done;
  repeat match goal with
         | |- context [conversations ?d !! ?i] => destruct (conversations d !! i) eqn:?
         | |- context [csv_contexts ?d !! ?i] => destruct (csv_contexts d !! i) eqn:?
         end;
  simpl in *; simplify_eq; try done; try tauto; eauto 10.

Lemma act_csv_mirrored env a w :
  csv_mirrored (committed w) → csv_mirrored (committed (act env a w)).
Proof.
  intros Hinv. destruct a as [o|k]; [destruct o|]; unfold act, perform.
  - unfold create_conversation. run; try exact Hinv; solve [csv_step Hinv].
  - unfold delete_conversation. run; try exact Hinv; solve [csv_step Hinv].
  - unfold add_message. run; try exact Hinv; solve [csv_step Hinv].
  - unfold set_active_image. run; try exact Hinv; solve [csv_step Hinv].
  - unfold clear_image_context. run; try exact Hinv; solve [csv_step Hinv].
  - unfold set_active_csv. run; try exact Hinv; solve [csv_step Hinv].
  - unfold clear_csv_context. run; try exact Hinv; solve [csv_step Hinv].
  - unfold clear_all_context, clear_image_context, clear_csv_context.
    run; try exact Hinv; solve [csv_step Hinv].
  - unfold update_conversation_timestamp. run; try exact Hinv; solve [csv_step Hinv].
Qed.

Ltac owned_step Hinv :=
  unfold messages_owned in *; unfold_setters; simpl in *;
  rewrite ?Forall_app, ?Forall_singleton;
  repeat split;
  try (eapply Forall_impl; [exact Hinv|]; simpl; intros; lookups; known_lookups;
       try done;
       match goal with
       | H : is_Some ?x |- is_Some (_ <$> ?x) => by apply fmap_is_Some
       | H : is_Some ?x |- is_Some (_ <$> (_ <$> ?x)) => by rewrite !fmap_is_Some
       | H : is_Some ?x |- is_Some (_ <$> (_ <$> (_ <$> ?x))) => by rewrite !fmap_is_Some
       end);
  try (lookups; known_lookups; simpl; by eauto).

Lemma act_messages_owned env a w :
  messages_owned (committed w) → messages_owned (committed (act env a w)).
Proof.
  intros Hinv. destruct a as [o|k]; [destruct o|]; unfold act, perform.
  - unfold create_conversation. run; try exact Hinv; solve [owned_step Hinv].
  - unfold delete_conversation. run; try exact Hinv.
    unfold messages_owned in *. simpl. apply Forall_forall. intros m Hm.
    apply list_elem_of_filter in Hm as [Hne Hm].
    rewrite Forall_forall in Hinv. specialize (Hinv m Hm).
    by rewrite lookup_delete_ne.
  - unfold add_message. run; try exact Hinv; solve [owned_step Hinv].
  - unfold set_active_image. run; try exact Hinv; solve [owned_step Hinv].
  - unfold clear_image_context. run; try exact Hinv; solve [owned_step Hinv].
  - unfold set_active_csv. run; try exact Hinv; solve [owned_step Hinv].
  - unfold clear_csv_context. run; try exact Hinv; solve [owned_step Hinv].
  - unfold clear_all_context, clear_image_context, clear_csv_context.
    run; try exact Hinv; solve [owned_step Hinv].
  - unfold update_conversation_timestamp. run; try exact Hinv; solve [owned_step Hinv].
Qed.

Lemma lit_bracket : lit "[" = [91%N].
Proof. reflexivity. Qed.

Lemma title_ok_slice (content : str) :
  startswith content (lit "[") = false → title_ok (Some (slice_to 100 content)).
Proof.
  unfold title_ok, slice_to. rewrite !lit_bracket. intros H. split.
  - rewrite length_take. lia.
  - destruct content as [|c r]; [done|]. cbn [take startswith] in *.
    assert (He : ∀ x : str, startswith x [] = true) by (by intros [|??]).
    by rewrite He in *.
Qed.

Ltac titles_step Hinv :=
  let j := fresh "j" in
  let c := fresh "c" in
  let Hj := fresh "Hj" in
  intros j c Hj; unfold_setters; simpl in *; lookups; known_lookups;
  simpl in *; simplify_eq;
  repeat match goal with
         | H : _ <$> ?x = Some _ |- _ =>
           let E := fresh "E" in destruct x eqn:E; simpl in H; simplify_eq
         end;
  simpl;
  try (eapply Hinv; eassumption);
  try done.

Lemma act_titles_ok env a w :
  titles_ok (committed w) → titles_ok (committed (act env a w)).
Proof.
  intros Hinv. destruct a as [o|k]; [destruct o|]; unfold act, perform.
  - unfold create_conversation. run; try exact Hinv; solve [titles_step Hinv].
  - unfold delete_conversation. run; try exact Hinv; solve [titles_step Hinv].
  - unfold add_message. run; try exact Hinv; try solve [titles_step Hinv].
    all: titles_step Hinv.
    all: apply title_ok_slice;
      match goal with
      | H : _ && negb (startswith ?c _) = true |- _ =>
        apply andb_true_iff in H as [_ H]; by apply negb_true_iff in H
      end.
  - unfold set_active_image. run; try exact Hinv; solve [titles_step Hinv].
  - unfold clear_image_context. run; try exact Hinv; solve [titles_step Hinv].
  - unfold set_active_csv. run; try exact Hinv; solve [titles_step Hinv].
  - unfold clear_csv_context. run; try exact Hinv; solve [titles_step Hinv].
  - unfold clear_all_context, clear_image_context, clear_csv_context.
    run; try exact Hinv; solve [titles_step Hinv].
  - unfold update_conversation_timestamp. run; try exact Hinv; solve [titles_step Hinv].
Qed.

(** X12. In every state reached from the empty store, whatever the database
    failures on the way, the image flag and the image file name of a
    session mirror its stored image: the flag is set exactly when an image
    is stored, the name is the name stored with it, and no image is stored
    for a session that does not exist. *)
Theorem image_flag_mirrors_stored_image env acts k :
  let d := committed (act_all env acts initial_world) in
  (∀ c, conversations d !! k = Some c →
        (c_has_active_image c = true ↔ is_Some (image_contexts d !! k))
        ∧ c_image_filename c = image_contexts d !! k ≫= i_filename)
  ∧ (conversations d !! k = None → image_contexts d !! k = None).
Proof.
  intros d.
  assert (Hinv : image_mirrored d).
  { apply (reachable_invariant image_mirrored); [by intros j|].
    intros a w. apply act_image_mirrored. }
  specialize (Hinv k). unfold image_agrees in Hinv. split.
  - intros c Hc. rewrite Hc in Hinv.
    destruct (image_contexts d !! k) as [i|]; simpl.
    + destruct Hinv as [-> ->]. split; [|done]. split; eauto.
    + destruct Hinv as [-> ->]. split; [|done]. split; [done|]. by intros [? ?].
  - intros Hc. rewrite Hc in Hinv. by destruct (image_contexts d !! k).
Qed.

(** X13. In every state reached from the empty store, whatever the database
    failures on the way, the file name and the summary kept on a session
    are those of its stored tabular context, whose column count is the
    length of its column list; and no tabular context is stored for a
    session that does not exist. *)
Theorem csv_columns_mirror_stored_context env acts k :
  let d := committed (act_all env acts initial_world) in
  (∀ c, conversations d !! k = Some c →
        c_csv_filename c = csv_contexts d !! k ≫= x_filename
        ∧ c_csv_summary c = csv_contexts d !! k ≫= x_summary_text)
  ∧ (∀ x, csv_contexts d !! k = Some x →
          is_Some (conversations d !! k)
          ∧ x_column_count x = (λ cols, Z.of_nat (length cols)) <$> x_columns x
          ∧ is_Some (x_columns x))
  ∧ (conversations d !! k = None → csv_contexts d !! k = None).
Proof.
  intros d.
  assert (Hinv : csv_mirrored d).
  { apply (reachable_invariant csv_mirrored); [by intros j|].
    intros a w. apply act_csv_mirrored. }
  specialize (Hinv k). unfold csv_agrees in Hinv. split; [|split].
  - intros c Hc. rewrite Hc in Hinv.
    destruct (csv_contexts d !! k) as [x|]; simpl.
    + by destruct Hinv as (_ & -> & -> & _).
    + by destruct Hinv as (_ & -> & ->).
  - intros x Hx. rewrite Hx in Hinv.
    destruct (conversations d !! k) as [c|]; [|done].
    destruct Hinv as (_ & _ & _ & cols & -> & ->). eauto.
  - intros Hc. rewrite Hc in Hinv. by destruct (csv_contexts d !! k).
Qed.

(** X14. In every state reached from the empty store, whatever the database
    failures on the way, every stored message belongs to a session that
    exists. *)
Theorem no_message_without_session env acts m :
  let d := committed (act_all env acts initial_world) in
  m ∈ messages d → is_Some (conversations d !! m_conversation_id m).
Proof.
  intros d Hm.
  assert (Hinv : messages_owned d).
  { apply (reachable_invariant messages_owned); [by constructor|].
    intros a w. apply act_messages_owned. }
  unfold messages_owned in Hinv. rewrite Forall_forall in Hinv. by apply Hinv.
Qed.

(** X15. In every state reached from the empty store, whatever the database
    failures on the way, a title has at most 100 code points and does not
    start with a bracket. *)
Theorem title_is_short_and_no_marker env acts k c s :
  let d := committed (act_all env acts initial_world) in
  conversations d !! k = Some c → c_title c = Some s →
  (length s ≤ 100)%nat ∧ startswith s (lit "[") = false.
Proof.
  intros d Hc Hs.
  assert (Hinv : titles_ok d).
  { apply (reachable_invariant titles_ok); [by intros j c0 Hj|].
    intros a w. apply act_titles_ok. }
  specialize (Hinv k c Hc). by rewrite Hs in Hinv.
Qed.

Lemma no_message_without_session_witness :
  let d := committed (act_all env0 example_acts initial_world) in
  let m := mkMessage (lit "id-1") (lit "id-0") (lit "user") (lit "hello") 2 None None
             None in
  m ∈ messages d ∧ is_Some (conversations d !! m_conversation_id m).
Proof.
  intros d m.
  assert (Hm : m ∈ messages d) by (vm_compute; left).
  split; [exact Hm|].
  exact (no_message_without_session env0 example_acts m Hm).
Defined.

Lemma title_is_short_and_no_marker_witness :
  let d := committed (act_all env0 example_acts initial_world) in
  (∃ c, conversations d !! lit "id-0" = Some c ∧ c_title c = Some (lit "hello"))
  ∧ (length (lit "hello") ≤ 100)%nat
  ∧ startswith (lit "hello") (lit "[") = false.
Proof.
  intros d.
  assert (Hc : ∃ c, conversations d !! lit "id-0" = Some c ∧ c_title c = Some (lit "hello")).
  { vm_compute. eexists. split; reflexivity. }
  split; [exact Hc|]. destruct Hc as (c & Hc & Ht).
  exact (title_is_short_and_no_marker env0 example_acts (lit "id-0") c (lit "hello") Hc Ht).
Defined.

End InvariantProps.

(** ** The shape of the summary *)

Module SummaryProps.
Import CsvSpec CsvProps SummarySpec.

Lemma most_missing_snoc mv x :
  most_missing (mv ++ [x])
  = if snd (most_missing mv) <? snd x then (Some (fst x), snd x) else most_missing mv.
Proof. unfold most_missing. by rewrite fold_left_app. Qed.

Lemma most_missing_first_maximum mv :
  first_maximum mv (fst (most_missing mv)) (snd (most_missing mv)).
Proof.
  induction mv as [|x mv IH] using rev_ind.
  - split; [constructor|reflexivity].
  - rewrite most_missing_snoc. destruct (most_missing mv) as [col n].
    destruct IH as [Hle Hcol]. cbn [fst snd] in *.
    assert (Hn : 0 ≤ n) by (destruct col; [lia|lia]).
    destruct (n <? snd x) eqn:Hlt; cbn [fst snd].
    + apply Z.ltb_lt in Hlt. split.
      * apply Forall_app. split; [|by repeat constructor].
        eapply Forall_impl; [exact Hle|]. simpl. intros. lia.
      * split; [lia|]. exists mv, []. split; [by destruct x|].
        eapply Forall_impl; [exact Hle|]. simpl. intros. lia.
    + apply Z.ltb_ge in Hlt. split.
      * apply Forall_app. split; [done|]. by repeat constructor.
      * destruct col as [c|]; [|done]. destruct Hcol as (Hpos & b & a & -> & Hb).
        split; [done|]. exists b, (a ++ [x]). split; [|done].
        by rewrite <- app_assoc.
Qed.

(** X19. The most missing column reported by [parse_csv] is the first column
    with the largest missing count, and that count is positive; when no
    value is missing there is no such column and the count is 0. *)
Theorem most_missing_column_is_first_maximum df filename :
  let summary := snd (parse_frame df filename) in
  first_maximum (sm_missing_values summary)
    (sm_most_missing_column summary) (sm_most_missing_count summary).
Proof.
  intros summary. subst summary. unfold parse_frame.
  pose proof (most_missing_first_maximum
                (missing_values_of
                   (if bool_decide (MAX_ROWS_CONTEXT < len df)%nat
                    then head MAX_ROWS_CONTEXT df else df))) as H.
  destruct (most_missing _) as [col n]. exact H.
Qed.

Lemma select_dtypes_sublist include df : select_dtypes include df `sublist_of` columns df.
Proof.
  unfold select_dtypes, columns. apply fmap_sublist, sublist_filter.
Qed.

Lemma count_missing_bounds s : 0 ≤ count_missing s ≤ Z.of_nat (length s).
Proof.
  unfold count_missing. pose proof (length_filter (λ c, isna c = true) s). lia.
Qed.

Lemma column_length df col : (length (column df col) ≤ len df)%nat.
Proof.
  unfold column, len. destruct (index_of col (df_columns df)); simpl; [|lia].
  by rewrite length_fmap.
Qed.

Lemma working_copy_len df : len (working_copy df) = Nat.min (len df) MAX_ROWS_CONTEXT.
Proof.
  unfold working_copy. case_bool_decide; [rewrite head_len|]; lia.
Qed.

Lemma working_copy_columns df : df_columns (working_copy df) = df_columns df.
Proof. unfold working_copy. by case_bool_decide. Qed.

(** X17. The shape of what [parse_csv] returns: how many rows are kept and
    sampled, and how the column lists relate. *)
Theorem parse_result_shape df filename :
  let cd := fst (parse_frame df filename) in
  let sm := snd (parse_frame df filename) in
  cd_displayed_rows cd = Z.min (cd_row_count cd) 1000
  ∧ (cd_truncated cd = true ↔ 1000 < cd_row_count cd)
  ∧ Z.of_nat (length (cd_sample_rows cd)) = Z.min (cd_row_count cd) 100
  ∧ sm_sample_rows sm = take 5 (cd_sample_rows cd)
  ∧ cd_columns cd = columns df
  ∧ sm_columns sm = cd_columns cd
  ∧ sm_column_count sm = Z.of_nat (length (cd_columns cd))
  ∧ fst <$> cd_dtypes cd = cd_columns cd
  ∧ fst <$> cd_missing_values cd = cd_columns cd
  ∧ sm_missing_values sm = cd_missing_values cd
  ∧ Forall (λ kv, 0 ≤ snd kv ≤ cd_displayed_rows cd) (cd_missing_values cd)
  ∧ cd_numeric_columns cd `sublist_of` cd_columns cd
  ∧ cd_text_columns cd `sublist_of` cd_columns cd
  ∧ cd_datetime_columns cd `sublist_of` cd_columns cd.
Proof.
  intros cd sm. subst cd sm. unfold parse_frame.
  fold (working_copy df). destruct (most_missing _) as [col n].
  cbn [fst snd cd_displayed_rows cd_row_count cd_truncated cd_sample_rows
       sm_sample_rows cd_columns sm_columns sm_column_count cd_dtypes
       cd_missing_values sm_missing_values cd_numeric_columns cd_text_columns
       cd_datetime_columns].
  assert (Hc : columns (working_copy df) = columns df)
    by (unfold columns; by rewrite working_copy_columns).
  rewrite working_copy_len, working_copy_columns, Hc.
  unfold MAX_ROWS_CONTEXT.
  split; [lia|].
  split; [rewrite bool_decide_eq_true; lia|].
  split.
  { rewrite sample_rows_of_working_copy, sample_rows_of_spec, length_fmap, length_take.
    unfold MAX_ROWS_DISPLAY, len. lia. }
  split; [done|]. split; [done|]. split; [done|].
  split; [unfold columns; by rewrite length_fmap|].
  split.
  { unfold columns. rewrite <- list_fmap_compose. by apply list_fmap_ext. }
  split.
  { unfold missing_values_of. rewrite <- list_fmap_compose, Hc.
    rewrite <- (list_fmap_id (columns df)) at 2. by apply list_fmap_ext. }
  split; [done|].
  split.
  { unfold missing_values_of. apply Forall_fmap, Forall_forall. intros c _. simpl.
    pose proof (count_missing_bounds (column (working_copy df) c)).
    pose proof (column_length (working_copy df) c) as Hl.
    rewrite working_copy_len in Hl. unfold MAX_ROWS_CONTEXT in Hl. lia. }
  rewrite <- Hc. split; [|split]; apply select_dtypes_sublist.
Qed.

Lemma length_omap_le {A B} (f : A → option B) (l : list A) :
  (length (omap f l) ≤ length l)%nat.
Proof.
  induction l as [|x l IH]; [done|]. cbn [omap list_omap].
  destruct (f x); simpl; lia.
Qed.

Lemma qmean_single (x : Q) : qmean [x] = x.
Proof.
  destruct x as [n d]. unfold qmean, qsum. cbn [foldr length].
  unfold Qdiv, Qmult, Qplus, Qinv, inject_Z. cbn [Qnum Qden Z.of_nat Pos.of_succ_nat].
  by rewrite !Z.mul_1_r, Z.add_0_r, !Pos.mul_1_r.
Qed.

Lemma column_stats_single s st :
  column_stats s = Some st → st_count st = 1 →
  st_std st = 0%Q ∧ st_median st = st_mean st ∧ st_min st = st_mean st
  ∧ st_max st = st_mean st.
Proof.
  unfold column_stats. destruct (dropna s) as [|x [|y l]] eqn:Hd; cbn [length].
  - done.
  - intros [= <-] _. cbn [st_std st_median st_mean st_min st_max].
    rewrite qmean_single. done.
  - intros [= <-]. cbn [st_count length]. lia.
Qed.

(** X18. Every entry of [numeric_stats] belongs to a numeric column that has at
    least one value; its [missing] count is the one reported for the column
    in [missing_values]; and for a column with a single value the standard
    deviation is 0 and the mean, median, minimum and maximum coincide. *)
Theorem numeric_stats_entries df filename col st :
  let cd := fst (parse_frame df filename) in
  (col, st) ∈ cd_numeric_stats cd →
  col ∈ cd_numeric_columns cd
  ∧ 1 ≤ st_count st ≤ cd_displayed_rows cd
  ∧ (col, st_missing st) ∈ cd_missing_values cd
  ∧ (st_count st = 1 →
     st_std st = 0%Q ∧ st_median st = st_mean st ∧ st_min st = st_mean st
     ∧ st_max st = st_mean st).
Proof.
  intros cd. subst cd.
  pose proof (parse_frame_fields df filename) as F. cbv zeta in F.
  destruct F as (_ & _ & _ & F4 & F5 & _ & F7 & _).
  rewrite F4, F5, F7.
  assert (Hn : cd_numeric_columns (fst (parse_frame df filename))
               = select_dtypes is_number (working_copy df)).
  { unfold parse_frame. fold (working_copy df). by destruct (most_missing _). }
  rewrite Hn. set (work := working_copy df).
  unfold numeric_stats_of. rewrite list_elem_of_omap.
  intros (c & Hc & Hs).
  destruct (column_stats (column work c)) as [st'|] eqn:Hst; [|done].
  cbn in Hs. injection Hs as <- <-.
  split; [done|].
  assert (Hcount : st_count st' = Z.of_nat (length (dropna (column work c)))
                   ∧ st_missing st' = count_missing (column work c)
                   ∧ (0 < length (dropna (column work c)))%nat).
  { unfold column_stats in Hst.
    destruct (0 <? length (dropna (column work c)))%nat eqn:Hpos; [|done].
    apply Nat.ltb_lt in Hpos. by injection Hst as <-. }
  destruct Hcount as (Hcnt & Hmiss & Hpos).
  split.
  { rewrite Hcnt. pose proof (length_omap_le numeric_value (column work c)).
    pose proof (column_length work c). unfold dropna in *. lia. }
  split.
  { rewrite Hmiss. unfold missing_values_of. apply list_elem_of_fmap.
    exists c. split; [done|].
    eapply elem_of_sublist; [exact Hc|apply select_dtypes_sublist]. }
  by apply (column_stats_single (column work c)).
Qed.

Lemma numeric_stats_entries_witness :
  let cd := fst (parse_frame (mkDataFrame [(lit "a", Float64); (lit "b", Int64)]
                               [[PFloat (5 # 2); PInt 1]; [PNaN; PInt 4]])
                   (lit "data.csv")) in
  let st := mkStats (5 # 2) (5 # 2) (5 # 2) (5 # 2) 0 1 1 in
  (lit "a", st) ∈ cd_numeric_stats cd
  ∧ (lit "a", 1) ∈ cd_missing_values cd
  ∧ st_std st = 0%Q.
Proof.
  intros cd st.
  assert (H : (lit "a", st) ∈ cd_numeric_stats cd) by (vm_compute; left).
  destruct (numeric_stats_entries _ _ _ _ H) as (_ & _ & H3 & H4).
  split; [exact H|]. split; [exact H3|]. exact (proj1 (H4 eq_refl)).
Defined.

Lemma parse_csv_raise_class read_csv content filename e :
  parse_csv read_csv content filename = Raise e → exn_cls e = ValueError.
Proof.
  unfold parse_csv, read_frame.
  destruct (read_csv CEngine content) as [df|cause]; [done|].
  destruct (exn_cls cause).
  all: try (by intros [= <-]).
  destruct (read_csv PythonSkipBadLines content) as [df|e']; [done|].
  by intros [= <-].
Qed.

(** X16. [parse_csv] raises nothing but [ValueError]: with the text of the
    lenient reader's failure when the first failure was a parser error,
    with the text of the first failure otherwise. *)
Theorem parse_csv_raises_value_error read_csv content filename e :
  parse_csv read_csv content filename = Raise e →
  exn_cls e = ValueError
  ∧ ∃ cause,
      read_csv CEngine content = Raise cause
      ∧ match exn_cls cause with
        | ParserError =>
          ∃ e', read_csv PythonSkipBadLines content = Raise e'
                ∧ exn_str e = lit "File nát quá cứu không nổi: " ++ exn_str e'
        | _ => exn_str e = lit "Lỗi parse CSV: " ++ exn_str cause
        end.
Proof.
  unfold parse_csv, read_frame.
  destruct (read_csv CEngine content) as [df|cause] eqn:H1; [done|].
  destruct (exn_cls cause) eqn:Hc.
  all: try (intros [= <-]; split; [done|]; exists cause; split; [done|];
            by rewrite Hc).
  destruct (read_csv PythonSkipBadLines content) as [df|e'] eqn:H2; [done|].
  intros [= <-]. split; [done|]. exists cause. split; [done|]. rewrite Hc. eauto.
Qed.

Lemma parse_csv_raises_value_error_witness :
  ∃ e, parse_csv plain_read_csv empty (lit "data.csv") = Raise e
       ∧ exn_cls e = ValueError
       ∧ exn_str e = lit "Lỗi parse CSV: No columns to parse from file".
Proof.
  assert (H : parse_csv plain_read_csv empty (lit "data.csv")
              = Raise (mkExn ValueError
                         (lit "Lỗi parse CSV: No columns to parse from file")))
    by (vm_compute; reflexivity).
  eexists. split; [exact H|].
  destruct (parse_csv_raises_value_error _ _ _ _ H) as (Hc & _).
  split; [exact Hc|reflexivity].
Defined.

End SummaryProps.

(** ** The run of the generator *)

Module StreamProps.
Import Repository LlmService RepositorySpec Examples LlmServiceProps StreamSpec.

Section WithProvider.
Context (client : str → list chat_message → completion).
Context (prompt : option ActiveCsv → option str → str).

Lemma stream_from_yielded m p :
  yielded (stream_from client m p) = chunks_of (client m p).
Proof.
  unfold stream_from, yielded, chunks_of. cbn [fst omap list_omap].
  induction (deltas (client m p)) as [|d ds IH]; [done|].
  cbn [omap list_omap]. destruct d as [s|]; cbn; [|exact IH].
  destruct (truthy s); cbn; by rewrite IH.
Qed.

Lemma chunks_of_nonempty c : Forall (λ s, s ≠ []) (chunks_of c).
Proof.
  unfold chunks_of. apply Forall_forall. intros s Hs.
  apply list_elem_of_omap in Hs as (d & _ & Hd).
  destruct d as [s'|]; cbn in Hd; [|done].
  destruct s'; cbn in Hd; [done|]. by injection Hd as <-.
Qed.

Lemma apology_nonempty e : apology e ≠ [].
Proof.
  unfold apology.
  assert (H : ∃ c r, lit "I apologize, but I encountered an error: " = c :: r)
    by (vm_compute; eauto).
  destruct H as (c & r & ->). done.
Qed.

(** X21. The run of the generator, in full: it never raises; it calls the
    provider once when the first call succeeds and twice otherwise, the
    second time for the fallback model; what it yields is the chunks of the
    first call, then, if that call failed, the chunks of the second call
    (the chunks already yielded are not taken back), then, if that one
    failed too, the apology. No chunk is empty. *)
Theorem stream_keeps_partial_output message history image_base64 csv_context
    csv_summary :
  let messages :=
    build_messages prompt message history image_base64 csv_context csv_summary in
  let first :=
    client (if has_image image_base64 then vision_model else model) messages in
  let second := client fallback_model (fallback_message <$> messages) in
  let g := generate_response_stream client prompt message history image_base64
             csv_context csv_summary in
  snd g = Ret tt
  ∧ fst <$> calls g
    = match failure first with
      | None => [if has_image image_base64 then vision_model else model]
      | Some _ => [if has_image image_base64 then vision_model else model;
                   fallback_model]
      end
  ∧ yielded g
    = chunks_of first
      ++ match failure first with
         | None => []
         | Some e =>
           chunks_of second
           ++ match failure second with
              | None => []
              | Some _ => [apology e]
              end
         end
  ∧ Forall (λ s, s ≠ []) (yielded g).
Proof.
  intros messages first second g.
  assert (Hy : yielded g
    = chunks_of first
      ++ match failure first with
         | None => []
         | Some e =>
           chunks_of second
           ++ match failure second with
              | None => []
              | Some _ => [apology e]
              end
         end
    ∧ snd g = Ret tt
    ∧ fst <$> calls g
      = match failure first with
        | None => [if has_image image_base64 then vision_model else model]
        | Some _ => [if has_image image_base64 then vision_model else model;
                     fallback_model]
        end).
  { subst g. unfold generate_response_stream, g_try_except. fold messages.
    pose proof (stream_from_yielded
                  (if has_image image_base64 then vision_model else model) messages) as Y1.
    pose proof (stream_from_calls client
                  (if has_image image_base64 then vision_model else model) messages) as C1.
    pose proof (stream_from_outcome client
                  (if has_image image_base64 then vision_model else model) messages) as O1.
    fold first in Y1, O1.
    destruct (stream_from client _ messages) as [t1 r1].
    cbn [snd] in O1. subst r1.
    destruct (failure first) as [e1|].
    - pose proof (stream_from_yielded fallback_model (fallback_message <$> messages)) as Y2.
      pose proof (stream_from_calls client fallback_model
                    (fallback_message <$> messages)) as C2.
      pose proof (stream_from_outcome client fallback_model
                    (fallback_message <$> messages)) as O2.
      fold second in Y2, O2.
      destruct (stream_from client fallback_model _) as [t2 r2].
      cbn [snd] in O2. subst r2.
      destruct (failure second) as [e2|]; cbn [yield].
      + rewrite !yielded_app, !calls_app.
        unfold yielded, calls in *. cbn [fst] in *. rewrite Y1, Y2, C1, C2.
        cbn. rewrite ?app_nil_r. done.
      + rewrite !yielded_app, !calls_app.
        unfold yielded, calls in *. cbn [fst] in *. rewrite Y1, Y2, C1, C2.
        cbn. rewrite ?app_nil_r. done.
    - unfold yielded, calls in *. cbn [fst] in *. rewrite Y1, C1, ?app_nil_r. done. }
  destruct Hy as (Hy & Hr & Hc). split; [exact Hr|]. split; [exact Hc|].
  split; [exact Hy|]. rewrite Hy.
  apply Forall_app. split; [apply chunks_of_nonempty|].
  destruct (failure first) as [e1|]; [|constructor].
  apply Forall_app. split; [apply chunks_of_nonempty|].
  destruct (failure second); repeat constructor. apply apology_nonempty.
Qed.

Lemma history_messages_kept history :
  history_messages history
  = (λ h, mkChat (h_role h) (Text (h_content h))) <$> kept_history history.
Proof.
  unfold history_messages, kept_history, upload_marker.
  induction (slice_last 15 history) as [|h l IH]; [done|].
  cbn [omap list_omap]. rewrite filter_cons.
  destruct (startswith (h_content h) (lit "[Uploaded")
            || startswith (h_content h) (lit "[Loaded")) eqn:Hm.
  - rewrite decide_False by done. exact IH.
  - rewrite decide_True by done. cbn. by rewrite IH.
Qed.

(** X20. The payload sent to the provider: the system prompt first, then the
    entries of the last 15 of the history that are not upload markers, in
    their order and as text, then the current message; at most 17
    messages. The payload of the fallback call has the same roles in the
    same order. *)
Theorem payload_shape message history image_base64 csv_context csv_summary :
  let messages :=
    build_messages prompt message history image_base64 csv_context csv_summary in
  messages
  = mkChat (lit "system") (Text (prompt csv_context csv_summary))
      :: ((λ h, mkChat (h_role h) (Text (h_content h))) <$> kept_history history)
      ++ [current_message message image_base64]
  ∧ kept_history history `sublist_of` history
  ∧ (2 ≤ length messages ≤ 17)%nat
  ∧ role <$> (fallback_message <$> messages) = role <$> messages.
Proof.
  intros messages. subst messages. unfold build_messages.
  rewrite history_messages_kept.
  assert (Hs : kept_history history `sublist_of` history).
  { unfold kept_history, slice_last.
    etrans; [apply sublist_filter|apply sublist_drop]. }
  assert (Hl : (length (kept_history history) ≤ 15)%nat).
  { unfold kept_history, slice_last.
    etrans; [apply length_filter|]. rewrite length_drop. lia. }
  split; [done|]. split; [exact Hs|]. split.
  - cbn [app length]. rewrite length_app, length_fmap. cbn [length]. lia.
  - rewrite <- list_fmap_compose. apply list_fmap_ext.
    intros i [r [s|ps]] _; reflexivity.
Qed.

End WithProvider.

Lemma stream_keeps_partial_output_witness :
  let g := generate_response_stream flaky_client no_prompt (lit "hi") [] None None None in
  snd g = Ret tt
  ∧ fst <$> calls g = [model; fallback_model]
  ∧ yielded g = [lit "Hel"; lit "Hello"; lit " there"].
Proof.
  intros g.
  destruct (stream_keeps_partial_output flaky_client no_prompt (lit "hi") [] None None
              None) as (H1 & H2 & H3 & _).
  split; [exact H1|]. split.
  - subst g. rewrite H2. vm_compute. reflexivity.
  - subst g. rewrite H3. vm_compute. reflexivity.
Defined.

End StreamProps.

(** ** Refused requests *)

Module EndpointProps.
Import Repository LlmService Schemas Routes RepositorySpec RepositoryProps Examples
  RouteSpec RouteLemmas RouteProps AccessSpec AccessProps ReadSpec ReadProps
  SummaryProps EndpointSpec.

(** X26. The checks of the three upload routes come before any effect: an
    upload that is refused for its name, its type or its size, a URL that
    is refused, cannot be fetched or is too large, and a file that cannot
    be parsed, all end in an HTTP error and leave the world as it was; no
    session is created. A parse failure is reported with the text of the
    [ValueError]. *)
Theorem refused_upload_stores_nothing env read_csv complete http_get file request
    session_id w :
  (csv_accepted file = false → refused (upload_csv env read_csv file session_id w) 400 w)
  ∧ (∀ e, csv_accepted file = true →
          parse_csv read_csv (csv_text file) (csv_name file) = Raise e →
          upload_csv env read_csv file session_id w
          = (Raise (mkExn (HTTPException 400) (exn_str e)), w))
  ∧ (image_accepted file = false →
     refused (upload_image env complete file session_id w) 400 w)
  ∧ (url_accepted request = false →
     refused (load_csv_from_url env read_csv http_get request w) 400 w)
  ∧ (url_accepted request = true →
     match http_get (url_of request) with
     | TimeoutException =>
       refused (load_csv_from_url env read_csv http_get request w) 408 w
     | HTTPStatusError _ | RequestError _ =>
       refused (load_csv_from_url env read_csv http_get request w) 400 w
     | FetchFailure e =>
       load_csv_from_url env read_csv http_get request w = (Raise e, w)
     | Fetched content text =>
       (CSV_MAX_SIZE < Z.of_nat (length content) →
        refused (load_csv_from_url env read_csv http_get request w) 400 w)
       ∧ (∀ e, Z.of_nat (length content) ≤ CSV_MAX_SIZE →
               parse_csv read_csv text (url_filename (url_of request)) = Raise e →
               load_csv_from_url env read_csv http_get request w
               = (Raise (mkExn (HTTPException 400) (exn_str e)), w))
     end).
Proof.
  split; [|split; [|split; [|split]]].
  - unfold csv_accepted, csv_name, upload_csv. intros H.
    apply andb_false_iff in H as [H|H].
    + rewrite H. cbn [negb]. eexists. reflexivity.
    + apply negb_false_iff in H.
      destruct (negb _); [eexists; reflexivity|].
      rewrite H. eexists. reflexivity.
  - unfold csv_accepted, csv_name, csv_text, upload_csv. intros e H Hp.
    apply andb_true_iff in H as [H1 H2]. apply negb_true_iff in H2.
    rewrite H1, H2. cbn [negb]. rewrite Hp.
    rewrite (parse_csv_raise_class _ _ _ _ Hp). reflexivity.
  - unfold image_accepted, upload_image. intros H.
    apply andb_false_iff in H as [H|H].
    + rewrite H. cbn [negb]. eexists. reflexivity.
    + apply negb_false_iff in H.
      destruct (negb _); [eexists; reflexivity|].
      rewrite H. eexists. reflexivity.
  - unfold url_accepted, url_of, load_csv_from_url. intros H. rewrite H.
    cbn [negb]. eexists. reflexivity.
  - unfold url_accepted, url_of, load_csv_from_url. intros H. rewrite H.
    cbn [negb]. destruct (http_get (strip (ur_url request))) as [content text| |c|t|e].
    + split.
      * intros Hl. apply Z.ltb_lt in Hl. rewrite Hl. eexists. reflexivity.
      * intros e Hl Hp. apply Z.ltb_ge in Hl. rewrite Hl, Hp.
        rewrite (parse_csv_raise_class _ _ _ _ Hp). reflexivity.
    + eexists. reflexivity.
    + eexists. reflexivity.
    + eexists. reflexivity.
    + reflexivity.
Qed.

Lemma refused_upload_stores_nothing_witness :
  refused (upload_csv env0 plain_read_csv
             (mkUploadFile (Some (lit "notes.txt")) None CsvSpec.scenario) None
             initial_world) 400 initial_world
  ∧ refused (upload_image env0 describe
               (mkUploadFile (Some (lit "notes.txt")) (Some (lit "text/plain"))
                  CsvSpec.scenario) None initial_world) 400 initial_world.
Proof.
  destruct (refused_upload_stores_nothing env0 plain_read_csv describe
              (λ _, TimeoutException)
              (mkUploadFile (Some (lit "notes.txt")) (Some (lit "text/plain"))
                 CsvSpec.scenario)
              (mkCSVUrlRequest (lit "ftp://x") None) None initial_world)
    as (H1 & _ & H3 & _).
  split.
  - destruct (refused_upload_stores_nothing env0 plain_read_csv describe
                (λ _, TimeoutException)
                (mkUploadFile (Some (lit "notes.txt")) None CsvSpec.scenario)
                (mkCSVUrlRequest (lit "ftp://x") None) None initial_world)
      as (H1' & _).
    apply H1'. vm_compute. reflexivity.
  - apply H3. vm_compute. reflexivity.
Defined.

Lemma split_nonempty sep s : split sep s ≠ [].
Proof.
  destruct s as [|c s]; cbn [split]; [done|].
  destruct (split sep s); [done|]. by destruct (c =? sep)%N.
Qed.

Lemma split_segments sep s :
  Forall (λ seg, (sep ∉ seg) ∧ ∀ c, c ∈ seg → c ∈ s) (split sep s).
Proof.
  induction s as [|c s IH]; cbn [split].
  - constructor; [|constructor]. split; [apply not_elem_of_nil|].
    intros c Hc. by apply elem_of_nil in Hc.
  - destruct (split sep s) as [|cur rest] eqn:E.
    { exfalso. by apply (split_nonempty sep s). }
    apply Forall_cons in IH as [[Hc1 Hc2] Hr].
    assert (Hr' : Forall (λ seg, (sep ∉ seg) ∧ ∀ c0, c0 ∈ seg → c0 ∈ c :: s) rest).
    { eapply Forall_impl; [exact Hr|]. cbn. intros seg [Hs1 Hs2]. split; [done|].
      intros c0 Hc0. right. by apply Hs2. }
    destruct (c =? sep)%N eqn:Hcs.
    + constructor.
      { split; [apply not_elem_of_nil|]. intros c0 Hc0. by apply elem_of_nil in Hc0. }
      constructor; [|exact Hr'].
      split; [done|]. intros c0 Hc0. right. by apply Hc2.
    + apply N.eqb_neq in Hcs. constructor; [|exact Hr'].
      split.
      { rewrite elem_of_cons. intros [Heq|Hin]; [by subst|done]. }
      intros c0 Hc0. apply elem_of_cons in Hc0 as [->|Hc0]; [left|right; by apply Hc2].
Qed.

(** X28. The file name that [load_csv_from_url] derives from a URL always ends
    in [.csv] and holds neither a slash nor a question mark. *)
Theorem url_file_name_is_plain url :
  endswith (url_filename url) (lit ".csv") = true
  ∧ (47%N ∉ url_filename url)
  ∧ (63%N ∉ url_filename url).
Proof.
  unfold url_filename.
  set (tail := default [] (last (split 47 url))).
  set (name := default [] (split 63 tail !! 0%nat)).
  assert (Ht : 47%N ∉ tail).
  { subst tail. pose proof (split_segments 47 url) as H.
    destruct (last (split 47 url)) as [seg|] eqn:E; cbn [default].
    - rewrite Forall_forall in H. apply (H seg). by apply last_Some_elem_of.
    - apply not_elem_of_nil. }
  assert (Hn : (63%N ∉ name) ∧ ∀ c, c ∈ name → c ∈ tail).
  { subst name. pose proof (split_segments 63 tail) as H.
    destruct (split 63 tail !! 0%nat) as [seg|] eqn:E; cbn [default].
    - rewrite Forall_forall in H. apply (H seg). by eapply list_elem_of_lookup_2.
    - split; [apply not_elem_of_nil|]. intros c Hc. by apply elem_of_nil in Hc. }
  destruct (endswith name (lit ".csv")) eqn:He; cbn [negb].
  - split; [done|]. split; [|apply Hn]. intros H. apply Ht. by apply Hn.
  - split; [vm_compute; reflexivity|].
    split; vm_compute; intros H; repeat (apply elem_of_cons in H as [H|H]; [done|]);
      by apply elem_of_nil in H.
Qed.

Lemma session_not_found_run {A} (w : World) :
  @session_not_found A w
  = (Raise (mkExn (HTTPException 404) (lit "Session not found")), w).
Proof. reflexivity. Qed.

(** X24. Every route that works on a given session answers 404, "Session not
    found", when the session does not exist, and stores nothing. *)
Theorem unknown_session_is_not_found env validation_error k w :
  conversations (committed w) !! k = None →
  not_found (get_history (healthy env) k w) w
  ∧ not_found (delete_session (healthy env) k w) w
  ∧ not_found (get_session_detail (healthy env) k w) w
  ∧ not_found (delete_session_endpoint (healthy env) k w) w
  ∧ not_found (get_context_info (healthy env) validation_error k w) w
  ∧ not_found (clear_context (healthy env) k w) w
  ∧ not_found (clear_csv (healthy env) k w) w
  ∧ not_found (clear_image (healthy env) k w) w.
Proof.
  intros Hk. pose proof (get_conversation_absent env k w Hk) as H.
  unfold not_found, get_history, delete_session, get_session_detail,
    delete_session_endpoint, get_context_info, clear_context, clear_csv, clear_image.
  rewrite !(bind_ret _ _ _ _ _ H), !session_not_found_run. cbn [fst snd settled committed].
  repeat split.
Qed.

Lemma unknown_session_is_not_found_witness :
  not_found (get_history (healthy env0) (lit "ghost") one_session) one_session
  ∧ not_found (clear_context (healthy env0) (lit "ghost") one_session) one_session.
Proof.
  assert (Hk : conversations (committed one_session) !! lit "ghost" = None)
    by (vm_compute; reflexivity).
  destruct (unknown_session_is_not_found env0 (mkExn OtherError empty) (lit "ghost")
              one_session Hk) as (H1 & _ & _ & _ & _ & H6 & _).
  split; [exact H1|exact H6].
Defined.

End EndpointProps.

(** ** Chat turns and the context route *)

Module TurnProps.
Import Repository LlmService Schemas Routes RepositorySpec RepositoryProps Examples
  StoreSpec ClearSpec ClearProps TitleSpec RouteSpec RouteLemmas RouteProps AccessSpec
  AccessProps ReadSpec ReadProps StreamSpec StreamProps EndpointSpec EndpointProps
  TurnSpec.

Lemma add_message_returns env k role content image_url csv_data chart_data w md w' :
  add_message env k role content image_url csv_data chart_data None w = (Ret md, w') →
  appended (committed w) (committed w') k role content.
Proof.
  unfold add_message, appended. run; intros H; try discriminate H;
    injection H as <- <-; eexists; simpl; repeat split.
Qed.

(** X22. The stream of one chat turn is well formed whatever the database
    does: the session event, one chunk event per chunk of the model's
    answer, then exactly one closing event. The closing event is [done]
    only when the assistant's message, the concatenation of the chunks, was
    stored; otherwise it is an [error] event whose text starts with
    "Error: ". *)
Theorem stream_events_are_well_formed env client prompt request sid history image
    csv_context csv_summary w :
  let r := generate env client prompt request sid history image csv_context
             csv_summary w in
  let chunks :=
    yielded (generate_response_stream client prompt (message request)
               (slice_but_last history) image csv_context csv_summary) in
  ∃ final,
    fst r = Ret (SessionEvent sid :: (ChunkEvent <$> chunks) ++ [final])
    ∧ ((final = DoneEvent sid
        ∧ appended (committed w) (committed (snd r)) sid (lit "assistant")
            (concat chunks))
       ∨ ∃ text, final = ErrorEvent (lit "Error: " ++ text)).
Proof.
  intros r chunks. subst r. unfold generate. fold chunks.
  rewrite generate_response_stream_returns.
  unfold try_except, mbind, M_bind, mret, M_ret.
  destruct (add_message env sid (lit "assistant") (concat chunks) None None None None w)
    as [[md|e] w1] eqn:Ha; cbn [fst snd].
  - exists (DoneEvent sid). split; [done|]. left. split; [done|].
    by eapply add_message_returns.
  - exists (ErrorEvent (lit "Error: " ++ exn_str e)). split; [done|]. right. eauto.
Qed.

Lemma get_conversation_present env k w c :
  conversations (committed w) !! k = Some c →
  ∃ dict w', get_conversation (healthy env) k None w = (Ret (Some dict), w')
             ∧ committed w' = committed w ∧ uuid_draws w' = uuid_draws w.
Proof.
  intros H. unfold get_conversation. run_healthy. rewrite H.
  eexists _, _. split; [reflexivity|done].
Qed.

Lemma reads_value {A} (m : M A) w v :
  (∃ r t, m w = (Ret r, settled (committed w) (clock_reads w) (uuid_draws w) t)) →
  fst (m w) = Ret v →
  ∃ w', m w = (Ret v, w') ∧ committed w' = committed w ∧ uuid_draws w' = uuid_draws w.
Proof.
  intros (r & t & H) Hv. rewrite H in Hv. injection Hv as ->.
  eexists. split; [exact H|done].
Qed.

Lemma assistant_is_not_user : str_eqb (lit "assistant") (lit "user") = false.
Proof. vm_compute. reflexivity. Qed.

Lemma next_title_assistant c content : next_title c (lit "assistant") content = c_title c.
Proof.
  unfold next_title, derives_title. rewrite assistant_is_not_user.
  by rewrite andb_false_r.
Qed.

(** X23. A chat turn on a session that exists: no session is created, exactly
    two messages are appended to that session, the user's and then the
    assistant's, which is the concatenation of the chunks sent; the model
    is given the image pasted with the request if there is one and the
    stored image otherwise, and nothing pasted is stored; the title is
    derived from the user's message under the rule of [add_message]; the
    other sessions and all contexts are left as they were. *)
Theorem chat_turn_on_existing_session env client prompt request sid w c :
  session_id request = Some sid →
  truthy sid = true →
  conversations (committed w) !! sid = Some c →
  let m1 := uuid_src env (uuid_draws w) in
  let m2 := uuid_src env (S (uuid_draws w)) in
  NoDup ([m1; m2] ++ message_ids (committed w)) →
  ∃ history csv_context w' t1 t2,
    let chunks :=
      yielded (generate_response_stream client prompt (message request) history
                 (image_for request (committed w) sid) csv_context
                 (c_csv_summary c)) in
    send_message_stream (healthy env) client prompt request w
    = (Ret (SessionEvent sid :: (ChunkEvent <$> chunks) ++ [DoneEvent sid]), w')
    ∧ messages (committed w')
      = messages (committed w)
        ++ [ mkMessage m1 sid (lit "user") (message request) t1 None None None;
             mkMessage m2 sid (lit "assistant") (concat chunks) t2 None None None ]
    ∧ uuid_draws w' = S (S (uuid_draws w))
    ∧ title_of (committed w') sid
      = Some (next_title c (lit "user") (message request))
    ∧ (∀ k, k ≠ sid → conversations (committed w') !! k = conversations (committed w) !! k)
    ∧ image_contexts (committed w') = image_contexts (committed w)
    ∧ csv_contexts (committed w') = csv_contexts (committed w).
Proof.
  intros Hreq Hsid Hc m1 m2 Hnd.
  apply NoDup_two_fresh in Hnd as (Hm1 & Hm2 & Hne).
  destruct (get_conversation_present env sid w c Hc) as (dict & w1 & H1 & Hd1 & Hu1).
  assert (Hgoc : get_or_create (healthy env) (session_id request) w = (Ret sid, w1)).
  { unfold get_or_create. rewrite Hreq. cbn [truthy_opt default]. rewrite Hsid.
    by rewrite (bind_ret _ _ _ _ _ H1). }
  unfold send_message_stream. fold (get_or_create (healthy env) (session_id request)).
  rewrite (bind_ret _ _ _ _ _ Hgoc).
  destruct (add_message_ok' env sid (lit "user") (message request) None None None w1 c)
    as (w2 & ts1 & up1 & H2 & Hd2 & Hu2).
  { by rewrite Hd1. }
  { by rewrite Hu1, Hd1. }
  cbv zeta in H2. rewrite Hu1 in H2, Hd2. fold m1 in H2, Hd2. rewrite Hd1 in Hd2.
  rewrite (bind_ret _ _ _ _ _ H2).
  set (c1 := set_title (next_title c (lit "user") (message request))
               (set_updated_at up1 c)).
  set (msg1 := mkMessage m1 sid (lit "user") (message request) ts1 None None None) in *.
  assert (Hc2 : conversations (committed w2) !! sid = Some c1).
  { rewrite Hd2, conversations_add. cbn [m_conversation_id msg1]. by rewrite decide_True. }
  assert (Hi2 : image_contexts (committed w2) = image_contexts (committed w)).
  { by rewrite Hd2. }
  assert (Hx2 : csv_contexts (committed w2) = csv_contexts (committed w)).
  { by rewrite Hd2. }
  destruct (reads_value _ w2 _ (get_active_image_reads env sid w2)
              (get_active_image_value env sid w2)) as (w3 & H3 & Hd3 & Hu3).
  rewrite (bind_ret _ _ _ _ _ H3).
  destruct (reads_keep _ _ (get_active_csv_reads env sid w3)) as (ac & w4 & H4 & Hd4 & Hu4).
  rewrite (bind_ret _ _ _ _ _ H4).
  destruct (reads_value _ w4 _ (get_csv_summary_reads env sid w4)
              (get_csv_summary_value env sid w4)) as (w5 & H5 & Hd5 & Hu5).
  rewrite (bind_ret _ _ _ _ _ H5).
  destruct (reads_keep _ _ (get_message_history_reads env sid 20 w5))
    as (hs & w6 & H6 & Hd6 & Hu6).
  rewrite (bind_ret _ _ _ _ _ H6).
  assert (Hsum : conversations (committed w4) !! sid ≫= c_csv_summary = c_csv_summary c).
  { rewrite Hd4, Hd3, Hc2. subst c1. by destruct c. }
  rewrite Hsum, Hi2.
  fold (image_for request (committed w) sid).
  unfold generate.
  set (g := generate_response_stream _ _ _ _ _ _ _).
  assert (Hg : snd g = Ret tt) by apply generate_response_stream_returns.
  rewrite Hg.
  assert (Hc6 : committed w6 = committed w2) by (by rewrite Hd6, Hd5, Hd4, Hd3).
  assert (Hdr : uuid_draws w6 = S (uuid_draws w)).
  { by rewrite Hu6, Hu5, Hu4, Hu3, Hu2, Hu1. }
  destruct (add_message_ok' env sid (lit "assistant") (concat (yielded g)) None None None
              w6 c1) as (w7 & ts2 & up2 & H7 & Hd7 & Hu7).
  { by rewrite Hc6. }
  { rewrite Hdr, Hc6, Hd2, message_ids_add. fold m2. cbn [m_id msg1].
    rewrite elem_of_app, list_elem_of_singleton. intros [H|H]; [exact (Hm2 H)|].
    by apply Hne. }
  cbv zeta in H7. rewrite Hdr in H7, Hd7. fold m2 in H7, Hd7.
  erewrite bind_ret; [|apply try_except_ret; rewrite (bind_ret _ _ _ _ _ H7); reflexivity].
  exists (slice_but_last hs), ac, w7, ts1, ts2. cbv zeta. fold g.
  split; [reflexivity|].
  rewrite Hd7, Hc6. split; [|split; [|split; [|split; [|split]]]].
  - unfold add_message_db at 1, set_messages. cbn [messages]. rewrite Hd2.
    unfold add_message_db, set_messages. cbn [messages].
    unfold set_conversations. cbn [messages]. by rewrite <- app_assoc.
  - by rewrite Hu7, Hdr.
  - unfold title_of. rewrite conversations_add. cbn [m_conversation_id].
    rewrite decide_True by done. cbn [fmap option_fmap option_map].
    cbn [m_role m_content]. rewrite next_title_assistant. subst c1. by destruct c.
  - intros k Hk. rewrite conversations_add. cbn [m_conversation_id].
    rewrite decide_False by done. rewrite Hd2, conversations_add.
    cbn [m_conversation_id msg1]. by rewrite decide_False.
  - unfold add_message_db, set_messages, set_conversations. cbn [image_contexts].
    exact Hi2.
  - unfold add_message_db, set_messages, set_conversations. cbn [csv_contexts].
    exact Hx2.
Qed.

Lemma chat_turn_on_existing_session_witness :
  ∃ events w',
    send_message_stream (healthy env0) echo_client plain_prompt
      (mkChatRequest (lit "hello") (Some (lit "id-0")) None) one_session
    = (Ret events, w')
    ∧ length (messages (committed w')) = 2%nat
    ∧ title_of (committed w') (lit "id-0") = Some (Some (lit "hello")).
Proof.
  destruct (chat_turn_on_existing_session env0 echo_client plain_prompt
              (mkChatRequest (lit "hello") (Some (lit "id-0")) None) (lit "id-0")
              one_session (new_conversation (lit "id-0") 0 1))
    as (history & ac & w' & t1 & t2 & Hrun & Hm & _ & Ht & _).
  - reflexivity.
  - vm_compute. reflexivity.
  - vm_compute. reflexivity.
  - apply (bool_decide_unpack _). vm_compute. reflexivity.
  - eexists _, w'. split; [exact Hrun|].
    split; [rewrite Hm; reflexivity|].
    rewrite Ht. vm_compute. reflexivity.
Defined.

Lemma cleared_conversation t1 t2 k d c :
  conversations d !! k = Some c →
  conversations (clear_csv_db t2 k (clear_image_db t1 k d)) !! k
  = Some ((set_updated_at t2 ∘ set_csv_flags false None None)
            ((set_updated_at t1 ∘ set_image_flags false None) c)).
Proof.
  intros Hc. rewrite clear_csv_db_eq, clear_image_db_eq. cbn [conversations].
  by rewrite !lookup_alter_eq, Hc.
Qed.

(** X25. Clearing the context of a session through the route empties both
    slots, leaves the title as it was, and appends one assistant message,
    the notice; the notice is not an upload marker, so it stays in the
    history sent to the model. *)
Theorem clear_context_empties_and_notes env k w c :
  conversations (committed w) !! k = Some c →
  uuid_src env (uuid_draws w) ∉ message_ids (committed w) →
  let r := clear_context (healthy env) k w in
  fst r = Ret (mkSuccessResponse (lit "Context cleared successfully") true)
  ∧ appended (committed w) (committed (snd r)) k (lit "assistant") cleared_notice
  ∧ fst (get_conversation_context (healthy env) k None (snd r))
    = Ret (Some (mkContextInfo false None false None None))
  ∧ fst (get_active_image (healthy env) k None (snd r)) = Ret None
  ∧ fst (get_active_csv (healthy env) k None (snd r)) = Ret None
  ∧ title_of (committed (snd r)) k = title_of (committed w) k
  ∧ upload_marker cleared_notice = false.
Proof.
  intros Hc Hf r.
  destruct (get_conversation_present env k w c Hc) as (dict & w1 & H1 & Hd1 & Hu1).
  destruct (clear_all_context_own env k w1) as (t1 & t2 & cr & tr & H2).
  set (d2 := clear_csv_db t2 k (clear_image_db t1 k (committed w1))) in *.
  set (w2 := settled d2 cr (uuid_draws w1) tr) in *.
  set (c2 := (set_updated_at t2 ∘ set_csv_flags false None None)
               ((set_updated_at t1 ∘ set_image_flags false None) c)).
  assert (Hc2 : conversations (committed w2) !! k = Some c2).
  { subst w2 d2. cbn [settled committed]. apply cleared_conversation. by rewrite Hd1. }
  assert (Hm2 : messages (committed w2) = messages (committed w)).
  { subst w2 d2. cbn [settled committed].
    rewrite clear_csv_db_eq, clear_image_db_eq. cbn [messages]. by rewrite Hd1. }
  destruct (add_message_ok' env k (lit "assistant") cleared_notice None None None w2 c2
              Hc2) as (w3 & ts & up & H3 & Hd3 & Hu3).
  { subst w2. cbn [settled uuid_draws]. rewrite Hu1.
    unfold message_ids in *. cbn [settled committed] in Hm2. cbn [settled committed].
    by rewrite Hm2. }
  cbv zeta in H3.
  assert (Hr : r = (Ret (mkSuccessResponse (lit "Context cleared successfully") true), w3)).
  { subst r. unfold clear_context. rewrite (bind_ret _ _ _ _ _ H1).
    rewrite (bind_ret _ _ _ _ _ H2). fold cleared_notice.
    by rewrite (bind_ret _ _ _ _ _ H3). }
  rewrite Hr. cbn [fst snd].
  assert (Hk : conversations (committed w3) !! k
               = Some (set_title (c_title c2) (set_updated_at up c2))).
  { rewrite Hd3, conversations_add. cbn [m_conversation_id m_role m_content].
    rewrite decide_True by done. by rewrite next_title_assistant. }
  split; [done|]. split.
  { eexists. rewrite Hd3. unfold add_message_db, set_messages, set_conversations.
    cbn [messages]. rewrite Hm2. split; [reflexivity|done]. }
  split.
  { rewrite get_conversation_context_value, Hk. reflexivity. }
  split.
  { apply get_active_image_absent. rewrite Hd3.
    unfold add_message_db, set_messages, set_conversations. cbn [image_contexts].
    subst w2 d2. cbn [settled committed]. apply cleared_slots. }
  split.
  { apply get_active_csv_absent. rewrite Hd3.
    unfold add_message_db, set_messages, set_conversations. cbn [csv_contexts].
    subst w2 d2. cbn [settled committed]. apply cleared_slots. }
  split.
  { unfold title_of. rewrite Hk, Hc. subst c2. by destruct c. }
  vm_compute. reflexivity.
Qed.

Lemma clear_context_empties_and_notes_witness :
  let w := snd (set_active_image (healthy env0) (lit "id-0") (lit "aGk=") (lit "p.png")
                  None one_session) in
  let r := clear_context (healthy env0) (lit "id-0") w in
  is_Some (image_contexts (committed w) !! lit "id-0")
  ∧ fst r = Ret (mkSuccessResponse (lit "Context cleared successfully") true)
  ∧ fst (get_active_image (healthy env0) (lit "id-0") None (snd r)) = Ret None.
Proof.
  intros w r. split; [vm_compute; eauto|].
  assert (Hc : ∃ c, conversations (committed w) !! lit "id-0" = Some c)
    by (vm_compute; eauto).
  destruct Hc as [c Hc].
  assert (Hf : uuid_src env0 (uuid_draws w) ∉ message_ids (committed w)).
  { vm_compute. apply not_elem_of_nil. }
  destruct (clear_context_empties_and_notes env0 (lit "id-0") w c Hc Hf)
    as (H1 & _ & _ & H4 & _).
  split; [exact H1|exact H4].
Defined.

End TurnProps.

(** ** The listing *)

Module ListingProps.
Import Repository RepositorySpec RepositoryProps Examples StoreSpec RouteSpec RouteLemmas
  RouteProps AccessSpec AccessProps ReadSpec ReadProps.

Lemma for_each_query_run env {A B} (f : Conversation → DB → A)
    (g : Conversation → A → B) (convs : list Conversation) (w : World) :
  for_each (λ conv, a ← query (healthy env) (f conv); mret (g conv a)) convs w
  = (Ret ((λ conv, g conv (f conv (pending w))) <$> convs),
     mkWorld (committed w) (pending w) (session_new w) (session_deleted w)
       (clock_reads w) (uuid_draws w) (length convs + db_trips w)).
Proof.
  revert w. induction convs as [|conv convs IH]; intros w.
  - by destruct w.
  - cbn [for_each]. unfold mbind at 1, M_bind at 1.
    unfold query at 1, round_trip, gets, mbind at 1, M_bind at 1, mbind at 1, M_bind at 1.
    cbn [healthy db_fault mret M_ret]. unfold mret at 1, M_ret at 1.
    rewrite (bind_ret _ _ _ _ _ (IH _)). unfold mret, M_ret.
    cbn [fmap list_fmap length committed pending session_new session_deleted
         clock_reads uuid_draws db_trips].
    by rewrite Nat.add_succ_r.
Qed.

Lemma get_all_conversations_value env w :
  fst (get_all_conversations (healthy env) None w)
  = Ret (list_item (committed w)
           <$> order_by_updated_at_desc (all_conversations (committed w))).
Proof.
  unfold get_all_conversations, with_db, get_db_session, try_finally, close, modify.
  unfold mbind at 1, M_bind at 1, mbind at 1, M_bind at 1, mret at 1, M_ret at 1.
  cbn beta iota.
  unfold mbind at 1, M_bind at 1, query at 1, round_trip, gets.
  unfold mbind at 1, M_bind at 1. cbn [healthy db_fault db_trips abandon].
  cbn beta iota.
  rewrite (for_each_query_run env (λ conv, messages_of (c_id conv))
             (λ conv msgs, mkConversationListItem (c_id conv) (c_created_at conv)
                (c_updated_at conv) (Z.of_nat (length msgs)) (preview_of msgs)
                (c_has_active_image conv) (c_has_active_csv conv))).
  reflexivity.
Qed.

Lemma lit_dots : lit "..." = [46; 46; 46]%N.
Proof. reflexivity. Qed.

Lemma preview_of_bounded msgs :
  (length (preview_of msgs) ≤ 53)%nat ∧ startswith (preview_of msgs) (lit "[") = false.
Proof.
  induction msgs as [|msg msgs IH]; cbn [preview_of].
  - split; [vm_compute; lia|vm_compute; reflexivity].
  - destruct (str_eqb (m_role msg) (lit "user")
              && negb (startswith (m_content msg) (lit "["))) eqn:Hp; [|exact IH].
    apply andb_true_iff in Hp as [_ Hp]. apply negb_true_iff in Hp.
    unfold slice_to. split.
    + rewrite length_app, length_take.
      destruct (50 <? length (m_content msg))%nat; [rewrite lit_dots|]; cbn [length empty];
        lia.
    + destruct (m_content msg) as [|ch rest] eqn:Hm; [reflexivity|].
      cbn [take app]. rewrite InvariantProps.lit_bracket in *.
      cbn [startswith] in *.
      assert (He : ∀ x : str, startswith x [] = true) by (by intros [|??]).
      by rewrite He in *.
Qed.

(** X6. [get_all_conversations] lists every session once, the most recently
    updated first, each with the number of its messages and a preview of at
    most 53 code points that never starts with a bracket. *)
Theorem conversations_listed_latest_first env w :
  ∃ convs,
    fst (get_all_conversations (healthy env) None w)
    = Ret (list_item (committed w) <$> convs)
    ∧ convs ≡ₚ all_conversations (committed w)
    ∧ length convs = size (conversations (committed w))
    ∧ StronglySorted (λ a b, c_updated_at b ≤ c_updated_at a) convs
    ∧ Forall (λ item, (length (li_preview item) ≤ 53)%nat
                      ∧ startswith (li_preview item) (lit "[") = false)
             (list_item (committed w) <$> convs).
Proof.
  exists (order_by_updated_at_desc (all_conversations (committed w))).
  split; [apply get_all_conversations_value|].
  assert (Hp : order_by_updated_at_desc (all_conversations (committed w))
               ≡ₚ all_conversations (committed w))
    by apply merge_sort_Permutation.
  split; [exact Hp|]. split.
  { rewrite Hp. unfold all_conversations. by rewrite length_fmap, length_map_to_list. }
  split.
  { apply (StronglySorted_merge_sort updated_not_before). }
  apply Forall_fmap, Forall_forall. intros conv _. cbn [li_preview list_item].
  apply preview_of_bounded.
Qed.

Lemma forget_after_update t k d :
  forget_updated_at k (set_conversations (alter (set_updated_at t) k) d)
  = forget_updated_at k d.
Proof.
  unfold forget_updated_at, set_conversations. cbn. f_equal.
  rewrite alter_twice. apply map_eq. intros i. rewrite !lookup_alter.
  case_decide; [|done]. by destruct (conversations d !! k).
Qed.

(** X7. [update_conversation_timestamp] changes nothing but the last-update
    time of the session, whatever the database does, and nothing at all
    when the session does not exist; with a working database the time
    becomes the current one. *)
Theorem update_timestamp_touches_only_the_time env k w :
  let r := update_conversation_timestamp env k None w in
  let r' := update_conversation_timestamp (healthy env) k None w in
  forget_updated_at k (committed (snd r)) = forget_updated_at k (committed w)
  ∧ (conversations (committed w) !! k = None → committed (snd r) = committed w)
  ∧ fst r' = Ret tt
  ∧ c_updated_at <$> conversations (committed (snd r')) !! k
    = (λ _, clock env (clock_reads w)) <$> conversations (committed w) !! k.
Proof.
  intros r r'. subst r r'. split; [|split; [|split]].
  - unfold update_conversation_timestamp. run; try reflexivity.
    all: apply forget_after_update.
  - intros Hk. unfold update_conversation_timestamp. run; try reflexivity.
    all: congruence.
  - unfold update_conversation_timestamp. run_healthy.
    by destruct (conversations (committed w) !! k).
  - unfold update_conversation_timestamp. run_healthy.
    destruct (conversations (committed w) !! k) as [c|] eqn:Hc; cbn.
    + by rewrite lookup_alter_eq, Hc.
    + by rewrite Hc.
Qed.

End ListingProps.

(** ** Uploads to a session that exists *)

Module UploadProps.
Import Repository LlmService Schemas Routes RepositorySpec RepositoryProps Examples
  StoreSpec TitleSpec RouteSpec RouteLemmas RouteProps AccessSpec AccessProps ReadSpec
  ReadProps EndpointSpec EndpointProps TurnSpec TurnProps UploadSpec.

Lemma bind_raise {A B} (m : M A) (f : A → M B) w e w' :
  m w = (Raise e, w') → (m ≫= f) w = (Raise e, w').
Proof. intros H. unfold mbind, M_bind. by rewrite H. Qed.

Lemma startswith_app (p s : str) : startswith (p ++ s) p = true.
Proof.
  induction p as [|c p IH]; [by destruct s|].
  cbn [app startswith]. by rewrite N.eqb_refl, IH.
Qed.

Lemma startswith_prefix (p q s : str) :
  startswith (p ++ q ++ s) p = true.
Proof. apply startswith_app. Qed.

Lemma uploaded_csv_marker_marks filename :
  upload_marker (uploaded_csv_marker filename) = true
  ∧ startswith (uploaded_csv_marker filename) (lit "[") = true.
Proof.
  unfold upload_marker, uploaded_csv_marker.
  assert (H1 : lit "[Uploaded CSV: " = lit "[Uploaded" ++ lit " CSV: ")
    by (vm_compute; reflexivity).
  assert (H2 : lit "[Uploaded CSV: " = lit "[" ++ lit "Uploaded CSV: ")
    by (vm_compute; reflexivity).
  split.
  - rewrite H1, <- app_assoc, startswith_app. reflexivity.
  - rewrite H2, <- app_assoc. apply startswith_app.
Qed.

Lemma loaded_csv_marker_marks filename :
  upload_marker (loaded_csv_marker filename) = true
  ∧ startswith (loaded_csv_marker filename) (lit "[") = true.
Proof.
  unfold upload_marker, loaded_csv_marker.
  assert (H1 : lit "[Loaded CSV from URL: " = lit "[Loaded" ++ lit " CSV from URL: ")
    by (vm_compute; reflexivity).
  assert (H2 : lit "[Loaded CSV from URL: " = lit "[" ++ lit "Loaded CSV from URL: ")
    by (vm_compute; reflexivity).
  split.
  - rewrite H1, <- app_assoc, startswith_app. apply orb_true_r.
  - rewrite H2, <- app_assoc. apply startswith_app.
Qed.

Lemma next_title_marker c role content :
  startswith content (lit "[") = true → next_title c role content = c_title c.
Proof.
  intros H. unfold next_title, derives_title. rewrite H. cbn [negb].
  by rewrite andb_false_r.
Qed.

(** The three steps that end [upload_csv] and [load_csv_from_url]. *)
Lemma store_csv_and_announce {A} env k csv_data filename summary marker info body
    (resp : A) w c :
  conversations (committed w) !! k = Some c →
  upload_marker marker = true →
  startswith marker (lit "[") = true →
  NoDup ([uuid_src env (uuid_draws w); uuid_src env (S (uuid_draws w))]
           ++ message_ids (committed w)) →
  ∃ w',
    (set_active_csv (healthy env) k csv_data filename summary None;;
     add_message (healthy env) k (lit "user") marker None info None None;;
     add_message (healthy env) k (lit "assistant") body None None None None;;
     mret resp) w
    = (Ret resp, w')
    ∧ table_loaded env w w' k csv_data filename summary marker.
Proof.
  intros Hc Hmark Hbr Hnd.
  apply NoDup_two_fresh in Hnd as (Hm1 & Hm2 & Hne).
  destruct (set_active_csv_runs env k csv_data filename summary w c Hc) as (t & H1).
  set (tx := clock env (clock_reads w)) in *.
  set (ty := clock env (S (clock_reads w))) in *.
  set (d1 := set_active_csv_db k csv_data filename summary tx ty (committed w)) in *.
  set (w1 := settled d1 (S (S (clock_reads w))) (uuid_draws w) t) in *.
  set (c1 := set_updated_at ty (set_csv_flags true (Some filename) (Some summary) c)).
  assert (Hc1 : conversations (committed w1) !! k = Some c1).
  { subst w1 d1. cbn [settled committed].
    unfold set_active_csv_db, set_csv_contexts, set_conversations. cbn [conversations].
    by rewrite !lookup_alter_eq, Hc. }
  assert (Hms1 : messages (committed w1) = messages (committed w)) by reflexivity.
  destruct (add_message_ok' env k (lit "user") marker None info None w1 c1 Hc1)
    as (w2 & ts1 & up1 & H2 & Hd2 & Hu2).
  { unfold message_ids. by rewrite Hms1. }
  cbv zeta in H2. change (uuid_draws w1) with (uuid_draws w) in H2, Hd2, Hu2.
  set (msg1 := mkMessage (uuid_src env (uuid_draws w)) k (lit "user") marker ts1 None
                 info None) in *.
  set (c2 := set_title (next_title c1 (lit "user") marker) (set_updated_at up1 c1)).
  assert (Hc2 : conversations (committed w2) !! k = Some c2).
  { rewrite Hd2, conversations_add. cbn [m_conversation_id msg1]. by rewrite decide_True. }
  destruct (add_message_ok' env k (lit "assistant") body None None None w2 c2 Hc2)
    as (w3 & ts2 & up2 & H3 & Hd3 & Hu3).
  { rewrite Hu2, Hd2, message_ids_add. cbn [m_id msg1].
    rewrite elem_of_app, list_elem_of_singleton. unfold message_ids in *.
    rewrite Hms1. intros [H|H]; [exact (Hm2 H)|]. by apply Hne. }
  cbv zeta in H3. rewrite Hu2 in H3, Hd3, Hu3.
  set (msg2 := mkMessage (uuid_src env (S (uuid_draws w))) k (lit "assistant") body ts2
                 None None None) in *.
  exists w3. split.
  { rewrite (bind_ret _ _ _ _ _ H1), (bind_ret _ _ _ _ _ H2), (bind_ret _ _ _ _ _ H3).
    reflexivity. }
  assert (Hx3 : csv_contexts (committed w3)
                = <[k := csv_context_row k csv_data filename summary tx]>
                    (csv_contexts (committed w))).
  { rewrite Hd3. unfold add_message_db, set_messages, set_conversations.
    cbn [csv_contexts]. rewrite Hd2. reflexivity. }
  assert (Hk3 : conversations (committed w3) !! k
                = Some (set_title (next_title c2 (lit "assistant") body)
                          (set_updated_at up2 c2))).
  { rewrite Hd3, conversations_add. cbn [m_conversation_id msg2 m_role m_content].
    by rewrite decide_True. }
  unfold table_loaded. split; [|split; [|split; [|split; [|split; [|split; [|split]]]]]].
  - rewrite (get_active_csv_present env k w3
               (csv_context_row k csv_data filename summary tx)); [reflexivity|].
    rewrite Hx3. apply lookup_insert_eq.
  - rewrite get_csv_summary_value, Hk3. reflexivity.
  - exists msg1, msg2. split; [|done].
    rewrite Hd3. unfold add_message_db at 1, set_messages. cbn [messages].
    rewrite Hd2. unfold add_message_db, set_messages, set_conversations.
    cbn [messages]. rewrite Hms1. by rewrite <- app_assoc.
  - exact Hmark.
  - unfold title_of. rewrite Hk3, Hc. cbn [fmap option_fmap option_map].
    rewrite next_title_assistant. subst c2. cbn [c_title set_title set_updated_at].
    rewrite (next_title_marker _ _ _ Hbr). subst c1. by destruct c.
  - exact Hu3.
  - rewrite Hd3. unfold add_message_db, set_messages, set_conversations.
    cbn [image_contexts]. rewrite Hd2. reflexivity.
  - intros j Hj. split.
    + rewrite Hd3, conversations_add. cbn [m_conversation_id msg2].
      rewrite decide_False by done. rewrite Hd2, conversations_add.
      cbn [m_conversation_id msg1]. rewrite decide_False by done.
      subst w1 d1. cbn [settled committed].
      unfold set_active_csv_db, set_csv_contexts, set_conversations. cbn [conversations].
      by rewrite !lookup_alter_ne.
    + rewrite Hx3. by apply lookup_insert_ne.
Qed.

Lemma get_or_create_known env sid w c :
  truthy sid = true →
  conversations (committed w) !! sid = Some c →
  ∃ w1, get_or_create (healthy env) (Some sid) w = (Ret sid, w1)
        ∧ committed w1 = committed w ∧ uuid_draws w1 = uuid_draws w.
Proof.
  intros Hsid Hc.
  destruct (get_conversation_present env sid w c Hc) as (dict & w1 & H1 & Hd1 & Hu1).
  exists w1. split; [|done].
  unfold get_or_create. cbn [truthy_opt default]. rewrite Hsid.
  by rewrite (bind_ret _ _ _ _ _ H1).
Qed.

Lemma table_loaded_from env w w1 w' k csv_data filename summary marker :
  committed w1 = committed w → uuid_draws w1 = uuid_draws w →
  table_loaded env w1 w' k csv_data filename summary marker →
  table_loaded env w w' k csv_data filename summary marker.
Proof. unfold table_loaded. intros -> ->. done. Qed.

(** X27. Uploading a table to a session that exists makes it the active table
    of that session, in place of any earlier one, and appends the marker
    and the acknowledgment; the marker is an upload marker, so it changes
    no title and is kept out of the history sent to the model. *)
Theorem upload_csv_into_existing_session env read_csv file sid w c csv_data summary :
  truthy sid = true →
  conversations (committed w) !! sid = Some c →
  csv_accepted file = true →
  parse_csv read_csv (csv_text file) (csv_name file) = Ret (csv_data, summary) →
  NoDup ([uuid_src env (uuid_draws w); uuid_src env (S (uuid_draws w))]
           ++ message_ids (committed w)) →
  ∃ w',
    upload_csv (healthy env) read_csv file (Some sid) w
    = (Ret (mkCSVUploadResponse sid
              (lit "CSV '" ++ csv_name file ++ lit "' loaded successfully!")
              (csv_name file) summary), w')
    ∧ table_loaded env w w' sid csv_data (csv_name file) (sm_text_summary summary)
        (uploaded_csv_marker (csv_name file)).
Proof.
  intros Hsid Hc Hacc Hparse Hnd.
  unfold csv_accepted in Hacc. apply andb_true_iff in Hacc as [Hext Hsize].
  apply negb_true_iff in Hsize.
  unfold upload_csv. cbv zeta. fold (csv_name file). fold (csv_text file).
  rewrite Hext, Hsize, Hparse. cbn [negb].
  fold (get_or_create (healthy env) (Some sid)).
  destruct (get_or_create_known env sid w c Hsid Hc) as (w1 & H1 & Hd1 & Hu1).
  rewrite (bind_ret _ _ _ _ _ H1).
  fold (uploaded_csv_marker (csv_name file)).
  destruct (uploaded_csv_marker_marks (csv_name file)) as [Hmark Hbr].
  match goal with
  | |- context [add_message _ _ (lit "user") _ _ ?info _ _] => set (info1 := info)
  end.
  match goal with
  | |- context [add_message _ _ (lit "assistant") ?body _ _ _ _] => set (body2 := body)
  end.
  destruct (store_csv_and_announce env sid csv_data (csv_name file)
              (sm_text_summary summary) (uploaded_csv_marker (csv_name file)) info1 body2
              (mkCSVUploadResponse sid
                 (lit "CSV '" ++ csv_name file ++ lit "' loaded successfully!")
                 (csv_name file) summary) w1 c) as (w' & Hrun & Hl).
  { by rewrite Hd1. }
  { exact Hmark. }
  { exact Hbr. }
  { by rewrite Hu1, Hd1. }
  exists w'. split; [exact Hrun|]. by eapply table_loaded_from.
Qed.

Lemma upload_csv_into_existing_session_witness :
  let w := snd (set_active_csv (healthy env0) (lit "id-0") (table (lit "old.csv") 9)
                  (lit "old.csv") (lit "old") None one_session) in
  ∃ w' resp,
    is_Some (csv_contexts (committed w) !! lit "id-0")
    ∧ upload_csv (healthy env0) plain_read_csv csv_upload (Some (lit "id-0")) w
      = (Ret resp, w')
    ∧ cr_session_id resp = lit "id-0"
    ∧ ((λ a, a_filename a) <$> (match fst (get_active_csv (healthy env0) (lit "id-0") None w')
                                with Ret a => a | Raise _ => None end))
      = Some (Some (lit "a.csv")).
Proof.
  intros w.
  assert (Hc : ∃ c, conversations (committed w) !! lit "id-0" = Some c)
    by (vm_compute; eauto).
  destruct Hc as [c Hc].
  destruct (upload_csv_into_existing_session env0 plain_read_csv csv_upload (lit "id-0")
              w c (fst (parse_frame CsvSpec.scenario_frame (lit "a.csv")))
              (snd (parse_frame CsvSpec.scenario_frame (lit "a.csv"))))
    as (w' & Hrun & Hl & _).
  - vm_compute. reflexivity.
  - exact Hc.
  - vm_compute. reflexivity.
  - vm_compute. reflexivity.
  - apply (bool_decide_unpack _). vm_compute. reflexivity.
  - eexists w', _. split; [vm_compute; eauto|]. split; [exact Hrun|].
    split; [reflexivity|]. rewrite Hl. reflexivity.
Defined.

(** X29. Loading a table from a URL into a session that exists makes it the
    active table of that session under the file name derived from the URL,
    and appends the marker and the acknowledgment; the marker is an upload
    marker, so it changes no title and is kept out of the history sent to
    the model. *)
Theorem url_load_into_existing_session env read_csv http_get request sid w c content
    text csv_data summary :
  url_accepted request = true →
  http_get (url_of request) = Fetched content text →
  Z.of_nat (length content) ≤ CSV_MAX_SIZE →
  parse_csv read_csv text (url_filename (url_of request)) = Ret (csv_data, summary) →
  ur_session_id request = Some sid →
  truthy sid = true →
  conversations (committed w) !! sid = Some c →
  NoDup ([uuid_src env (uuid_draws w); uuid_src env (S (uuid_draws w))]
           ++ message_ids (committed w)) →
  let name := url_filename (url_of request) in
  ∃ w',
    load_csv_from_url (healthy env) read_csv http_get request w
    = (Ret (mkCSVUploadResponse sid (lit "CSV loaded from URL successfully!") name
              summary), w')
    ∧ table_loaded env w w' sid csv_data name (sm_text_summary summary)
        (loaded_csv_marker name).
Proof.
  intros Hurl Hget Hsize Hparse Hreq Hsid Hc Hnd name.
  unfold url_accepted, url_of in *. apply Z.ltb_ge in Hsize.
  unfold load_csv_from_url. cbv zeta. rewrite Hurl. cbn [negb].
  rewrite Hget, Hsize, Hparse. fold name.
  fold (get_or_create (healthy env) (ur_session_id request)). rewrite Hreq.
  destruct (get_or_create_known env sid w c Hsid Hc) as (w1 & H1 & Hd1 & Hu1).
  rewrite (bind_ret _ _ _ _ _ H1).
  fold (loaded_csv_marker name).
  destruct (loaded_csv_marker_marks name) as [Hmark Hbr].
  match goal with
  | |- context [add_message _ _ (lit "user") _ _ ?info _ _] => set (info1 := info)
  end.
  match goal with
  | |- context [add_message _ _ (lit "assistant") ?body _ _ _ _] => set (body2 := body)
  end.
  destruct (store_csv_and_announce env sid csv_data name (sm_text_summary summary)
              (loaded_csv_marker name) info1 body2
              (mkCSVUploadResponse sid (lit "CSV loaded from URL successfully!") name
                 summary) w1 c) as (w' & Hrun & Hl).
  { by rewrite Hd1. }
  { exact Hmark. }
  { exact Hbr. }
  { by rewrite Hu1, Hd1. }
  exists w'. split; [exact Hrun|]. by eapply table_loaded_from.
Qed.

Lemma url_load_into_existing_session_witness :
  ∃ w' resp,
    load_csv_from_url (healthy env0) plain_read_csv scenario_server
      (mkCSVUrlRequest (lit " https://example.org/files/sales.csv?raw=1 ")
         (Some (lit "id-0"))) one_session
    = (Ret resp, w')
    ∧ cr_filename resp = lit "sales.csv"
    ∧ cr_session_id resp = lit "id-0"
    ∧ length (messages (committed w')) = 2%nat.
Proof.
  destruct (url_load_into_existing_session env0 plain_read_csv scenario_server
              (mkCSVUrlRequest (lit " https://example.org/files/sales.csv?raw=1 ")
                 (Some (lit "id-0")))
              (lit "id-0") one_session (new_conversation (lit "id-0") 0 1)
              CsvSpec.scenario CsvSpec.scenario
              (fst (parse_frame CsvSpec.scenario_frame (lit "sales.csv")))
              (snd (parse_frame CsvSpec.scenario_frame (lit "sales.csv"))))
    as (w' & Hrun & _ & _ & (n1 & n2 & Hm & _) & _).
  - vm_compute. reflexivity.
  - reflexivity.
  - vm_compute. discriminate.
  - vm_compute. reflexivity.
  - reflexivity.
  - vm_compute. reflexivity.
  - vm_compute. reflexivity.
  - apply (bool_decide_unpack _). vm_compute. reflexivity.
  - eexists w', _. split; [exact Hrun|].
    split; [vm_compute; reflexivity|]. split; [reflexivity|].
    rewrite Hm. reflexivity.
Defined.

Lemma uploaded_image_marker_marks filename :
  upload_marker (uploaded_image_marker filename) = true
  ∧ startswith (uploaded_image_marker filename) (lit "[") = true.
Proof.
  unfold upload_marker, uploaded_image_marker.
  assert (H1 : lit "[Uploaded image: " = lit "[Uploaded" ++ lit " image: ")
    by (vm_compute; reflexivity).
  assert (H2 : lit "[Uploaded image: " = lit "[" ++ lit "Uploaded image: ")
    by (vm_compute; reflexivity).
  split.
  - rewrite H1, <- app_assoc, startswith_app. reflexivity.
  - rewrite H2, <- app_assoc. apply startswith_app.
Qed.

Lemma image_checks_pass file :
  image_accepted file = true →
  negb (match uf_content_type file with
        | Some t => existsb (str_eqb t) IMAGE_ALLOWED_TYPES
        | None => false
        end) = false
  ∧ (IMAGE_MAX_SIZE <? Z.of_nat (length (uf_content file))) = false.
Proof.
  unfold image_accepted. intros [H1 H2]%andb_true_iff.
  apply negb_true_iff in H2. by rewrite H1, H2.
Qed.

(** X30. The first image uploaded to a session that exists is stored for it in
    base 64, and two messages are appended: the marker, which carries the
    preview, and the analysis. The upload does not depend on the vision
    provider: when the provider fails, the assistant's message is the text
    of the failure. *)
Theorem upload_image_into_existing_session env complete file sid w c :
  truthy sid = true →
  conversations (committed w) !! sid = Some c →
  image_contexts (committed w) !! sid = None →
  image_accepted file = true →
  NoDup ([uuid_src env (uuid_draws w); uuid_src env (S (uuid_draws w))]
           ++ message_ids (committed w)) →
  let image := b64encode (uf_content file) in
  let analysis :=
    match complete model (analysis_payload image) with
    | Ret text => text
    | Raise e => lit "Lỗi phân tích ảnh: " ++ exn_str e
    end in
  ∃ w' new1 new2,
    upload_image (healthy env) complete file (Some sid) w
    = (Ret (mkImageUploadBody
              (lit "Image '" ++ image_name file ++ lit "' uploaded successfully")
              sid analysis (image_data_url file) (image_name file)), w')
    ∧ fst (get_active_image (healthy env) sid None w') = Ret (Some image)
    ∧ fst (get_image_filename (healthy env) sid None w') = Ret (Some (image_name file))
    ∧ messages (committed w') = messages (committed w) ++ [new1; new2]
    ∧ m_conversation_id new1 = sid ∧ m_role new1 = lit "user"
    ∧ m_content new1 = uploaded_image_marker (image_name file)
    ∧ m_image_url new1 = Some (image_data_url file)
    ∧ upload_marker (m_content new1) = true
    ∧ m_conversation_id new2 = sid ∧ m_role new2 = lit "assistant"
    ∧ m_content new2 = analysis
    ∧ title_of (committed w') sid = title_of (committed w) sid.
Proof.
  intros Hsid Hc Hi Hacc Hnd image analysis.
  apply NoDup_two_fresh in Hnd as (Hm1 & Hm2 & Hne).
  destruct (image_checks_pass file Hacc) as [Htype Hsize].
  unfold upload_image. cbv zeta. rewrite Htype, Hsize.
  fold (get_or_create (healthy env) (Some sid)). fold (image_name file).
  fold image. fold (image_data_url file). fold (uploaded_image_marker (image_name file)).
  destruct (get_or_create_known env sid w c Hsid Hc) as (w1 & H1 & Hd1 & Hu1).
  rewrite (bind_ret _ _ _ _ _ H1).
  assert (Ha : analyze_image complete image (Some (lit "Describe this image briefly."))
               = analysis).
  { unfold analyze_image. reflexivity. }
  rewrite Ha.
  destruct (set_active_image_ok' env sid image (image_name file) w1 c)
    as (w2 & tx & ty & H2 & Hd2 & Hu2).
  { by rewrite Hd1. }
  { by rewrite Hd1. }
  rewrite (bind_ret _ _ _ _ _ H2).
  set (c1 := set_updated_at ty (set_image_flags true (Some (image_name file)) c)) in *.
  assert (Hc1 : conversations (committed w2) !! sid = Some c1).
  { rewrite Hd2. unfold set_image_contexts, set_conversations. cbn [conversations].
    apply lookup_insert_eq. }
  assert (Hms2 : messages (committed w2) = messages (committed w)).
  { rewrite Hd2. unfold set_image_contexts, set_conversations. cbn [messages].
    by rewrite Hd1. }
  destruct (uploaded_image_marker_marks (image_name file)) as [Hmark Hbr].
  destruct (add_message_ok' env sid (lit "user") (uploaded_image_marker (image_name file))
              (Some (image_data_url file)) None None w2 c1 Hc1)
    as (w3 & ts1 & up1 & H3 & Hd3 & Hu3).
  { rewrite Hu2, Hu1. unfold message_ids in *. by rewrite Hms2. }
  cbv zeta in H3. rewrite Hu2, Hu1 in H3, Hd3, Hu3.
  rewrite (bind_ret _ _ _ _ _ H3).
  set (msg1 := mkMessage (uuid_src env (uuid_draws w)) sid (lit "user")
                 (uploaded_image_marker (image_name file)) ts1
                 (Some (image_data_url file)) None None) in *.
  set (c2 := set_title (next_title c1 (lit "user") (uploaded_image_marker (image_name file)))
               (set_updated_at up1 c1)).
  assert (Hc2 : conversations (committed w3) !! sid = Some c2).
  { rewrite Hd3, conversations_add. cbn [m_conversation_id msg1]. by rewrite decide_True. }
  destruct (add_message_ok' env sid (lit "assistant") analysis None None None w3 c2 Hc2)
    as (w4 & ts2 & up2 & H4 & Hd4 & Hu4).
  { rewrite Hu3, Hd3, message_ids_add. cbn [m_id msg1].
    rewrite elem_of_app, list_elem_of_singleton. unfold message_ids in *.
    rewrite Hms2. intros [H|H]; [exact (Hm2 H)|]. by apply Hne. }
  cbv zeta in H4. rewrite Hu3 in H4, Hd4, Hu4.
  rewrite (bind_ret _ _ _ _ _ H4).
  set (msg2 := mkMessage (uuid_src env (S (uuid_draws w))) sid (lit "assistant") analysis
                 ts2 None None None) in *.
  exists w4, msg1, msg2. split; [reflexivity|].
  assert (Hk4 : conversations (committed w4) !! sid
                = Some (set_title (next_title c2 (lit "assistant") analysis)
                          (set_updated_at up2 c2))).
  { rewrite Hd4, conversations_add. cbn [m_conversation_id msg2 m_role m_content].
    by rewrite decide_True. }
  split.
  { rewrite get_active_image_value, Hd4.
    unfold add_message_db, set_messages, set_conversations. cbn [image_contexts].
    rewrite Hd3. unfold add_message_db, set_messages, set_conversations.
    cbn [image_contexts]. rewrite Hd2. unfold set_image_contexts. cbn [image_contexts].
    by rewrite lookup_insert_eq. }
  split.
  { rewrite get_image_filename_value, Hk4. reflexivity. }
  split.
  { rewrite Hd4. unfold add_message_db at 1, set_messages. cbn [messages].
    rewrite Hd3. unfold add_message_db, set_messages, set_conversations.
    cbn [messages]. rewrite Hms2. by rewrite <- app_assoc. }
  repeat (split; [done|]).
  unfold title_of. rewrite Hk4, Hc. cbn [fmap option_fmap option_map].
  rewrite next_title_assistant. subst c2. cbn [c_title set_title set_updated_at].
  rewrite (next_title_marker _ _ _ Hbr). subst c1. by destruct c.
Qed.

Lemma upload_image_into_existing_session_witness :
  ∃ w' resp,
    upload_image (healthy env0) no_vision image_upload (Some (lit "id-0")) one_session
    = (Ret resp, w')
    ∧ ib_analysis resp = lit "Lỗi phân tích ảnh: 503"
    ∧ fst (get_active_image (healthy env0) (lit "id-0") None w') = Ret (Some (lit "iVBORw=="))
    ∧ length (messages (committed w')) = 2%nat.
Proof.
  destruct (upload_image_into_existing_session env0 no_vision image_upload (lit "id-0")
              one_session (new_conversation (lit "id-0") 0 1))
    as (w' & n1 & n2 & Hrun & Hi & _ & Hm & _).
  - vm_compute. reflexivity.
  - vm_compute. reflexivity.
  - vm_compute. reflexivity.
  - vm_compute. reflexivity.
  - apply (bool_decide_unpack _). vm_compute. reflexivity.
  - eexists w', _. split; [exact Hrun|].
    split; [vm_compute; reflexivity|].
    split; [rewrite Hi; vm_compute; reflexivity|].
    rewrite Hm. reflexivity.
Defined.

(** X10. A second image for the same session is refused: the unit of work
    sends the INSERT of the new row before the DELETE of the old one, the
    unique constraint on [conversation_id] is violated, [set_active_image]
    raises and the stored image stays as it was. The upload route fails
    with it, before it writes any message. *)
Theorem second_image_is_refused env complete k image filename file w c i :
  conversations (committed w) !! k = Some c →
  image_contexts (committed w) !! k = Some i →
  let r := set_active_image (healthy env) k image filename None w in
  let r' := upload_image (healthy env) complete file (Some k) w in
  fst r = Raise (integrity_error env)
  ∧ committed (snd r) = committed w
  ∧ fst (get_active_image (healthy env) k None (snd r)) = Ret (Some (i_image_base64 i))
  ∧ (truthy k = true → image_accepted file = true →
     fst r' = Raise (integrity_error env) ∧ committed (snd r') = committed w).
Proof.
  intros Hc Hi r r'. subst r r'.
  rewrite (set_active_image_conflict env k image filename w c i Hc Hi).
  cbn [fst snd settled committed].
  split; [done|]. split; [done|]. split.
  { rewrite get_active_image_value. cbn [settled committed]. by rewrite Hi. }
  intros Hk Hacc. destruct (image_checks_pass file Hacc) as [Htype Hsize].
  unfold upload_image. cbv zeta. rewrite Htype, Hsize.
  fold (get_or_create (healthy env) (Some k)).
  destruct (get_or_create_known env k w c Hk Hc) as (w1 & H1 & Hd1 & Hu1).
  rewrite (bind_ret _ _ _ _ _ H1).
  assert (Hc1 : conversations (committed w1) !! k = Some c) by (by rewrite Hd1).
  assert (Hi1 : image_contexts (committed w1) !! k = Some i) by (by rewrite Hd1).
  rewrite (bind_raise _ _ _ _ _
             (set_active_image_conflict env k _ _ w1 c i Hc1 Hi1)).
  cbn [fst snd settled committed]. by rewrite Hd1.
Qed.

Lemma second_image_is_refused_witness :
  let w := snd (set_active_image (healthy env0) (lit "id-0") (lit "aGk=") (lit "p.png")
                  None one_session) in
  let r := set_active_image (healthy env0) (lit "id-0") (lit "eW8=") (lit "q.png")
             None w in
  let r' := upload_image (healthy env0) describe image_upload (Some (lit "id-0")) w in
  fst r = Raise (integrity_error env0)
  ∧ fst (get_active_image (healthy env0) (lit "id-0") None (snd r))
    = Ret (Some (lit "aGk="))
  ∧ fst r' = Raise (integrity_error env0)
  ∧ committed (snd r') = committed w.
Proof.
  intros w r r'.
  assert (Hc : ∃ c, conversations (committed w) !! lit "id-0" = Some c)
    by (vm_compute; eauto).
  destruct Hc as [c Hc].
  assert (Hi : image_contexts (committed w) !! lit "id-0"
               = Some (image_context_row (lit "id-0") (lit "aGk=") (lit "p.png") 2))
    by (vm_compute; reflexivity).
  destruct (second_image_is_refused env0 describe (lit "id-0") (lit "eW8=") (lit "q.png")
              image_upload w c _ Hc Hi) as (H0 & _ & H1 & H2).
  split; [exact H0|]. split; [exact H1|].
  apply H2; vm_compute; reflexivity.
Defined.

End UploadProps.
